(** * LearnCheck: adaptive question generation

  A shallow embedding of the question-generation slice of the LearnCheck
  backend and frontend:

  - [backend/src/routes/llm.js]: request validation, adaptive difficulty,
    cache key, response normalisation, fallback questions and the
    [POST /generate-questions] handler;
  - [backend/src/services/cache.js]: the Redis pass-through cache;
  - [frontend/src/lib/api.ts] ([apiService.generateQuestions]) and
    [frontend/src/components/Timer.tsx] ([handleTryAgain], the score
    and the navigation of the quiz page);
  - the tutorial and user routes of the backend with the Dicoding
    service and the mock Dicoding API behind them, the browser storage
    of the widget ([frontend/src/lib/storage.ts]) and its assessment
    hook.

  Conventions.  A JavaScript string is modelled by the string of its
  UTF-8 bytes, which is what [Buffer.from] produces; its [length], which
  JavaScript counts in UTF-16 code units, is [string_length].  For ASCII
  text the bytes, the code units and the characters are the same.  JSON
  numbers are integers, as [Z]; their decimal text is what a template
  literal prints.  A property that is [undefined] is [None]; [null] is
  the value [JNull].  Calls to the logger have no effect on what a
  function returns and are left out.  Two libraries that are not part of
  the repository read strings as numbers, Joi and the JavaScript engine:
  what they read is a parameter of the model ([Joi.Coercion] and the
  [toInteger] of the environment). *)

From Stdlib Require Import ZArith QArith Qround String Ascii List Lia Bool.
From stdpp Require Import base strings pretty list gmap.

Set Warnings "-register-all".

Local Open Scope list_scope.
Local Open Scope Z_scope.

(* ===================================================================== *)
(** ** JavaScript values and exceptions *)
(* ===================================================================== *)

Module Js.

(** A parsed JSON value.  An object is its list of properties, in
    insertion order; a property is read with [obj_get], which returns
    the first binding of the key. *)
Inductive jsval : Type :=
| JNull
| JBool (b : bool)
| JNum (n : Z)
| JStr (s : string)
| JArr (items : list jsval)
| JObj (fields : list (string * jsval)).

(** A thrown [Error] object; only its message is observed. *)
Record Error : Type := mkError { message : string }.

(** The outcome of running a piece of JavaScript: it returns a value or
    throws.  A rejected promise that is [await]ed inside a [try] block
    is a [Throw] as well. *)
Inductive result (A : Type) : Type :=
| Ok (a : A)
| Throw (e : Error).
Arguments Ok {A} a.
Arguments Throw {A} e.

Definition bind {A B} (m : result A) (k : A -> result B) : result B :=
  match m with
  | Ok a => k a
  | Throw e => Throw e
  end.

(** [try { body } catch (error) { handler }] *)
Definition try_catch {A} (body : result A) (handler : Error -> result A)
  : result A :=
  match body with
  | Ok a => Ok a
  | Throw e => handler e
  end.

Definition TypeError : Error := mkError "TypeError".

(** ToBoolean. *)
Definition truthy (v : jsval) : bool :=
  match v with
  | JNull => false
  | JBool b => b
  | JNum n => negb (n =? 0)
  | JStr s => negb (String.eqb s "")
  | JArr _ => true
  | JObj _ => true
  end.

(** ToBoolean of a possibly [undefined] value. *)
Definition truthy_opt (o : option jsval) : bool :=
  match o with
  | Some v => truthy v
  | None => false
  end.

(** [a || b] where [a] may be [undefined]. *)
Definition or_else (o : option jsval) (d : jsval) : jsval :=
  match o with
  | Some v => if truthy v then v else d
  | None => d
  end.

Fixpoint assoc_get (fields : list (string * jsval)) (k : string)
  : option jsval :=
  match fields with
  | [] => None
  | (k', v) :: rest => if String.eqb k' k then Some v else assoc_get rest k
  end.

(** Own-property lookup on an object; any other value has none of the
    properties read by this program. *)
Definition obj_get (v : jsval) (k : string) : option jsval :=
  match v with
  | JObj fields => assoc_get fields k
  | _ => None
  end.

(** [v.k] as an expression: reading a property of [null] throws a
    TypeError; primitives and arrays answer [undefined] for the keys
    used here ([options], [id], [text], [question], ...). *)
Definition get_prop (v : jsval) (k : string) : result (option jsval) :=
  match v with
  | JNull => Throw TypeError
  | _ => Ok (obj_get v k)
  end.

(** [typeof v === 'object']: true of objects, arrays and [null]. *)
Definition typeof_object (v : jsval) : bool :=
  match v with
  | JNull | JArr _ | JObj _ => true
  | _ => false
  end.

(** [Array.prototype.slice(0, n)] *)
Definition slice0 {A} (n : Z) (l : list A) : list A :=
  if n <? 0 then take (Z.to_nat (Z.of_nat (length l) + n)) l
  else take (Z.to_nat n) l.

(** ToString, as the conversion of an array to a primitive applies it:
    the elements are joined by commas, [null] giving the empty text. *)
Fixpoint to_string (v : jsval) : string :=
  match v with
  | JNull => "null"
  | JBool b => if b then "true" else "false"
  | JNum n => pretty n
  | JStr s => s
  | JArr items =>
      (fix join (l : list jsval) : string :=
         match l with
         | [] => ""
         | x :: rest =>
             match x with JNull => "" | _ => to_string x end
             +:+ match rest with [] => "" | _ :: _ => "," +:+ join rest end
         end) items
  | JObj _ => "[object Object]"
  end.

(** ToIntegerOrInfinity, as [slice] applies it to its bound.  Numbers
    and booleans are converted as JavaScript does and [null] gives 0.
    A string is read as a number by the engine: [read] is that reading
    followed by the truncation to an integer, 0 for a string that is
    not a number (an infinite bound cuts a list as any bound beyond its
    length does).  An array is converted to its text first; the text of
    an object is not a number. *)
Definition to_integer (read : string -> Z) (v : jsval) : Z :=
  match v with
  | JNull => 0
  | JBool b => if b then 1 else 0
  | JNum n => n
  | JStr s => read s
  | JArr _ => read (to_string v)
  | JObj _ => 0
  end.

(** The UTF-16 code units of the character that a UTF-8 byte starts: a
    byte below 128 and the first byte of a sequence of two or three
    bytes start a character of one unit, the first byte of a sequence
    of four bytes a character of two units (a surrogate pair), and a
    continuation byte starts nothing. *)
Definition units (c : ascii) : nat :=
  let b := nat_of_ascii c in
  if (b <? 128)%nat then 1%nat
  else if (b <? 192)%nat then 0%nat
  else if (b <? 240)%nat then 1%nat
  else 2%nat.

(** [s.length] *)
Fixpoint string_length (s : string) : nat :=
  match s with
  | EmptyString => 0%nat
  | String c rest => (units c + string_length rest)%nat
  end.

(** [String.fromCharCode] on a code below 256. *)
Definition fromCharCode (code : nat) : string :=
  String (ascii_of_nat code) EmptyString.

(** [array.map((x, i) => f(i, x))] where [f] may throw: the first
    exception aborts the traversal. *)
Fixpoint map_indexed {A B} (f : nat -> A -> result B) (i : nat)
    (l : list A) : result (list B) :=
  match l with
  | [] => Ok []
  | x :: rest =>
      match f i x with
      | Ok y =>
          match map_indexed f (S i) rest with
          | Ok ys => Ok (y :: ys)
          | Throw e => Throw e
          end
      | Throw e => Throw e
      end
  end.

(** The two functions of the global [JSON] object.  [parse] coerces its
    argument to a string first, so it accepts any value. *)
Record Json : Type := mkJson {
  parse : jsval -> result jsval;
  stringify : jsval -> result string
}.

End Js.
Import Js.

Declare Scope js_scope.
Notation "'let!' x ':=' m 'in' k" := (bind m (fun x => k))
  (at level 10, x name, m at level 100, k at level 200) : js_scope.
Local Open Scope js_scope.

(* ===================================================================== *)
(** ** Base64 and the content fingerprint *)
(* ===================================================================== *)

Module Base64.

Definition alphabet : string :=
  "ABCDEFGHIJKLMNOPQRSTUVWXYZabcdefghijklmnopqrstuvwxyz0123456789+/".

Definition digit (n : N) : ascii :=
  match String.get (N.to_nat n) alphabet with
  | Some c => c
  | None => "="%char
  end.

Definition enc1 (a : N) : ascii := digit (N.shiftr a 2).
Definition enc2 (a b : N) : ascii :=
  digit (N.lor (N.shiftl (N.land a 3) 4) (N.shiftr b 4)).
Definition enc3 (b c : N) : ascii :=
  digit (N.lor (N.shiftl (N.land b 15) 2) (N.shiftr c 6)).
Definition enc4 (c : N) : ascii := digit (N.land c 63).

(** [Buffer.from(s).toString('base64')]: three bytes become four
    digits, the tail is padded with [=]. *)
Fixpoint encode (s : string) : string :=
  match s with
  | EmptyString => EmptyString
  | String a EmptyString =>
      let a := N_of_ascii a in
      String (enc1 a) (String (enc2 a 0) "==")
  | String a (String b EmptyString) =>
      let a := N_of_ascii a in
      let b := N_of_ascii b in
      String (enc1 a) (String (enc2 a b) (String (enc3 b 0) "="))
  | String a (String b (String c rest)) =>
      let a := N_of_ascii a in
      let b := N_of_ascii b in
      let c := N_of_ascii c in
      String (enc1 a) (String (enc2 a b)
        (String (enc3 b c) (String (enc4 c) (encode rest))))
  end.

End Base64.

(* ===================================================================== *)
(** ** Request validation (Joi, with its default options) *)
(* ===================================================================== *)

Module Joi.

(** The error types the schema of this program can raise, named as Joi
    names them ([any.required], [string.min], ...). *)
Inductive Rule : Type :=
| any_required
| any_only
| string_base
| string_empty
| string_min
| string_max
| number_base
| number_integer
| number_infinity
| number_unsafe
| number_min
| number_max
| object_base
| object_unknown.

(** One entry of [error.details]: the key at fault and the rule it
    breaks.  The handler sends the entry's message, which Joi derives
    from these two. *)
Record Violation : Type := mkViolation { path : string; rule : Rule }.

(** [Joi.string().min(lo).max(hi)]; an empty string is refused.  The
    two bounds are on [value.length]. *)
Definition string_between (lo hi : Z) (v : jsval) : Rule + string :=
  match v with
  | JStr s =>
      if String.eqb s "" then inl string_empty
      else if Z.of_nat (string_length s) <? lo then inl string_min
      else if hi <? Z.of_nat (string_length s) then inl string_max
      else inr s
  | _ => inl string_base
  end.

(** [Joi.string()] *)
Definition string_any (v : jsval) : Rule + string :=
  match v with
  | JStr s => if String.eqb s "" then inl string_empty else inr s
  | _ => inl string_base
  end.

(** [Joi.string().valid(a, b, ...)] *)
Definition string_valid (allowed : list string) (v : jsval) : Rule + string :=
  match v with
  | JStr s =>
      if existsb (String.eqb s) allowed then inr s else inl any_only
  | _ => inl any_only
  end.

(** Joi converts by default: where a schema expects a number, a string
    that spells one is replaced by that number before the rules run.
    What [Joi.number().integer()] makes of a string is a parameter of
    the model: the integer it reads in the string, or the error it
    reports ([number.base] for a string that spells no number,
    [number.integer] for one that spells a fraction, [number.unsafe],
    [number.infinity]). *)
Definition Coercion : Type := string -> Rule + Z.

(** [Number.MAX_SAFE_INTEGER] *)
Definition MAX_SAFE_INTEGER : Z := 9007199254740991.

(** The rule of every number schema that is not declared unsafe. *)
Definition safe (n : Z) : Rule + Z :=
  if (n <? - MAX_SAFE_INTEGER) || (MAX_SAFE_INTEGER <? n)
  then inl number_unsafe
  else inr n.

(** [Joi.number().integer()] *)
Definition integer (coerce : Coercion) (v : jsval) : Rule + Z :=
  match v with
  | JNum n => safe n
  | JStr s =>
      match coerce s with
      | inl r => inl r
      | inr n => safe n
      end
  | _ => inl number_base
  end.

(** [Joi.number().integer().min(lo)], with [.max(hi)] when given. *)
Definition integer_between (coerce : Coercion) (lo : Z) (hi : option Z)
    (v : jsval) : Rule + Z :=
  match integer coerce v with
  | inl r => inl r
  | inr n =>
      if n <? lo then inl number_min
      else match hi with
           | Some h => if h <? n then inl number_max else inr n
           | None => inr n
           end
  end.

(** Presence: [.required()], [.default(d)] and [.optional()]. *)
Definition required {A} (check : jsval -> Rule + A) (o : option jsval)
  : Rule + A :=
  match o with
  | Some v => check v
  | None => inl any_required
  end.

Definition default {A} (d : A) (check : jsval -> Rule + A)
    (o : option jsval) : Rule + A :=
  match o with
  | Some v => check v
  | None => inr d
  end.

Definition optional {A} (check : jsval -> Rule + A) (o : option jsval)
  : Rule + option A :=
  match o with
  | Some v =>
      match check v with
      | inl r => inl r
      | inr a => inr (Some a)
      end
  | None => inr None
  end.

(** The outcome of [schema.validate(body)]: [{ error, value }]. *)
Inductive validation (A : Type) : Type :=
| Valid (value : A)
| Invalid (details : list Violation).
Arguments Valid {A} value.
Arguments Invalid {A} details.

(** Validation of one key under [abortEarly: true], Joi's default and
    the option this program runs with: the first key at fault ends the
    validation with its single error. *)
Definition key {A B} (name : string) (checked : Rule + A)
    (k : A -> validation B) : validation B :=
  match checked with
  | inl r => Invalid [mkViolation name r]
  | inr a => k a
  end.

(** The violation of one key, if any. *)
Definition key_violation {A} (name : string) (checked : Rule + A)
  : list Violation :=
  match checked with
  | inl r => [mkViolation name r]
  | inr _ => []
  end.

(** A check passes: it answers a value. *)
Definition passes {A} (checked : Rule + A) : Prop :=
  exists a, checked = inr a.

End Joi.

(* ===================================================================== *)
(** ** The Redis pass-through cache (services/cache.js) *)
(* ===================================================================== *)

Module Cache.

(** The three commands of the Redis client the cache uses.  [get]
    answers the stored string or [null] ([None]); each command may
    throw (a rejected promise). *)
Record RedisClient : Type := mkRedisClient {
  redis_get : string -> result (option string);
  redis_setEx : string -> Z -> string -> result unit;
  redis_del : string -> result Z
}.

(** The module-level variables [client] and [isConnected]. *)
Record State : Type := mkState {
  client : option RedisClient;
  isConnected : bool
}.

(** [client && isConnected] as a condition. *)
Definition isAvailable (st : State) : bool :=
  match client st with
  | Some _ => isConnected st
  | None => false
  end.

(** A method call on [client]; on [null] it throws a TypeError. *)
Definition with_client {A} (st : State) (call : RedisClient -> result A)
  : result A :=
  match client st with
  | Some c => call c
  | None => Throw TypeError
  end.

(** [cache.get]: lines 63-79. *)
Definition get (json : Json) (st : State) (key : string) : result jsval :=
  try_catch
    (if negb (isAvailable st) then Ok JNull
     else
       let! value := with_client st (fun c => redis_get c key) in
       match value with
       | Some s =>
           if negb (String.eqb s "") then parse json (JStr s) else Ok JNull
       | None => Ok JNull
       end)
    (fun error => Ok JNull).

(** [cache.set]: lines 82-96; [ttl] defaults to 3600 when omitted. *)
Definition set (json : Json) (st : State) (key : string) (value : jsval)
    (ttl : option Z) : result bool :=
  let ttl := match ttl with Some t => t | None => 3600 end in
  try_catch
    (if negb (isAvailable st) then Ok false
     else
       let! serializedValue := stringify json value in
       let! _ := with_client st (fun c => redis_setEx c key ttl serializedValue) in
       Ok true)
    (fun error => Ok false).

(** [cache.del]: lines 99-112. *)
Definition del (st : State) (key : string) : result bool :=
  try_catch
    (if negb (isAvailable st) then Ok false
     else
       let! _ := with_client st (fun c => redis_del c key) in
       Ok true)
    (fun error => Ok false).

End Cache.

(* ===================================================================== *)
(** ** The question route (routes/llm.js) *)
(* ===================================================================== *)

Module Llm.

(** *** The request schema: lines 21-30 *)

(** The validated request: [value] of line 42, with defaults filled. *)
Record Value : Type := mkValue {
  content : string;
  questionCount : Z;
  difficulty : string;
  language : string;
  questionType : string;
  attemptNumber : Z;
  previousScore : option Z;
  userId : option string
}.

Definition schemaKeys : list string :=
  ["content"; "questionCount"; "difficulty"; "language"; "questionType";
   "attemptNumber"; "previousScore"; "userId"].

Definition check_content (body : jsval) : Joi.Rule + string :=
  Joi.required (Joi.string_between 100 50000) (obj_get body "content").

Definition check_questionCount (coerce : Joi.Coercion) (body : jsval)
  : Joi.Rule + Z :=
  Joi.default 3 (Joi.integer_between coerce 1 (Some 10))
    (obj_get body "questionCount").

Definition check_difficulty (body : jsval) : Joi.Rule + string :=
  Joi.default "medium" (Joi.string_valid ["easy"; "medium"; "hard"])
    (obj_get body "difficulty").

Definition check_language (body : jsval) : Joi.Rule + string :=
  Joi.default "id" (Joi.string_valid ["id"; "en"]) (obj_get body "language").

Definition check_questionType (body : jsval) : Joi.Rule + string :=
  Joi.default "multiple-choice"
    (Joi.string_valid ["multiple-choice"; "true-false"; "short-answer"])
    (obj_get body "questionType").

Definition check_attemptNumber (coerce : Joi.Coercion) (body : jsval)
  : Joi.Rule + Z :=
  Joi.default 0 (Joi.integer_between coerce 0 None)
    (obj_get body "attemptNumber").

Definition check_previousScore (coerce : Joi.Coercion) (body : jsval)
  : Joi.Rule + option Z :=
  Joi.optional (Joi.integer_between coerce 0 (Some 100))
    (obj_get body "previousScore").

Definition check_userId (body : jsval) : Joi.Rule + option string :=
  Joi.optional Joi.string_any (obj_get body "userId").

(** The keys of the body that the schema does not declare. *)
Definition unknownKeys (body : jsval) : list string :=
  match body with
  | JObj fields =>
      filter (fun k => negb (existsb (String.eqb k) schemaKeys))
        (map fst fields)
  | _ => []
  end.

(** [generateQuestionsSchema.validate(req.body)], line 42.  No option is
    passed, so Joi aborts early: the keys are checked in the order of
    the schema, then the undeclared keys, and the first failure is the
    only error reported. *)
Definition validate (coerce : Joi.Coercion) (body : jsval)
  : Joi.validation Value :=
  match body with
  | JObj _ =>
      Joi.key "content" (check_content body) (fun content =>
      Joi.key "questionCount" (check_questionCount coerce body)
        (fun questionCount =>
      Joi.key "difficulty" (check_difficulty body) (fun difficulty =>
      Joi.key "language" (check_language body) (fun language =>
      Joi.key "questionType" (check_questionType body) (fun questionType =>
      Joi.key "attemptNumber" (check_attemptNumber coerce body)
        (fun attemptNumber =>
      Joi.key "previousScore" (check_previousScore coerce body)
        (fun previousScore =>
      Joi.key "userId" (check_userId body) (fun userId =>
      match unknownKeys body with
      | k :: _ => Joi.Invalid [Joi.mkViolation k Joi.object_unknown]
      | [] =>
          Joi.Valid (mkValue content questionCount difficulty language
                       questionType attemptNumber previousScore userId)
      end))))))))
  | _ => Joi.Invalid [Joi.mkViolation "value" Joi.object_base]
  end.

(** Every key of the body that breaks the schema, in the order Joi
    visits them: what a validation error "listing every violated
    field" would carry. *)
Definition allViolations (coerce : Joi.Coercion) (body : jsval)
  : list Joi.Violation :=
  match body with
  | JObj _ =>
      Joi.key_violation "content" (check_content body)
      ++ Joi.key_violation "questionCount" (check_questionCount coerce body)
      ++ Joi.key_violation "difficulty" (check_difficulty body)
      ++ Joi.key_violation "language" (check_language body)
      ++ Joi.key_violation "questionType" (check_questionType body)
      ++ Joi.key_violation "attemptNumber" (check_attemptNumber coerce body)
      ++ Joi.key_violation "previousScore" (check_previousScore coerce body)
      ++ Joi.key_violation "userId" (check_userId body)
      ++ map (fun k => Joi.mkViolation k Joi.object_unknown)
           (unknownKeys body)
  | _ => [Joi.mkViolation "value" Joi.object_base]
  end.

(** *** Adaptive difficulty and cache key *)

(** Lines 61-73: the adjusted difficulty.  [previousScore] is [None]
    when the request carries no previous score. *)
Definition adjustedDifficulty (difficulty : string)
    (previousScore : option Z) (attemptNumber : Z) : string :=
  match previousScore with
  | Some scorePercentage =>
      if 0 <? attemptNumber then
        if (80 <=? scorePercentage) && negb (String.eqb difficulty "hard")
        then (if String.eqb difficulty "easy" then "medium" else "hard")
        else if (scorePercentage <=? 40)
                && negb (String.eqb difficulty "easy")
        then (if String.eqb difficulty "hard" then "medium" else "easy")
        else difficulty
      else difficulty
  | None => difficulty
  end.

(** Lines 61-73 for a score that is any number.  The rule compares the
    score with 80 and 40 and does nothing else with it, so it is
    defined on every number; [adjustedDifficulty] is this rule on the
    integers, the scores that the validation of the route lets through
    (lemma [adjustedDifficultyQ_inject]). *)
Definition adjustedDifficultyQ (difficulty : string)
    (previousScore : option Q) (attemptNumber : Z) : string :=
  match previousScore with
  | Some scorePercentage =>
      if 0 <? attemptNumber then
        if Qle_bool 80 scorePercentage
           && negb (String.eqb difficulty "hard")
        then (if String.eqb difficulty "easy" then "medium" else "hard")
        else if Qle_bool scorePercentage 40
                && negb (String.eqb difficulty "easy")
        then (if String.eqb difficulty "hard" then "medium" else "easy")
        else difficulty
      else difficulty
  | None => difficulty
  end.

(** Line 82: [Buffer.from(content).toString('base64').slice(0, 32)]. *)
Definition contentHash (content : string) : string :=
  String.substring 0 32 (Base64.encode content).

(** [userId || 'anonymous'] *)
Definition userTag (userId : option string) : string :=
  match userId with
  | Some u => if String.eqb u "" then "anonymous" else u
  | None => "anonymous"
  end.

(** Line 83: the cache key template. *)
Definition cacheKey (content adjustedDifficulty : string)
    (questionCount attemptNumber : Z) (userId : option string) : string :=
  "questions:" +:+ contentHash content +:+ ":" +:+ adjustedDifficulty
    +:+ ":" +:+ pretty questionCount +:+ ":" +:+ pretty attemptNumber
    +:+ ":" +:+ userTag userId.

(** *** Response normalisation: [parseGeminiResponse], lines 246-311 *)

Module Opt.
Record t : Type := mk { id : jsval; text : jsval }.
Definition to_js (o : t) : jsval := JObj [("id", id o); ("text", text o)].
End Opt.

Module Question.
Record t : Type := mk {
  id : Z;
  question : jsval;
  options : list Opt.t;
  correctAnswer : jsval;
  explanation : jsval
}.
Definition to_js (q : t) : jsval :=
  JObj [("id", JNum (id q)); ("question", question q);
        ("options", JArr (map Opt.to_js (options q)));
        ("correctAnswer", correctAnswer q);
        ("explanation", explanation q)].
End Question.

(** Lines 280-283: one option.  When [opt] is [null], [typeof] answers
    ['object'] and reading [opt.id] throws. *)
Definition normalizeOption (optIndex : nat) (opt : jsval) : result Opt.t :=
  let letter := JStr (fromCharCode (65 + optIndex)) in
  let other :=
    match opt with
    | JStr _ => opt
    | _ => JStr ("Opsi " +:+ pretty (S optIndex))
    end in
  let! id :=
    if typeof_object opt
    then (let! p := get_prop opt "id" in Ok (or_else p letter))
    else Ok letter in
  let! text :=
    if typeof_object opt
    then (let! p := get_prop opt "text" in Ok (or_else p other))
    else Ok other in
  Ok (Opt.mk id text).

(** Lines 286-292: the [while] loop that pads the options to four.
    Each turn adds one option, so four turns of fuel are enough for a
    list that [slice(0, 4)] produced. *)
Fixpoint padOptions (fuel : nat) (normalizedOptions : list Opt.t)
  : list Opt.t :=
  match fuel with
  | O => normalizedOptions
  | S fuel' =>
      if (length normalizedOptions <? 4)%nat then
        let nextId := fromCharCode (65 + length normalizedOptions) in
        padOptions fuel'
          (normalizedOptions ++ [Opt.mk (JStr nextId) (JStr ("Opsi " +:+ nextId))])
      else normalizedOptions
  end.

(** Lines 276-300: one question. *)
Definition normalizeQuestion (index : nat) (q : jsval) : result Question.t :=
  let! o := get_prop q "options" in
  let raw := match o with Some (JArr items) => items | _ => [] end in
  let! normalizedOptions := map_indexed normalizeOption 0 (slice0 4 raw) in
  let normalizedOptions := padOptions 4 normalizedOptions in
  let! question := get_prop q "question" in
  let! correctAnswer := get_prop q "correctAnswer" in
  let! explanation := get_prop q "explanation" in
  Ok (Question.mk (Z.of_nat index + 1)
        (or_else question (JStr ("Soal " +:+ pretty (S index))))
        normalizedOptions
        (or_else correctAnswer (JStr "A"))
        (or_else explanation (JStr "Penjelasan belum tersedia."))).

(** Line 276: [questions.slice(0, expectedCount).map(...)]. *)
Definition normalizeQuestions (questions : list jsval) (expectedCount : Z)
  : result (list Question.t) :=
  map_indexed normalizeQuestion 0 (slice0 expectedCount questions).

(** [parseGeminiResponse(text, expectedCount)].  [extract] stands for
    lines 252-264: trimming, removal of the code fences, selection of
    the outermost bracketed span and [JSON.parse].  The function
    returns [null] ([None]) when anything throws. *)
Definition parseGeminiResponse (extract : string -> result jsval)
    (text : string) (expectedCount : Z) : option (list jsval) :=
  let body :=
    let! questions := extract text in
    match questions with
    | JArr items =>
        if (length items =? 0)%nat
        then Throw (mkError "Empty questions array")
        else
          let! validQuestions := normalizeQuestions items expectedCount in
          Ok (map Question.to_js validQuestions)
    | _ => Ok (slice0 expectedCount [questions])
    end in
  match body with
  | Ok l => Some l
  | Throw _ => None
  end.

(** *** Fallback questions: lines 314-355 *)

Definition fallback : list Question.t :=
  [ Question.mk 1
      (JStr "Apa keuntungan utama menggunakan React Hooks dibandingkan dengan Class Components?")
      [ Opt.mk (JStr "A") (JStr "Lebih cepat dalam rendering");
        Opt.mk (JStr "B") (JStr "Syntax lebih sederhana dan mudah dipahami");
        Opt.mk (JStr "C") (JStr "Mendukung lebih banyak lifecycle methods");
        Opt.mk (JStr "D") (JStr "Kompatibilitas yang lebih baik dengan browser lama") ]
      (JStr "B")
      (JStr "React Hooks memberikan syntax yang lebih clean dan mudah dipahami untuk state management dan side effects, membuat code lebih readable dan maintainable.");
    Question.mk 2
      (JStr "Kapan sebaiknya menggunakan useEffect() dalam React?")
      [ Opt.mk (JStr "A") (JStr "Hanya untuk API calls");
        Opt.mk (JStr "B") (JStr "Setiap kali ada state yang berubah");
        Opt.mk (JStr "C") (JStr "Untuk side effects seperti data fetching, subscriptions, atau DOM manipulation");
        Opt.mk (JStr "D") (JStr "Hanya di komponen class") ]
      (JStr "C")
      (JStr "useEffect adalah hook untuk menangani side effects dalam functional components, termasuk data fetching, event listeners, dan cleanup operations.");
    Question.mk 3
      (JStr "Apa perbedaan antara props dan state dalam React?")
      [ Opt.mk (JStr "A") (JStr "Props bersifat mutable, state immutable");
        Opt.mk (JStr "B") (JStr "Props untuk data dari parent, state untuk data internal component");
        Opt.mk (JStr "C") (JStr "Props hanya untuk class components");
        Opt.mk (JStr "D") (JStr "Tidak ada perbedaan, keduanya sama") ]
      (JStr "B")
      (JStr "Props adalah data yang diberikan dari parent component dan bersifat read-only, sedangkan state adalah data internal yang dapat diubah oleh component itu sendiri.") ].

(** [getFallbackQuestions(count = 3)]: [fallback.slice(0, count)];
    [read] is the engine's reading of a string as an integer. *)
Definition getFallbackQuestions (read : string -> Z) (count : option jsval)
  : list Question.t :=
  let count := match count with Some c => c | None => JNum 3 end in
  slice0 (to_integer read count) fallback.

(** *** The handler of [POST /generate-questions]: lines 39-177 *)

Module Res.
(** [metadata] of the response to a fresh generation. *)
Record Metadata : Type := mkMetadata {
  requestedDifficulty : string;
  adjustedDifficulty : string;
  previousScore : option Z;
  language : string;
  questionType : string;
  contentLength : nat;
  questionCount : nat
}.
(** The HTTP status and the JSON body sent; a field the handler does
    not write is [None].  The [generatedAt] timestamp is left out. *)
Record t : Type := mk {
  status : Z;
  success : option bool;
  error : option string;
  details : option (list Joi.Violation);
  message : option string;
  questions : option jsval;
  cached : option bool;
  fallback : option bool;
  difficulty : option string;
  attemptNumber : option Z;
  metadata : option Metadata
}.
End Res.

(** What the handler calls besides its own code.  [generate] is the
    prompt construction followed by [model.generateContent] and
    [response.text()]: from the content, the question count, the
    adjusted difficulty, the language, the question type and the
    attempt number to the generated text.  [store] is the state of the
    cache module for the duration of the request.  [coerce] is Joi's
    reading of a string as a number and [toInteger] the engine's, when
    [slice] converts its bound. *)
Record Env : Type := mkEnv {
  json : Json;
  store : Cache.State;
  generate : string -> Z -> string -> string -> string -> Z -> result string;
  extract : string -> result jsval;
  coerce : Joi.Coercion;
  toInteger : string -> Z
}.

(** Joi and the engine read the same number: a string that Joi converts
    to an integer is a decimal literal, which the engine reads as the
    same integer; and the empty string spells no number for Joi. *)
Definition readAlike (env : Env) : Prop :=
  (forall s n, coerce env s = inr n -> toInteger env s = n)
  /\ (forall n, coerce env "" <> inr n).

(** Lines 44-47. *)
Definition validationError (details : list Joi.Violation) : Res.t :=
  Res.mk 400 None (Some "Validation error") (Some details) None None None
    None None None None.

(** Lines 164-175: the body of the [catch] block. *)
Definition fallbackResponse (read : string -> Z) (body : jsval) : Res.t :=
  let fallbackQuestions :=
    getFallbackQuestions read
      (Some (or_else (obj_get body "questionCount") (JNum 3))) in
  Res.mk 200 (Some false) (Some "Question generation failed") None
    (Some "Menggunakan soal contoh untuk development/demo")
    (Some (JArr (map Question.to_js fallbackQuestions)))
    None (Some true) None None None.

(** Lines 50-155: the [try] block after a successful validation. *)
Definition generateQuestions (env : Env) (value : Value) : result Res.t :=
  let adjusted :=
    adjustedDifficulty (difficulty value) (previousScore value)
      (attemptNumber value) in
  let key :=
    cacheKey (content value) adjusted (questionCount value)
      (attemptNumber value) (userId value) in
  let! cached := Cache.get (json env) (store env) key in
  if truthy cached then
    let! parsed := parse (json env) cached in
    Ok (Res.mk 200 (Some true) None None None (Some parsed) (Some true)
          None (Some adjusted) (Some (attemptNumber value)) None)
  else
    let! text :=
      generate env (content value) (questionCount value) adjusted
        (language value) (questionType value) (attemptNumber value) in
    match parseGeminiResponse (extract env) text (questionCount value) with
    | None => Throw (mkError "Failed to generate valid questions")
    | Some [] => Throw (mkError "Failed to generate valid questions")
    | Some questions =>
        let! serialized := stringify (json env) (JArr questions) in
        let! _ :=
          Cache.set (json env) (store env) key (JStr serialized)
            (Some 3600) in
        Ok (Res.mk 200 (Some true) None None None (Some (JArr questions))
              (Some false) None (Some adjusted)
              (Some (attemptNumber value))
              (Some (Res.mkMetadata (difficulty value) adjusted
                       (previousScore value) (language value)
                       (questionType value)
                       (string_length (content value))
                       (length questions))))
    end.

(** The whole handler: validation, generation and the [catch] block. *)
Definition handler (env : Env) (body : jsval) : result Res.t :=
  try_catch
    (match validate (coerce env) body with
     | Joi.Invalid details => Ok (validationError details)
     | Joi.Valid value => generateQuestions env value
     end)
    (fun error => Ok (fallbackResponse (toInteger env) body)).

(** The cache misses on a request: [cache.get] answers a falsy value. *)
Definition cacheMisses (env : Env) (value : Value) : Prop :=
  let adjusted :=
    adjustedDifficulty (difficulty value) (previousScore value)
      (attemptNumber value) in
  forall cached,
    Cache.get (json env) (store env)
      (cacheKey (content value) adjusted (questionCount value)
         (attemptNumber value) (userId value)) = Ok cached ->
    truthy cached = false.

End Llm.

(* ===================================================================== *)
(** ** The API client of the widget (lib/api.ts) *)
(* ===================================================================== *)

Module Api.

(** [GenerateQuestionsRequest], lines 39-48. *)
Record GenerateQuestionsRequest : Type := mkRequest {
  content : string;
  difficulty : option string;
  questionCount : option Z;
  language : option string;
  tutorialTitle : option string;
  attemptNumber : option Z;
  previousScore : option Q;
  userId : option string
}.

(** [s || d] on an optional string. *)
Definition string_or (o : option string) (d : string) : string :=
  match o with
  | Some s => if String.eqb s "" then d else s
  | None => d
  end.

(** [n || d] on an optional number. *)
Definition number_or (o : option Z) (d : Z) : Z :=
  match o with
  | Some n => if n =? 0 then d else n
  | None => d
  end.

(** Lines 199-204: the object given to [JSON.stringify] as the body of
    the POST request, as the backend parses it. *)
Definition generateQuestions_body (request : GenerateQuestionsRequest)
  : jsval :=
  JObj [("content", JStr (content request));
        ("difficulty", JStr (string_or (difficulty request) "medium"));
        ("questionCount", JNum (number_or (questionCount request) 3));
        ("language", JStr (string_or (language request) "id"))].

End Api.

(* ===================================================================== *)
(** ** The retry handler of the quiz widget (Timer.tsx) *)
(* ===================================================================== *)

Module Timer.

(** Lines 401-408 of [handleTryAgain]: the next difficulty from the
    current one and the score percentage of the finished attempt. *)
Definition nextDifficulty (currentDifficulty : string)
    (scorePercentage : Q) : string :=
  if Qle_bool 80 scorePercentage
     && negb (String.eqb currentDifficulty "hard")
  then (if String.eqb currentDifficulty "easy" then "medium" else "hard")
  else if Qle_bool scorePercentage 40
          && negb (String.eqb currentDifficulty "easy")
  then (if String.eqb currentDifficulty "hard" then "medium" else "easy")
  else currentDifficulty.

(** Line 422: the attempt number that the retry sends. *)
Definition nextAttempt (attemptNumber : Z) : Z := attemptNumber + 1.

End Timer.

(* ===================================================================== *)
(** ** The vocabulary of the specification *)
(* ===================================================================== *)

Module Spec.

(** The three difficulty levels. *)
Definition isDifficulty (d : string) : Prop :=
  d = "easy" \/ d = "medium" \/ d = "hard".

(** Their order: [easy < medium < hard]. *)
Definition level (d : string) : Z :=
  if String.eqb d "easy" then 0
  else if String.eqb d "medium" then 1
  else 2.

(** The identifiers of the four options. *)
Definition optionLetters : list jsval :=
  [JStr "A"; JStr "B"; JStr "C"; JStr "D"].

(** A raw question that normalisation can read: it is not [null], and
    none of the options that are kept (the first four) is [null]. *)
Definition readable (q : jsval) : Prop :=
  q <> JNull
  /\ forall items, obj_get q "options" = Some (JArr items) ->
       Forall (fun opt => opt <> JNull) (slice0 4 items).

(** A raw question none of whose kept options brings an identifier of
    its own. *)
Definition withoutOptionIds (q : jsval) : Prop :=
  forall items, obj_get q "options" = Some (JArr items) ->
    Forall (fun opt => truthy_opt (obj_get opt "id") = false)
      (slice0 4 items).

(** What one normalised question owes to the raw question. *)
Definition normalised (q : jsval) (nq : Llm.Question.t) : Prop :=
  length (Llm.Question.options nq) = 4%nat
  /\ Llm.Question.correctAnswer nq
     = or_else (obj_get q "correctAnswer") (JStr "A")
  /\ (truthy_opt (obj_get q "correctAnswer") = false ->
      Llm.Question.correctAnswer nq = JStr "A")
  /\ (withoutOptionIds q ->
      map Llm.Opt.id (Llm.Question.options nq) = optionLetters).

(** *** The outcomes of the call to the generator *)

(** What the generator gave for a validated request, before the route
    looks at the questions: the call threw (a network error), no JSON
    could be read from its text, the JSON is the empty list, the JSON
    is a value that is not a list, or it is a list of raw questions. *)
Inductive Outcome : Type :=
| NetworkError
| NoJson
| EmptyResult
| NotAnArray (v : jsval)
| Questions (questions : list jsval).

Definition outcome (env : Llm.Env) (value : Llm.Value) : Outcome :=
  match Llm.generate env (Llm.content value) (Llm.questionCount value)
          (Llm.adjustedDifficulty (Llm.difficulty value)
             (Llm.previousScore value) (Llm.attemptNumber value))
          (Llm.language value) (Llm.questionType value)
          (Llm.attemptNumber value) with
  | Throw _ => NetworkError
  | Ok text =>
      match Llm.extract env text with
      | Throw _ => NoJson
      | Ok (JArr []) => EmptyResult
      | Ok (JArr questions) => Questions questions
      | Ok v => NotAnArray v
      end
  end.

(** A failure of the generator in the words of the specification: a
    network error, an empty result, or a malformed output, which is
    every output that is not parseable as a list of questions. *)
Definition generatorFailure (o : Outcome) : Prop :=
  match o with
  | NetworkError | NoJson | EmptyResult | NotAnArray _ => True
  | Questions _ => False
  end.

Definition isNull (v : jsval) : bool :=
  match v with
  | JNull => true
  | _ => false
  end.

(** A raw question that normalisation cannot read: it is [null], or
    one of its first four options is. *)
Definition unreadable (q : jsval) : bool :=
  isNull q
  || match obj_get q "options" with
     | Some (JArr items) => existsb isNull (slice0 4 items)
     | _ => false
     end.

(** The outcomes that the route answers with the fallback questions,
    for a request of [n] questions: a network error, a text without
    JSON, the empty list, and a list with an unreadable question among
    its first [n].  A value that is not a list is not among them. *)
Definition treatedAsFailure (n : Z) (o : Outcome) : bool :=
  match o with
  | NetworkError | NoJson | EmptyResult => true
  | NotAnArray _ => false
  | Questions questions => existsb unreadable (slice0 n questions)
  end.

(** [JSON.stringify] returns a text for every value. *)
Definition serialises (json : Json) : Prop :=
  forall v, exists text, stringify json v = Ok text.

(** *** The field constraints of a generation request *)

(** The integer that a JSON value holds where the request expects a
    number: the number itself, or the number that Joi reads in a
    string; in both cases within the safe integers. *)
Definition holds (coerce : Joi.Coercion) (v : jsval) (n : Z) : Prop :=
  (v = JNum n \/ exists s, v = JStr s /\ coerce s = inr n)
  /\ - Joi.MAX_SAFE_INTEGER <= n <= Joi.MAX_SAFE_INTEGER.

(** A field that may be absent and otherwise holds an integer from
    [lo], up to [hi] when there is a bound. *)
Definition integerIn (coerce : Joi.Coercion) (lo : Z) (hi : option Z)
    (field : option jsval) : Prop :=
  match field with
  | None => True
  | Some v =>
      exists n, holds coerce v n /\ lo <= n
        /\ match hi with Some h => n <= h | None => True end
  end.

(** A field that may be absent and otherwise is one of the listed
    words. *)
Definition oneOf (allowed : list string) (field : option jsval) : Prop :=
  match field with
  | None => True
  | Some v => exists s, v = JStr s /\ In s allowed
  end.

(** The constraints of section 3 on the fields of a request, in the
    order of the schema: the content is a text of 100 to 50000
    characters, the question count is 1 to 10, the difficulty and the
    language are among their words, the attempt number is not negative,
    the previous score is 0 to 100.  The schema adds the question type
    and a user identifier that is not empty. *)
Definition constraints (coerce : Joi.Coercion) (body : jsval)
  : list (string * Prop) :=
  [("content",
    exists s, obj_get body "content" = Some (JStr s)
      /\ 100 <= Z.of_nat (string_length s) <= 50000);
   ("questionCount",
    integerIn coerce 1 (Some 10) (obj_get body "questionCount"));
   ("difficulty",
    oneOf ["easy"; "medium"; "hard"] (obj_get body "difficulty"));
   ("language", oneOf ["id"; "en"] (obj_get body "language"));
   ("questionType",
    oneOf ["multiple-choice"; "true-false"; "short-answer"]
      (obj_get body "questionType"));
   ("attemptNumber",
    integerIn coerce 0 None (obj_get body "attemptNumber"));
   ("previousScore",
    integerIn coerce 0 (Some 100) (obj_get body "previousScore"));
   ("userId",
    match obj_get body "userId" with
    | None => True
    | Some v => exists s, v = JStr s /\ s <> ""
    end)].

End Spec.

(* ===================================================================== *)
(** ** A reading of decimal numerals *)
(* ===================================================================== *)

Module Decimal.

Definition digit (c : ascii) : option Z :=
  let n := nat_of_ascii c in
  if (48 <=? n)%nat && (n <=? 57)%nat then Some (Z.of_nat n - 48) else None.

Fixpoint digits (acc : Z) (s : string) : option Z :=
  match s with
  | EmptyString => Some acc
  | String c rest =>
      match digit c with
      | Some d => digits (10 * acc + d) rest
      | None => None
      end
  end.

(** The number that a string of decimal digits spells. *)
Definition read (s : string) : option Z :=
  match s with
  | EmptyString => None
  | _ => digits 0 s
  end.

(** The two readings of the environments below.  They know the plain
    numerals, which Joi and the engine both read as the number they
    spell; every other string is taken to spell no number. *)
Definition coerce : Joi.Coercion :=
  fun s => match read s with
           | Some n => inr n
           | None => inl Joi.number_base
           end.

Definition toInteger : string -> Z :=
  fun s => match read s with
           | Some n => n
           | None => 0
           end.

End Decimal.

(* ===================================================================== *)
(** ** Concrete requests and environments *)
(* ===================================================================== *)

Module Scenario.

(** Two tutorials that begin with the same 24 characters. *)
Definition tutorialHooks : string :=
  "<h1>Introduction to React Hooks</h1><p>Hooks let a function component keep state and run side effects without writing a class.</p>".

Definition tutorialRouter : string :=
  "<h1>Introduction to React Router</h1><p>The router maps the location of the browser to the tree of components that is rendered.</p>".

(** A body with a content that is too short and a question count of 0. *)
Definition shortBody : jsval :=
  JObj [("content", JStr "too short"); ("questionCount", JNum 0)].

(** A retry as [handleTryAgain] requests it. *)
Definition retryRequest : Api.GenerateQuestionsRequest :=
  Api.mkRequest tutorialHooks (Some "hard") (Some 3) (Some "id")
    (Some "Introduction to React Hooks") (Some 1) (Some (inject_Z 100))
    (Some "user-42").

(** A raw question with two options and an answer outside A-D. *)
Definition rawAnswerE : jsval :=
  JObj [("question", JStr "Which hook keeps state?");
        ("options", JArr [JStr "useState"; JStr "useEffect"]);
        ("correctAnswer", JStr "E")].

(** A Redis client whose commands all fail. *)
Definition brokenRedis : Cache.RedisClient :=
  Cache.mkRedisClient
    (fun _ => Throw (mkError "Connection is closed"))
    (fun _ _ _ => Throw (mkError "Connection is closed"))
    (fun _ => Throw (mkError "Connection is closed")).

(** A [JSON] object for the scenarios: what it answers plays no part. *)
Definition someJson : Json :=
  mkJson (fun v => Ok v) (fun _ => Ok "[]").

(** Redis is down, the generator throws a network error. *)
Definition outage : Llm.Env :=
  Llm.mkEnv someJson (Cache.mkState None false)
    (fun _ _ _ _ _ _ => Throw (mkError "fetch failed"))
    (fun _ => Throw (mkError "Unexpected token"))
    Decimal.coerce Decimal.toInteger.

(** Redis is down, the generator answers the text [7]: JSON, but no
    list of questions. *)
Definition garbled : Llm.Env :=
  Llm.mkEnv (mkJson (fun v => Ok v) (fun _ => Ok "[7]"))
    (Cache.mkState None false)
    (fun _ _ _ _ _ _ => Ok "7")
    (fun _ => Ok (JNum 7))
    Decimal.coerce Decimal.toInteger.

(** A content of 120 characters. *)
Definition content120 : string :=
  "React Hooks let a function component keep state and run effects; useState and useEffect are the two hooks used the most.".

(** The request of the end-to-end scenario: three questions. *)
Definition requestThree : jsval :=
  JObj [("content", JStr content120); ("difficulty", JStr "medium");
        ("questionCount", JNum 3); ("attemptNumber", JNum 0)].

(** The same request for five questions. *)
Definition requestFive : jsval :=
  JObj [("content", JStr content120); ("difficulty", JStr "medium");
        ("questionCount", JNum 5); ("attemptNumber", JNum 0)].

Definition valueThree : Llm.Value :=
  Llm.mkValue content120 3 "medium" "id" "multiple-choice" 0 None None.

Definition valueFive : Llm.Value :=
  Llm.mkValue content120 5 "medium" "id" "multiple-choice" 0 None None.

(** A request whose question count is the text [2], as a form sends
    it. *)
Definition requestTwoAsText : jsval :=
  JObj [("content", JStr content120); ("questionCount", JStr "2")].

Definition valueTwo : Llm.Value :=
  Llm.mkValue content120 2 "medium" "id" "multiple-choice" 0 None None.

End Scenario.

(* ===================================================================== *)
(** ** More environments *)
(* ===================================================================== *)

Module Fixture.

(** Redis accepts connections but every command fails; the generator
    answers one raw question. *)
Definition healthyGenerator : Llm.Env :=
  Llm.mkEnv Scenario.someJson
    (Cache.mkState (Some Scenario.brokenRedis) true)
    (fun _ _ _ _ _ _ => Ok "[{...}]")
    (fun _ => Ok (JArr [Scenario.rawAnswerE]))
    Decimal.coerce Decimal.toInteger.

End Fixture.

(* ===================================================================== *)
(** ** Redis as a key-value store *)
(* ===================================================================== *)

Module MemRedis.

(** A reachable Redis as one request finds it: GET answers from the
    strings [m] that the store holds when the request arrives; SETEX
    and DEL are accepted, DEL answering the number of keys it finds.
    Every route reads before it writes, so what a request is answered
    does not depend on what it writes.  What the commands leave in the
    store for later requests is outside this model. *)
Definition client (m : gmap string string) : Cache.RedisClient :=
  Cache.mkRedisClient
    (fun key => Ok (m !! key))
    (fun _ _ _ => Ok tt)
    (fun key => Ok (match m !! key with Some _ => 1 | None => 0 end)).

(** The cache module connected to it. *)
Definition state (m : gmap string string) : Cache.State :=
  Cache.mkState (Some (client m)) true.

(** [JSON.parse] undoes [JSON.stringify] on [v], and the text is not
    empty. *)
Definition round_trips (json : Json) (v : jsval) : Prop :=
  exists s, stringify json v = Ok s /\ s <> "" /\ parse json (JStr s) = Ok v.

(** The environment of the question route over the store [m]. *)
Definition env (json : Json) (m : gmap string string)
    (generate : string -> Z -> string -> string -> string -> Z -> result string)
    (extract : string -> result jsval) (coerce : Joi.Coercion)
    (toInteger : string -> Z) : Llm.Env :=
  Llm.mkEnv json (state m) generate extract coerce toInteger.

(** The key under which the question route caches a validated request. *)
Definition keyOf (value : Llm.Value) : string :=
  Llm.cacheKey (Llm.content value)
    (Llm.adjustedDifficulty (Llm.difficulty value) (Llm.previousScore value)
       (Llm.attemptNumber value))
    (Llm.questionCount value) (Llm.attemptNumber value) (Llm.userId value).

(** The keys of the other routes: [generateTutorialCacheKey]
    (cache.js line 152), the tutorial list (tutorials.js line 15, the
    serialised filters are [filters]) and the preferences of a user
    (routes/users.js lines 14 and 62). *)
Definition generateTutorialCacheKey (tutorialId : string) : string :=
  "tutorial:" +:+ tutorialId.

Definition tutorialsCacheKey (filters : string) : string :=
  "tutorials:" +:+ filters.

Definition userPreferencesCacheKey (id : string) : string :=
  "user_preferences:" +:+ id.

End MemRedis.

Module JsonFixture.

(** The questions that [Fixture.healthyGenerator] produces. *)
Definition oneQuestion : jsval :=
  JArr [Llm.Question.to_js
          (Llm.Question.mk 1 (JStr "Which hook keeps state?")
             [Llm.Opt.mk (JStr "A") (JStr "useState");
              Llm.Opt.mk (JStr "B") (JStr "useEffect");
              Llm.Opt.mk (JStr "C") (JStr "Opsi C");
              Llm.Opt.mk (JStr "D") (JStr "Opsi D")]
             (JStr "E") (JStr "Penjelasan belum tersedia."))].

(** A [JSON] object that knows two texts: [Q] stands for the text of
    [oneQuestion], [S] for the text of the string [Q]. *)
Definition tableJson : Json :=
  mkJson
    (fun v => match v with
              | JStr "S" => Ok (JStr "Q")
              | JStr "Q" => Ok oneQuestion
              | _ => Throw (mkError "Unexpected token")
              end)
    (fun v => match v with
              | JStr _ => Ok "S"
              | _ => Ok "Q"
              end).

Definition oneQuestionExtract : string -> result jsval :=
  fun _ => Ok (JArr [Scenario.rawAnswerE]).

Definition failingGenerator
  : string -> Z -> string -> string -> string -> Z -> result string :=
  fun _ _ _ _ _ _ => Throw (mkError "fetch failed").

End JsonFixture.

(* ===================================================================== *)
(** ** Text functions of JavaScript *)
(* ===================================================================== *)

Module Text.

(** The class [\s] of regular expressions, which is also what [trim]
    removes, on ASCII: space, tab, line feed, vertical tab, form feed
    and carriage return. *)
Definition is_space (c : ascii) : bool :=
  let n := nat_of_ascii c in
  (n =? 32)%nat || ((9 <=? n)%nat && (n <=? 13)%nat).

(** Whether [>] occurs in [s]. *)
Fixpoint has_gt (s : string) : bool :=
  match s with
  | EmptyString => false
  | String c rest => Ascii.eqb c ">" || has_gt rest
  end.

(** [s.replace(/<[^>]*>/g, sub)].  A match starts at a [<] that has a
    [>] after it and ends at the first such [>]; [inTag] is true inside
    a match. *)
Fixpoint replaceTags (sub : string) (inTag : bool) (s : string) : string :=
  match s with
  | EmptyString => EmptyString
  | String c rest =>
      if inTag then
        if Ascii.eqb c ">" then replaceTags sub false rest
        else replaceTags sub true rest
      else if Ascii.eqb c "<" && has_gt rest
      then sub +:+ replaceTags sub true rest
      else String c (replaceTags sub false rest)
  end.

(** [s.replace(/\s+/g, ' ')]; [afterSpace] is true inside a run. *)
Fixpoint collapseSpaces (afterSpace : bool) (s : string) : string :=
  match s with
  | EmptyString => EmptyString
  | String c rest =>
      if is_space c then
        if afterSpace then collapseSpaces true rest
        else String " " (collapseSpaces true rest)
      else String c (collapseSpaces false rest)
  end.

(** [s.replace(/pat/g, rep)] for a pattern that is a literal, non-empty
    text; [skip] counts the characters of a match still to pass. *)
Fixpoint replaceLiteral (pat rep : string) (skip : nat) (s : string)
  : string :=
  match s with
  | EmptyString => EmptyString
  | String c rest =>
      match skip with
      | S skip' => replaceLiteral pat rep skip' rest
      | O =>
          if String.prefix pat s
          then rep +:+ replaceLiteral pat rep (String.length pat - 1) rest
          else String c (replaceLiteral pat rep 0 rest)
      end
  end.

Fixpoint trimStart (s : string) : string :=
  match s with
  | EmptyString => EmptyString
  | String c rest => if is_space c then trimStart rest else s
  end.

Fixpoint trimEnd (s : string) : string :=
  match s with
  | EmptyString => EmptyString
  | String c rest =>
      match trimEnd rest with
      | EmptyString => if is_space c then EmptyString else String c EmptyString
      | kept => String c kept
      end
  end.

(** [s.trim()] *)
Definition trim (s : string) : string := trimEnd (trimStart s).

(** [s.includes(pat)] *)
Fixpoint includes (pat s : string) : bool :=
  String.prefix pat s
  || match s with
     | EmptyString => false
     | String _ rest => includes pat rest
     end.

(** Every character of [s] is white space. *)
Fixpoint blank (s : string) : bool :=
  match s with
  | EmptyString => true
  | String c rest => is_space c && blank rest
  end.




End Text.

(* ===================================================================== *)
(** ** The prompt (routes/llm.js, createPrompt) *)
(* ===================================================================== *)

Module Prompt.

(** Line 197: the content as the prompt quotes it. *)
Definition cleanContent (content : string) : string :=
  String.substring 0 4000
    (Text.collapseSpaces false (Text.replaceTags " " false content)).

End Prompt.

(* ===================================================================== *)
(** ** The Dicoding service (services/dicodingService.js) *)
(* ===================================================================== *)

Module Dicoding.

(** What [axios] rejects with: the message and, when the server
    answered, the status of the response. *)
Record AxiosError : Type := mkAxiosError {
  ax_message : string;
  ax_status : option Z
}.

(** [this.client.get(url)]: the error, or [response.data]. *)
Definition Get : Type := string -> AxiosError + jsval.

(** A property of an object literal: left out when [undefined]. *)
Definition prop (k : string) (o : option jsval) : list (string * jsval) :=
  match o with
  | Some v => [(k, v)]
  | None => []
  end.

(** [error.response?.status === 404] *)
Definition is404 (error : AxiosError) : bool :=
  match ax_status error with
  | Some status => status =? 404
  | None => false
  end.

(** [getTutorialById], lines 77-95. *)
Definition getTutorialById (get : Get) (tutorialId : string) : result jsval :=
  match get ("/api/tutorials/" +:+ tutorialId) with
  | inr data =>
      match get_prop data "data" with
      | Ok d =>
          Ok (JObj ([("success", JBool true)] ++ prop "data" d
                    ++ [("source", JStr "mock-dicoding-api")]))
      | Throw e =>
          Throw (mkError ("Failed to fetch tutorial: " +:+ message e))
      end
  | inl error =>
      if is404 error
      then Throw (mkError ("Tutorial with ID " +:+ tutorialId +:+ " not found"))
      else Throw (mkError ("Failed to fetch tutorial: " +:+ ax_message error))
  end.

(** [getUserPreferences], lines 102-115. *)
Definition getUserPreferences (get : Get) (userId : string) : result jsval :=
  match get ("/api/users/" +:+ userId +:+ "/preferences") with
  | inr data =>
      match get_prop data "data" with
      | Ok d =>
          Ok (JObj ([("success", JBool true)] ++ prop "data" d
                    ++ [("source", JStr "mock-dicoding-api")]))
      | Throw e =>
          Throw (mkError ("Failed to fetch user preferences: " +:+ message e))
      end
  | inl error =>
      Throw (mkError ("Failed to fetch user preferences: "
                      +:+ ax_message error))
  end.

(** [tutorial[field] && typeof tutorial[field] === 'string' &&
    tutorial[field].trim().length > 0] *)
Definition hasText (o : option jsval) : bool :=
  match o with
  | Some (JStr s) =>
      negb (String.eqb s "") && (0 <? String.length (Text.trim s))%nat
  | _ => false
  end.

(** [v.length >= 100] for a truthy [v]: strings and arrays have a
    length, on other values the comparison with [undefined] is false. *)
Definition lengthAtLeast100 (v : jsval) : bool :=
  match v with
  | JStr s => (100 <=? string_length s)%nat
  | JArr items => (100 <=? length items)%nat
  | _ => false
  end.

(** [validateTutorialContent], lines 170-183; [None] is [undefined]. *)
Definition validateTutorialContent (tutorial : option jsval) : bool :=
  match tutorial with
  | None => false
  | Some t =>
      if negb (truthy t) || negb (typeof_object t) then false
      else
        let hasRequiredFields :=
          forallb (fun field => hasText (obj_get t field))
            ["id"; "title"; "content"] in
        let hasMinimalContent :=
          match obj_get t "content" with
          | Some c => truthy c && lengthAtLeast100 c
          | None => false
          end in
        hasRequiredFields && hasMinimalContent
  end.

(** [extractTextFromHTML], lines 190-204. *)
Definition extractTextFromHTML (htmlContent : option jsval) : string :=
  match htmlContent with
  | Some (JStr s) =>
      if String.eqb s "" then ""
      else
        Text.trim
          (Text.collapseSpaces false
             (Text.replaceLiteral "&amp;" "&" 0
                (Text.replaceLiteral "&gt;" ">" 0
                   (Text.replaceLiteral "&lt;" "<" 0
                      (Text.replaceLiteral "&nbsp;" " " 0
                         (Text.replaceTags "" false s))))))
  | _ => ""
  end.

End Dicoding.

(* ===================================================================== *)
(** ** The tutorial and user routes of the backend *)
(* ===================================================================== *)

Module Http.

(** What a route sends: the status and the JSON body.  Time stamps are
    left out of the bodies. *)
Record Response : Type := mkResponse { status : Z; body : jsval }.

End Http.

Module Routes.

(** What the two routes call: [JSON], the cache module and the HTTP
    client of the Dicoding service. *)
Record Env : Type := mkEnv {
  json : Json;
  store : Cache.State;
  get : Dicoding.Get
}.

(** [GET /api/tutorials/:id], routes/tutorials.js lines 58-121. *)
Definition getTutorial (env : Env) (id : string) : result Http.Response :=
  try_catch
    (let cacheKey := MemRedis.generateTutorialCacheKey id in
     let! cached := Cache.get (json env) (store env) cacheKey in
     if truthy cached then
       Ok (Http.mkResponse 200
             (JObj ([("success", JBool true)]
                    ++ Dicoding.prop "data" (obj_get cached "data")
                    ++ [("source", JStr "cache");
                        ("status", JStr "success")])))
     else
       let! result := Dicoding.getTutorialById (get env) id in
       if negb (Dicoding.validateTutorialContent (obj_get result "data"))
       then
         Ok (Http.mkResponse 400
               (JObj [("error", JStr "Invalid tutorial content");
                      ("message",
                       JStr "Tutorial content is insufficient for processing");
                      ("status", JStr "error")]))
       else
         let! _ := Cache.set (json env) (store env) cacheKey result
                     (Some 900) in
         Ok (Http.mkResponse 200
               (JObj ([("success", JBool true)]
                      ++ Dicoding.prop "data" (obj_get result "data")
                      ++ Dicoding.prop "source" (obj_get result "source")
                      ++ [("status", JStr "success")]))))
    (fun error =>
       if Text.includes "not found" (message error) then
         Ok (Http.mkResponse 404
               (JObj [("error", JStr "Tutorial not found");
                      ("message", JStr (message error));
                      ("status", JStr "error")]))
       else
         Ok (Http.mkResponse 500
               (JObj [("error", JStr "Failed to fetch tutorial");
                      ("message", JStr (message error));
                      ("status", JStr "error")]))).

(** [GET /api/users/:id/preferences], routes/users.js lines 9-50. *)
Definition getPreferences (env : Env) (id : string) : result Http.Response :=
  try_catch
    (let cacheKey := MemRedis.userPreferencesCacheKey id in
     let! cached := Cache.get (json env) (store env) cacheKey in
     if truthy cached then
       Ok (Http.mkResponse 200
             (JObj (Dicoding.prop "data" (obj_get cached "data")
                    ++ [("source", JStr "cache");
                        ("status", JStr "success")])))
     else
       let! result := Dicoding.getUserPreferences (get env) id in
       let! _ := Cache.set (json env) (store env) cacheKey result
                   (Some 600) in
       Ok (Http.mkResponse 200
             (JObj (Dicoding.prop "data" (obj_get result "data")
                    ++ Dicoding.prop "source" (obj_get result "source")
                    ++ [("status", JStr "success")]))))
    (fun error =>
       Ok (Http.mkResponse 500
             (JObj [("error", JStr "Failed to fetch user preferences");
                    ("message", JStr (message error));
                    ("status", JStr "error")]))).

End Routes.

(* ===================================================================== *)
(** ** The mock Dicoding API: user preferences *)
(* ===================================================================== *)

Module MockApi.

Definition validKeys : list string :=
  ["theme"; "fontSize"; "layoutWidth"; "fontFamily"; "notifications";
   "language"; "autoSave"; "showHints"].

(** The methods that every plain object inherits from
    [Object.prototype]; the table inherits the accessor [__proto__] as
    well, which answers the prototype itself. *)
Definition inheritedMethods : list string :=
  ["constructor"; "__defineGetter__"; "__defineSetter__"; "hasOwnProperty";
   "__lookupGetter__"; "__lookupSetter__"; "isPrototypeOf";
   "propertyIsEnumerable"; "toString"; "valueOf"; "toLocaleString"].

(** [mockUserPreferences]: the own entries of the table, each an
    object, as the table starts and as every PUT leaves them.  Its
    prototype is [Object.prototype]. *)
Definition Table : Type := gmap string (list (string * jsval)).

(** What [mockUserPreferences[id]] answers: an entry of the table, the
    prototype, an inherited method, or [undefined]. *)
Inductive Member : Type :=
| Entry (fields : list (string * jsval))
| Prototype
| Method
| Missing.

Definition member (mock : Table) (id : string) : Member :=
  match mock !! id with
  | Some fields => Entry fields
  | None =>
      if String.eqb id "__proto__" then Prototype
      else if existsb (String.eqb id) inheritedMethods then Method
      else Missing
  end.

(** [mockUserPreferences[userId] || mockUserPreferences['demo_user']]:
    objects and functions are truthy. *)
Definition selected (mock : Table) (userId : string) : Member :=
  match member mock userId with
  | Missing => member mock "demo_user"
  | found => found
  end.

(** What [res.json] writes for it: a function and [undefined] are left
    out of the JSON text, and [Object.prototype] has no property that
    is written. *)
Definition serialised (m : Member) : option jsval :=
  match m with
  | Entry fields => Some (JObj fields)
  | Prototype => Some (JObj [])
  | Method | Missing => None
  end.

(** The [preferences] of the answer to a GET. *)
Definition preferencesOf (mock : Table) (userId : string) : option jsval :=
  serialised (selected mock userId).

(** The own properties that a spread copies: those of an entry; the
    prototype and a function have none that can be enumerated. *)
Definition ownProperties (m : Member) : list (string * jsval) :=
  match m with
  | Entry fields => fields
  | Prototype | Method | Missing => []
  end.

(** [{ ...a, ...b }]: the keys of [a] in their order, with the value of
    [b] where [b] has the key, then the keys that only [b] has. *)
Definition spread (a b : list (string * jsval)) : list (string * jsval) :=
  map (fun kv => (fst kv, match assoc_get b (fst kv) with
                          | Some v => v
                          | None => snd kv
                          end)) a
  ++ List.filter (fun kv => match assoc_get a (fst kv) with
                       | Some _ => false
                       | None => true
                       end) b.

(** The loop over [validKeys] of the PUT handler: the keys of the body
    that are kept.  The body is what [express.json()] parsed: an object
    or an array. *)
Definition filteredPreferences (newPreferences : jsval)
  : list (string * jsval) :=
  flat_map (fun key => Dicoding.prop key (obj_get newPreferences key))
    validKeys.

(** [GET /api/users/:userId/preferences]; [now] is the time stamp. *)
Definition getPreferences (mock : Table) (userId now : string) : jsval :=
  JObj [("data",
         JObj ([("userId", JStr userId)]
               ++ Dicoding.prop "preferences" (preferencesOf mock userId)
               ++ [("lastUpdated", JStr now)]));
        ("status", JStr "success")].

(** [PUT /api/users/:userId/preferences]: the table after the request.
    An assignment to [__proto__] adds no entry: it makes the object the
    prototype of the table.  The tables of this model keep the
    prototype they start with, so that request has no table after it
    here ([None]). *)
Definition putPreferences (mock : Table) (userId : string)
    (newPreferences : jsval) : option Table :=
  if String.eqb userId "__proto__" then None
  else
    Some (<[userId :=
              spread (ownProperties (selected mock userId))
                (filteredPreferences newPreferences)]> mock).

(** The [updated] list of the response to the PUT. *)
Definition updatedKeys (newPreferences : jsval) : list string :=
  map fst (filteredPreferences newPreferences).

End MockApi.

(* ===================================================================== *)
(** ** The API client: preferences and the transport *)
(* ===================================================================== *)

Module ApiClient.

(** The [Response] of [fetch] as the client reads it. *)
Record FetchResponse : Type := mkFetchResponse {
  ok : bool;
  status : Z;
  json : result jsval
}.

(** The transport: what [fetch] resolves to when the backend sent
    [r]; [ok] is true of the statuses 200 to 299 and the body is parsed
    back to the value that was serialised. *)
Definition received (r : Http.Response) : FetchResponse :=
  mkFetchResponse ((200 <=? Http.status r) && (Http.status r <=? 299))
    (Http.status r) (Ok (Http.body r)).

Definition defaultPreferences : jsval :=
  JObj [("theme", JStr "light"); ("fontSize", JStr "default");
        ("layoutWidth", JStr "default"); ("language", JStr "id")].

(** [a?.k]: [undefined] when [a] is [undefined] or [null]. *)
Definition optional_prop (a : option jsval) (k : string) : option jsval :=
  match a with
  | None | Some JNull => None
  | Some v => obj_get v k
  end.

(** [apiService.getUserPreferences], lib/api.ts lines 132-157;
    [fetched] is the outcome of [fetch]. *)
Definition getUserPreferences (fetched : result FetchResponse)
  : result jsval :=
  try_catch
    (let! response := fetched in
     if negb (ok response) then Ok defaultPreferences
     else
       let! result := json response in
       let! data := get_prop result "data" in
       Ok (or_else (optional_prop data "preference") (JObj [])))
    (fun error => Ok defaultPreferences).

End ApiClient.

Module RouteFixture.

(** A tutorial as the mock API serves it. *)
Definition tutorial : jsval :=
  JObj [("id", JStr "1"); ("title", JStr "Pengenalan AI");
        ("content", JStr Scenario.content120)].

(** Redis is down and the Dicoding API answers 404. *)
Definition notFound : Routes.Env :=
  Routes.mkEnv Scenario.someJson (Cache.mkState None false)
    (fun _ => inl (Dicoding.mkAxiosError
                     "Request failed with status code 404" (Some 404))).

(** The table of the mock API at start (two of its users). *)
Definition mockTable : MockApi.Table :=
  <["demo_user" :=
      [("theme", JStr "light"); ("fontSize", JStr "medium");
       ("language", JStr "id")]]>
    (<["student_123" :=
         [("theme", JStr "dark"); ("fontSize", JStr "large");
          ("language", JStr "id")]]> ∅).

(** Redis is down and the Dicoding API is the mock API. *)
Definition mockBackend : Routes.Env :=
  Routes.mkEnv Scenario.someJson (Cache.mkState None false)
    (fun _ => inr (MockApi.getPreferences mockTable "student_123"
                     "2025-10-12T10:00:00.000Z")).

(** Redis is down and the Dicoding API serves [tutorial]. *)
Definition serving : Routes.Env :=
  Routes.mkEnv Scenario.someJson (Cache.mkState None false)
    (fun _ => inr (JObj [("data", tutorial); ("status", JStr "success")])).

(** Redis is down and so is the Dicoding API. *)
Definition unreachable : Routes.Env :=
  Routes.mkEnv Scenario.someJson (Cache.mkState None false)
    (fun _ => inl (Dicoding.mkAxiosError "connect ECONNREFUSED" None)).

End RouteFixture.

(* ===================================================================== *)
(** ** The quiz page (Timer.tsx, component Index) *)
(* ===================================================================== *)

Module Quiz.

(** [userAnswers[index] === question.correctAnswer]: the answer is a
    string or [undefined]; the correct answer is what the JSON of the
    question holds, or [undefined]. *)
Definition strictEquals (answer : option string) (correct : option jsval)
  : bool :=
  match answer, correct with
  | None, None => true
  | Some a, Some (JStr c) => String.eqb a c
  | _, _ => false
  end.

(** [calculateScore], lines 469-477; [index] is the position of the
    first question of the list. *)
Fixpoint countCorrect (index : nat) (questions : list jsval)
    (userAnswers : gmap nat string) : result nat :=
  match questions with
  | [] => Ok O
  | question :: rest =>
      let! correctAnswer := get_prop question "correctAnswer" in
      let! correct := countCorrect (S index) rest userAnswers in
      Ok ((if strictEquals (userAnswers !! index) correctAnswer
           then 1 else 0)
          + correct)%nat
  end.

Definition calculateScore (questions : list jsval)
    (userAnswers : gmap nat string) : result nat :=
  countCorrect 0 questions userAnswers.

(** [handleAnswerSelect] and [handleReset], lines 283-308. *)
Definition handleAnswerSelect (userAnswers : gmap nat string)
    (currentQuestionIndex : nat) (answerId : string) : gmap nat string :=
  <[currentQuestionIndex := answerId]> userAnswers.

Definition handleReset (userAnswers : gmap nat string)
    (currentQuestionIndex : nat) : gmap nat string :=
  <[currentQuestionIndex := ""]> userAnswers.

(** [handlePrevious] and [handleNext], lines 290-300. *)
Definition handlePrevious (currentQuestionIndex : Z) : Z :=
  if 0 <? currentQuestionIndex then currentQuestionIndex - 1
  else currentQuestionIndex.

Definition handleNext (totalQuestions currentQuestionIndex : Z) : Z :=
  if currentQuestionIndex <? totalQuestions - 1
  then currentQuestionIndex + 1
  else currentQuestionIndex.

(** What the learner does to move between the questions: the two
    arrows and the numbered boxes, one box per question. *)
Inductive Move : Type :=
| Previous
| Next
| Box (index : Z).

Definition move (totalQuestions currentQuestionIndex : Z) (m : Move) : Z :=
  match m with
  | Previous => handlePrevious currentQuestionIndex
  | Next => handleNext totalQuestions currentQuestionIndex
  | Box index => index
  end.

(** A box exists for the indices of the questions. *)
Definition rendered (totalQuestions : Z) (m : Move) : Prop :=
  match m with
  | Box index => 0 <= index < totalQuestions
  | _ => True
  end.

(** The double nearest to a rational number, ties going to the even
    mantissa of 53 bits: what an arithmetic operation of JavaScript
    makes of its exact result.  The scores of a quiz stay within the
    normal doubles; beyond them (overflow, subnormal numbers) nothing
    special is done. *)
Definition round_double (q : Q) : Q :=
  let a := Z.abs (Qnum q) in
  let d := Zpos (Qden q) in
  if a =? 0 then 0%Q
  else
    let k := Z.log2 a - Z.log2 d in
    let l :=
      if (if 0 <=? k then d * 2 ^ k <=? a else d <=? a * 2 ^ (- k))
      then k else k - 1 in
    let e := l - 52 in
    let n := a * 2 ^ Z.max 0 (- e) in
    let m := d * 2 ^ Z.max 0 e in
    let quotient := n / m in
    let rest := n - quotient * m in
    let mantissa :=
      if m <? 2 * rest then quotient + 1
      else if 2 * rest =? m
           then (if Z.odd quotient then quotient + 1 else quotient)
           else quotient in
    let v :=
      if 0 <=? e then inject_Z (mantissa * 2 ^ e)
      else (mantissa # Z.to_pos (2 ^ (- e)))%Q in
    if Qnum q <? 0 then (- v)%Q else v.

(** [(score / total) * 100] for a positive [total], as the two
    operations on doubles that it is. *)
Definition scorePercentage (score total : Z) : Q :=
  round_double (round_double (inject_Z score / inject_Z total) * 100).

(** [Math.round] *)
Definition mathRound (x : Q) : Z := Qfloor (x + (1 # 2)).

(** Lines 636-638: the verdict of the result screen. *)
Definition isPassed (score total : Z) : bool :=
  80 <=? mathRound (scorePercentage score total).

(** [v.length] where that is a number. *)
Definition lengthOf (v : jsval) : option nat :=
  match v with
  | JStr s => Some (string_length s)
  | JArr items => Some (length items)
  | _ => None
  end.

(** [apiService.generateQuestions] after [fetch] resolved with the
    response [r] of the backend: lines 207-212. *)
Definition received (statusText : string) (r : Llm.Res.t)
  : result Llm.Res.t :=
  if (200 <=? Llm.Res.status r) && (Llm.Res.status r <=? 299) then Ok r
  else Throw (mkError ("HTTP " +:+ pretty (Llm.Res.status r) +:+ ": "
                       +:+ statusText)).

(** Lines 251-258 and 444-455: the questions the page takes from the
    outcome of the call, or none when it shows the error toast. *)
Definition acceptedQuestions (response : result Llm.Res.t) : option jsval :=
  match response with
  | Ok r =>
      match Llm.Res.questions r with
      | Some questions =>
          match lengthOf questions with
          | Some n => if truthy questions && (0 <? n)%nat
                      then Some questions else None
          | None => None
          end
      | None => None
      end
  | Throw _ => None
  end.

End Quiz.

(* ===================================================================== *)
(** ** Persistence in the browser (lib/storage.ts) *)
(* ===================================================================== *)

Module Storage.

(** [localStorage]: the items, and whether the browser blocks access
    to it, in which case every operation throws. *)
Record LocalStorage : Type := mkLocalStorage {
  items : gmap string string;
  blocked : bool
}.

Definition SecurityError : Error := mkError "SecurityError".

Definition getItem (st : LocalStorage) (key : string)
  : result (option string) :=
  if blocked st then Throw SecurityError else Ok (items st !! key).

Definition setItem (st : LocalStorage) (key value : string)
  : result LocalStorage :=
  if blocked st then Throw SecurityError
  else Ok (mkLocalStorage (<[key := value]> (items st)) false).

Definition removeItem (st : LocalStorage) (key : string)
  : result LocalStorage :=
  if blocked st then Throw SecurityError
  else Ok (mkLocalStorage (delete key (items st)) false).

(** [localStorage.key(i)] for [i] from 0 to [localStorage.length - 1];
    the order is that of the browser. *)
Definition allKeys (st : LocalStorage) : result (list string) :=
  if blocked st then Throw SecurityError
  else Ok (map fst (map_to_list (items st))).

Definition STORAGE_PREFIX : string := "learncheck_".

(** Lines 36-46. *)
Definition getAssessmentKey (userId tutorialId : string) : string :=
  STORAGE_PREFIX +:+ userId +:+ "_" +:+ tutorialId +:+ "_answers".

Definition getPreferencesKey (userId : string) : string :=
  STORAGE_PREFIX +:+ userId +:+ "_preferences".

Definition getProgressKey (userId tutorialId : string) : string :=
  STORAGE_PREFIX +:+ userId +:+ "_" +:+ tutorialId +:+ "_progress".

(** The key of the attempt history (Timer.tsx lines 145 and 332). *)
Definition historyKey (userId tutorialId : string) : string :=
  "attempt_history_" +:+ userId +:+ "_" +:+ tutorialId.

(** The object of lines 63-70; [now] is [new Date().toISOString()]. *)
Definition assessmentState (userId tutorialId : string) (answers : jsval)
    (currentQuestionIndex : Z) (isSubmitted : bool) (now : string) : jsval :=
  JObj [("answers", answers);
        ("currentQuestionIndex", JNum currentQuestionIndex);
        ("isSubmitted", JBool isSubmitted);
        ("lastUpdated", JStr now);
        ("tutorialId", JStr tutorialId);
        ("userId", JStr userId)].

(** [saveAssessmentState], lines 55-77: the storage after the call. *)
Definition saveAssessmentState (json : Json) (st : LocalStorage)
    (userId tutorialId : string) (answers : jsval)
    (currentQuestionIndex : Z) (isSubmitted : bool) (now : string)
  : LocalStorage :=
  match (let state := assessmentState userId tutorialId answers
                        currentQuestionIndex isSubmitted now in
         let key := getAssessmentKey userId tutorialId in
         let! text := stringify json state in
         setItem st key text) with
  | Ok st' => st'
  | Throw _ => st
  end.

(** [loadAssessmentState], lines 82-108: the state or [null], and the
    storage after the call. *)
Definition loadAssessmentState (json : Json) (st : LocalStorage)
    (userId tutorialId : string) : option jsval * LocalStorage :=
  let key := getAssessmentKey userId tutorialId in
  match getItem st key with
  | Ok (Some stored) =>
      if String.eqb stored "" then (None, st)
      else
        match parse json (JStr stored) with
        | Ok state =>
            match get_prop state "answers" with
            | Ok answers =>
                if negb (truthy_opt answers)
                   || negb (truthy_opt (obj_get state "lastUpdated"))
                then
                  match removeItem st key with
                  | Ok st' => (None, st')
                  | Throw _ => (None, st)
                  end
                else (Some state, st)
            | Throw _ => (None, st)
            end
        | Throw _ => (None, st)
        end
  | Ok None => (None, st)
  | Throw _ => (None, st)
  end.

(** [clearAllUserData], lines 239-255: the storage after the call. *)
Definition clearAllUserData (st : LocalStorage) (userId : string)
  : LocalStorage :=
  match (let prefix := STORAGE_PREFIX +:+ userId +:+ "_" in
         let! keys := allKeys st in
         let keysToRemove :=
           List.filter
             (fun key => negb (String.eqb key "") && String.prefix prefix key)
             keys in
         Ok (mkLocalStorage
               (fold_left (fun m key => delete key m) keysToRemove (items st))
               false)) with
  | Ok st' => st'
  | Throw _ => st
  end.

(** No underscore occurs in [s]. *)
Fixpoint noUnderscore (s : string) : bool :=
  match s with
  | EmptyString => true
  | String c rest => negb (Ascii.eqb c "_") && noUnderscore rest
  end.

End Storage.

(* ===================================================================== *)
(** ** The assessment hook (hooks/useAssessment.ts) *)
(* ===================================================================== *)

Module Hook.

(** [Partial<GenerateQuestionsRequest>]: [None] is a key that the
    options do not have. *)
Record Options : Type := mkOptions {
  content : option string;
  difficulty : option string;
  questionCount : option Z;
  language : option string;
  tutorialTitle : option string;
  attemptNumber : option Z;
  previousScore : option Q;
  userId : option string
}.

Definition noOptions : Options :=
  mkOptions None None None None None None None None.

(** The request that [generateQuestions(options)] hands to
    [apiService.generateQuestions]: the defaults of lines 41-46 with
    the options spread over them.  It throws when the tutorial has no
    content yet. *)
Definition request (tutorialContent tutorialTitle : string)
    (options : Options) : result Api.GenerateQuestionsRequest :=
  if String.eqb tutorialContent "" then
    Throw (mkError "No tutorial content available")
  else
    Ok (Api.mkRequest
          (default tutorialContent (content options))
          (Some (default "intermediate" (difficulty options)))
          (Some (default 3 (questionCount options)))
          (Some (default "id" (language options)))
          (Some (default (Api.string_or (Some tutorialTitle) "Tutorial")
                   (Hook.tutorialTitle options)))
          (attemptNumber options)
          (previousScore options)
          (userId options)).

End Hook.

Module StorageFixture.

(** A learner who chose option B on the first question. *)
Definition savedState : jsval :=
  Storage.assessmentState "1" "35363" (JObj [("1", JStr "B")]) 0 false
    "2025-01-01T00:00:00.000Z".

(** A [JSON] object that knows one text: [T] stands for the text of
    [savedState]. *)
Definition json : Json :=
  mkJson
    (fun v => match v with
              | JStr "T" => Ok savedState
              | _ => Throw (mkError "Unexpected token")
              end)
    (fun _ => Ok "T").

Definition emptyStorage : Storage.LocalStorage :=
  Storage.mkLocalStorage ∅ false.

End StorageFixture.

(* ===================================================================== *)
(** ** Adaptive difficulty *)
(* ===================================================================== *)

Section Difficulty.

Import Spec.

(** Case analysis on a difficulty level, with the tests of the code
    evaluated on each. *)
Ltac by_level H :=
  destruct H as [-> | [-> | ->]]; cbn.

(** The table of the specification, on the code. *)
Example adapt_medium_85 : Llm.adjustedDifficulty "medium" (Some 85) 1 = "hard".
Proof. reflexivity. Qed.

Example adapt_medium_35 : Llm.adjustedDifficulty "medium" (Some 35) 1 = "easy".
Proof. reflexivity. Qed.

Example adapt_medium_60 : Llm.adjustedDifficulty "medium" (Some 60) 1 = "medium".
Proof. reflexivity. Qed.

Example adapt_hard_95 : Llm.adjustedDifficulty "hard" (Some 95) 1 = "hard".
Proof. reflexivity. Qed.

Example adapt_easy_10 : Llm.adjustedDifficulty "easy" (Some 10) 1 = "easy".
Proof. reflexivity. Qed.

Lemma adjustedDifficulty_first_attempt d s :
  Llm.adjustedDifficulty d s 0 = d.
Proof. unfold Llm.adjustedDifficulty. destruct s; reflexivity. Qed.

Lemma adjustedDifficulty_no_score d a :
  Llm.adjustedDifficulty d None a = d.
Proof. reflexivity. Qed.

(** With the gate open, the backend computes the three-way rule. *)
Lemma adjustedDifficulty_retry d p a :
  0 < a ->
  Llm.adjustedDifficulty d (Some p) a =
    if (80 <=? p) && negb (String.eqb d "hard")
    then (if String.eqb d "easy" then "medium" else "hard")
    else if (p <=? 40) && negb (String.eqb d "easy")
    then (if String.eqb d "hard" then "medium" else "easy")
    else d.
Proof.
  intros Ha. unfold Llm.adjustedDifficulty.
  destruct (Z.ltb_spec 0 a) as [_ | Hn]; [reflexivity | lia].
Qed.

(** C2.  On the three levels, for a score in 0..100 or absent and a
    non-negative attempt number, the adjusted difficulty is the input
    when the attempt number is 0 or the score is absent; one level up
    at a score of 80 or more below [hard]; one level down at a score of
    40 or less above [easy]; the input otherwise.  The result is a
    level and is at most one level away from the input. *)
Theorem adjustedDifficulty_spec (d : string) (s : option Z) (a : Z) :
  isDifficulty d ->
  (forall p, s = Some p -> 0 <= p <= 100) ->
  0 <= a ->
  let r := Llm.adjustedDifficulty d s a in
  ((a = 0 \/ s = None) -> r = d)
  /\ (forall p, 0 < a -> s = Some p -> 80 <= p -> d <> "hard" ->
        level r = level d + 1
        /\ (d = "easy" -> r = "medium") /\ (d = "medium" -> r = "hard"))
  /\ (forall p, 0 < a -> s = Some p -> p <= 40 -> d <> "easy" ->
        level r = level d - 1
        /\ (d = "hard" -> r = "medium") /\ (d = "medium" -> r = "easy"))
  /\ (forall p, 0 < a -> s = Some p ->
        ~ (80 <= p /\ d <> "hard") -> ~ (p <= 40 /\ d <> "easy") -> r = d)
  /\ isDifficulty r
  /\ Z.abs (level r - level d) <= 1.
Proof.
  intros Hd Hs Ha r. subst r.
  split; [| split; [| split; [| split; [| split]]]].
  - intros [-> | ->].
    + apply adjustedDifficulty_first_attempt.
    + apply adjustedDifficulty_no_score.
  - intros p Hpos -> Hp Hne.
    rewrite adjustedDifficulty_retry by assumption.
    destruct (Z.leb_spec 80 p); [| lia].
    by_level Hd; try congruence; repeat split; congruence.
  - intros p Hpos -> Hp Hne.
    rewrite adjustedDifficulty_retry by assumption.
    destruct (Z.leb_spec 80 p); [lia |].
    destruct (Z.leb_spec p 40); [| lia].
    by_level Hd; try congruence; repeat split; congruence.
  - intros p Hpos -> Hup Hdown.
    rewrite adjustedDifficulty_retry by assumption.
    destruct (Z.leb_spec 80 p), (Z.leb_spec p 40);
      by_level Hd; try reflexivity; exfalso;
      first [ apply Hup; split; [lia | discriminate]
            | apply Hdown; split; [lia | discriminate] ].
  - unfold Llm.adjustedDifficulty, isDifficulty.
    destruct s as [p |]; [| exact Hd].
    destruct (0 <? a); [| exact Hd].
    destruct (80 <=? p), (p <=? 40); by_level Hd; auto.
  - unfold Llm.adjustedDifficulty.
    destruct s as [p |]; [| lia].
    destruct (0 <? a); [| lia].
    destruct (80 <=? p), (p <=? 40); by_level Hd; lia.
Qed.

Lemma adjustedDifficulty_spec_witness :
  Llm.adjustedDifficulty "medium" (Some 85) 1 = "hard"
  /\ level "hard" = level "medium" + 1.
Proof.
  destruct (adjustedDifficulty_spec "medium" (Some 85) 1) as (_ & Hup & _).
  - right; left; reflexivity.
  - intros p [= <-]; lia.
  - lia.
  - destruct (Hup 85) as (Hl & _ & Hm);
      [lia | reflexivity | lia | discriminate |].
    split; [apply Hm; reflexivity | exact Hl].
Defined.

End Difficulty.

Section RetryRule.

(** On an integer percentage the comparisons of the widget are those of
    the backend. *)
Lemma Qle_bool_80_inject (p : Z) : Qle_bool 80 (inject_Z p) = (80 <=? p).
Proof.
  unfold Qle_bool, inject_Z. cbn [Qnum Qden].
  now rewrite !Z.mul_1_r.
Qed.

Lemma Qle_bool_inject_40 (p : Z) : Qle_bool (inject_Z p) 40 = (p <=? 40).
Proof.
  unfold Qle_bool, inject_Z. cbn [Qnum Qden].
  now rewrite !Z.mul_1_r.
Qed.

Lemma Qle_bool_compat (x y x' y' : Q) :
  (x == x')%Q -> (y == y')%Q -> Qle_bool x y = Qle_bool x' y'.
Proof.
  intros Hx Hy. apply Bool.eq_true_iff_eq.
  rewrite !Qle_bool_iff. now rewrite Hx, Hy.
Qed.

(** The rule of the backend on an integer score is the rule on that
    score as a number. *)
Lemma adjustedDifficultyQ_inject (d : string) (p : option Z) (a : Z) :
  Llm.adjustedDifficultyQ d (option_map inject_Z p) a
  = Llm.adjustedDifficulty d p a.
Proof.
  destruct p as [p |]; [| reflexivity].
  unfold Llm.adjustedDifficultyQ, Llm.adjustedDifficulty. cbn [option_map].
  now rewrite Qle_bool_80_inject, Qle_bool_inject_40.
Qed.

(** On every attempt number that a retry sends the gate of the backend
    is open. *)
Lemma nextAttempt_positive (attemptNumber : Z) :
  0 <= attemptNumber -> (0 <? Timer.nextAttempt attemptNumber) = true.
Proof. unfold Timer.nextAttempt. intros H. apply Z.ltb_lt. lia. Qed.

(** The rule of [handleTryAgain], case by case. *)
Lemma nextDifficulty_cases (d : string) (q : Q) :
  let next := Timer.nextDifficulty d q in
  ((80 <= q)%Q -> d <> "hard" ->
     next = (if String.eqb d "easy" then "medium" else "hard"))
  /\ (~ ((80 <= q)%Q /\ d <> "hard") -> (q <= 40)%Q -> d <> "easy" ->
     next = (if String.eqb d "hard" then "medium" else "easy"))
  /\ (~ ((80 <= q)%Q /\ d <> "hard") -> ~ ((q <= 40)%Q /\ d <> "easy") ->
     next = d).
Proof.
  cbn zeta. unfold Timer.nextDifficulty.
  destruct (Qle_bool 80 q) eqn:H80;
    destruct (Qle_bool q 40) eqn:H40;
    destruct (String.eqb_spec d "hard") as [Hh | Hh];
    destruct (String.eqb_spec d "easy") as [He | He];
    cbn [andb negb];
    try (apply Qle_bool_iff in H80);
    try (apply Qle_bool_iff in H40);
    repeat split; intros; try reflexivity; try congruence;
    try tauto;
    try (exfalso;
         match goal with
         | H : Qle_bool _ _ = false |- _ =>
             apply Bool.not_true_iff_false in H; apply H;
             apply Qle_bool_iff; assumption
         end).
Qed.

(** C8.  The rule of [handleTryAgain] and the adjustment of the backend
    are the same function of the current difficulty and the score
    percentage: for every current difficulty and every score (any
    number, so also the 100/3 and 200/3 of a quiz of three questions),
    and for the attempt number that the retry sends (one more than the
    attempt number of the widget, which starts at 0), the adjustment of
    the backend on that difficulty, score and attempt number is the
    next difficulty of [handleTryAgain]; on a score that is an integer
    this is the adjustment as the route computes it on its validated
    fields.  Both move up (easy to medium, any other to hard) at a
    score of 80 or more when not at [hard], else move down (hard to
    medium, any other to easy) at a score of 40 or less when not at
    [easy], and else keep the difficulty; on the three levels a move is
    by exactly one level. *)
Theorem retry_rule_agrees (currentDifficulty : string)
    (scorePercentage : Q) (attemptNumber : Z) :
  0 <= attemptNumber ->
  let next := Timer.nextDifficulty currentDifficulty scorePercentage in
  let adjusted :=
    Llm.adjustedDifficultyQ currentDifficulty (Some scorePercentage)
      (Timer.nextAttempt attemptNumber) in
  adjusted = next
  /\ (forall p : Z, (scorePercentage == inject_Z p)%Q ->
        Llm.adjustedDifficulty currentDifficulty (Some p)
          (Timer.nextAttempt attemptNumber) = next)
  /\ ((80 <= scorePercentage)%Q -> currentDifficulty <> "hard" ->
        next = (if String.eqb currentDifficulty "easy"
                then "medium" else "hard")
        /\ (Spec.isDifficulty currentDifficulty ->
            Spec.level next = Spec.level currentDifficulty + 1))
  /\ (~ ((80 <= scorePercentage)%Q /\ currentDifficulty <> "hard") ->
      (scorePercentage <= 40)%Q -> currentDifficulty <> "easy" ->
        next = (if String.eqb currentDifficulty "hard"
                then "medium" else "easy")
        /\ (Spec.isDifficulty currentDifficulty ->
            Spec.level next = Spec.level currentDifficulty - 1))
  /\ (~ ((80 <= scorePercentage)%Q /\ currentDifficulty <> "hard") ->
      ~ ((scorePercentage <= 40)%Q /\ currentDifficulty <> "easy") ->
        next = currentDifficulty).
Proof.
  intros Ha next adjusted.
  assert (Hsame : adjusted = next).
  { subst adjusted next. unfold Llm.adjustedDifficultyQ.
    now rewrite (nextAttempt_positive attemptNumber Ha). }
  destruct (nextDifficulty_cases currentDifficulty scorePercentage)
    as (Hup & Hdown & Hkeep).
  fold next in Hup, Hdown, Hkeep.
  split; [exact Hsame |]. split.
  { intros p Hp. rewrite <- adjustedDifficultyQ_inject. cbn [option_map].
    rewrite <- Hsame. subst adjusted. unfold Llm.adjustedDifficultyQ.
    rewrite (nextAttempt_positive attemptNumber Ha).
    rewrite (Qle_bool_compat 80 scorePercentage 80 (inject_Z p))
      by (reflexivity || assumption).
    rewrite (Qle_bool_compat scorePercentage 40 (inject_Z p) 40)
      by (reflexivity || assumption).
    reflexivity. }
  split.
  { intros H80 Hh. split; [now apply Hup |].
    intros Hd. rewrite (Hup H80 Hh).
    destruct Hd as [-> | [-> | ->]]; [reflexivity | reflexivity |].
    now contradiction Hh. }
  split.
  { intros Hn H40 He. split; [now apply Hdown |].
    intros Hd. rewrite (Hdown Hn H40 He).
    destruct Hd as [-> | [-> | ->]]; [| reflexivity | reflexivity].
    now contradiction He. }
  exact Hkeep.
Qed.

Lemma retry_rule_agrees_witness :
  Llm.adjustedDifficultyQ "medium" (Some (100 # 3)) (Timer.nextAttempt 0)
  = Timer.nextDifficulty "medium" (100 # 3)
  /\ Timer.nextDifficulty "medium" (100 # 3) = "easy".
Proof.
  destruct (retry_rule_agrees "medium" (100 # 3) 0) as (H & _ & _ & Hdown & _).
  - lia.
  - split; [exact H |]. apply Hdown.
    + intros [H80 _]. vm_compute in H80. now apply H80.
    + vm_compute. discriminate.
    + discriminate.
Defined.

End RetryRule.

(* ===================================================================== *)
(** ** The cache key *)
(* ===================================================================== *)

Section CacheKey.

(** Base64 on the three shapes of a tail. *)
Example encode_one : Base64.encode "a" = "YQ==".
Proof. reflexivity. Qed.

Example encode_two : Base64.encode "ab" = "YWI=".
Proof. reflexivity. Qed.

Example encode_hello : Base64.encode "Hello, World!" = "SGVsbG8sIFdvcmxkIQ==".
Proof. reflexivity. Qed.

Lemma append_inv_tail (s1 s2 t1 t2 : string) :
  String.length s1 = String.length s2 ->
  s1 +:+ t1 = s2 +:+ t2 -> s1 = s2 /\ t1 = t2.
Proof.
  revert s2. induction s1 as [| c s1 IH]; intros [| c2 s2] Hlen Heq;
    simpl in *; try discriminate.
  - split; [reflexivity | assumption].
  - injection Heq as -> Heq. injection Hlen as Hlen.
    destruct (IH _ Hlen Heq) as [-> ->]. split; reflexivity.
Qed.

Lemma append_length (s t : string) :
  String.length (s +:+ t) = (String.length s + String.length t)%nat.
Proof.
  induction s as [| c s IH]; simpl; [reflexivity | now f_equal].
Qed.

Lemma append_cancel_r (s1 s2 t : string) : s1 +:+ t = s2 +:+ t -> s1 = s2.
Proof.
  intros H. apply (append_inv_tail s1 s2 t t); [| exact H].
  apply (f_equal String.length) in H. rewrite !append_length in H. lia.
Qed.

Lemma substring_0_append (p s : string) :
  String.substring 0 (String.length p) (p +:+ s) = p.
Proof.
  induction p as [| c p IH]; simpl.
  - destruct s; reflexivity.
  - now f_equal.
Qed.

(** Base64 works on blocks of three characters. *)
Lemma encode_append (n : nat) (p s : string) :
  String.length p = (3 * n)%nat ->
  Base64.encode (p +:+ s) = Base64.encode p +:+ Base64.encode s
  /\ String.length (Base64.encode p) = (4 * n)%nat.
Proof.
  revert p. induction n as [| n IH]; intros p Hlen.
  - destruct p; [| discriminate]. split; reflexivity.
  - destruct p as [| a [| b [| c p]]]; cbn in Hlen; try lia.
    destruct (IH p) as [Happ Hl]; [lia |].
    change (String a (String b (String c p)) +:+ s)
      with (String a (String b (String c (p +:+ s)))).
    change (Base64.encode (String a (String b (String c (p +:+ s)))))
      with (String (Base64.enc1 (N_of_ascii a))
             (String (Base64.enc2 (N_of_ascii a) (N_of_ascii b))
               (String (Base64.enc3 (N_of_ascii b) (N_of_ascii c))
                 (String (Base64.enc4 (N_of_ascii c))
                    (Base64.encode (p +:+ s)))))).
    change (Base64.encode (String a (String b (String c p))))
      with (String (Base64.enc1 (N_of_ascii a))
             (String (Base64.enc2 (N_of_ascii a) (N_of_ascii b))
               (String (Base64.enc3 (N_of_ascii b) (N_of_ascii c))
                 (String (Base64.enc4 (N_of_ascii c)) (Base64.encode p))))).
    rewrite Happ. split; [reflexivity |].
    simpl String.length. rewrite Hl. lia.
Qed.

(** The fingerprint reads the first 24 characters of the content only. *)
Lemma contentHash_prefix (p s : string) :
  String.length p = 24%nat ->
  Llm.contentHash (p +:+ s) = Base64.encode p.
Proof.
  intros Hlen. unfold Llm.contentHash.
  destruct (encode_append 8 p s Hlen) as [-> Hl].
  change 32%nat with (4 * 8)%nat. rewrite <- Hl.
  apply substring_0_append.
Qed.

Lemma cacheKey_prefix (p s1 s2 d : string) (n a : Z) (u : option string) :
  String.length p = 24%nat ->
  Llm.cacheKey (p +:+ s1) d n a u = Llm.cacheKey (p +:+ s2) d n a u.
Proof.
  intros Hlen. unfold Llm.cacheKey. now rewrite !contentHash_prefix.
Qed.

(** The key is a function of its five arguments. *)
Lemma cacheKey_deterministic c1 c2 d1 d2 n1 n2 a1 a2 u1 u2 :
  c1 = c2 -> d1 = d2 -> n1 = n2 -> a1 = a2 -> u1 = u2 ->
  Llm.cacheKey c1 d1 n1 a1 u1 = Llm.cacheKey c2 d2 n2 a2 u2.
Proof. now intros -> -> -> -> ->. Qed.

(** C3.  Two contents that differ and that the schema accepts (between
    100 and 50000 characters), with the four other inputs fixed, get the same cache key:
    the fingerprint is the Base64 text of the first 24 characters, so
    the key does not tell apart contents that share them. *)
Theorem cacheKey_collision :
  Scenario.tutorialHooks <> Scenario.tutorialRouter
  /\ Joi.string_between 100 50000 (JStr Scenario.tutorialHooks) = inr Scenario.tutorialHooks
  /\ Joi.string_between 100 50000 (JStr Scenario.tutorialRouter) = inr Scenario.tutorialRouter
  /\ Llm.cacheKey Scenario.tutorialHooks "medium" 3 0 None
     = Llm.cacheKey Scenario.tutorialRouter "medium" 3 0 None
  /\ Llm.cacheKey Scenario.tutorialHooks "medium" 3 0 None
     = "questions:PGgxPkludHJvZHVjdGlvbiB0byBSZWFj:medium:3:0:anonymous".
Proof.
  split; [discriminate |].
  split; [vm_compute; reflexivity |].
  split; [vm_compute; reflexivity |].
  split; vm_compute; reflexivity.
Qed.

(** C7.  Two requests that agree on content, adjusted difficulty,
    question count and user but not on the attempt number have
    different cache keys; so in a key-value store, what is stored under
    the key of one attempt is not what a lookup under the key of the
    other attempt finds. *)
Theorem cacheKey_attempt_distinct (content d : string) (n a1 a2 : Z)
    (u : option string) :
  a1 <> a2 ->
  Llm.cacheKey content d n a1 u <> Llm.cacheKey content d n a2 u
  /\ forall (m : gmap string jsval) (v : jsval),
       <[Llm.cacheKey content d n a1 u := v]> m
         !! Llm.cacheKey content d n a2 u
       = m !! Llm.cacheKey content d n a2 u.
Proof.
  intros Hne.
  assert (Hkeys : Llm.cacheKey content d n a1 u <> Llm.cacheKey content d n a2 u).
  { unfold Llm.cacheKey. intros Heq.
    do 7 apply (inj (String.app _)) in Heq.
    apply append_cancel_r in Heq.
    apply Hne. exact (inj pretty _ _ Heq). }
  split; [exact Hkeys |].
  intros m v. now apply lookup_insert_ne.
Qed.

Lemma cacheKey_attempt_distinct_witness :
  Llm.cacheKey Scenario.tutorialHooks "hard" 3 0 None
  <> Llm.cacheKey Scenario.tutorialHooks "hard" 3 1 None.
Proof.
  apply (cacheKey_attempt_distinct Scenario.tutorialHooks "hard" 3 0 1 None). lia.
Defined.

End CacheKey.

(* ===================================================================== *)
(** ** Validation of the request *)
(* ===================================================================== *)

Section Validation.

(** C5, as stated, fails: the body breaks the constraints on [content]
    (nine characters) and on [questionCount] (zero), and the details of
    the rejection carry the violation of [content] only. *)
Lemma validate_reports_one_violation :
  ~ (exists s, obj_get Scenario.shortBody "content" = Some (JStr s)
       /\ 100 <= Z.of_nat (string_length s) <= 50000)
  /\ ~ Spec.integerIn Decimal.coerce 1 (Some 10)
         (obj_get Scenario.shortBody "questionCount")
  /\ Llm.allViolations Decimal.coerce Scenario.shortBody
  = [Joi.mkViolation "content" Joi.string_min;
     Joi.mkViolation "questionCount" Joi.number_min]
  /\ Llm.validate Decimal.coerce Scenario.shortBody
     = Joi.Invalid [Joi.mkViolation "content" Joi.string_min]
  /\ ~ (forall v,
          In v (Llm.allViolations Decimal.coerce Scenario.shortBody) ->
          exists details,
            Llm.validate Decimal.coerce Scenario.shortBody
            = Joi.Invalid details
            /\ In v details).
Proof.
  split.
  { intros (s & Hs & Hlen). injection Hs as <-. vm_compute in Hlen.
    destruct Hlen as [Hlen _]. now apply Hlen. }
  split.
  { intros (n & [[Hn | (s & Hs & _)] _] & Hlo & _);
      [injection Hn as <-; lia | discriminate Hs]. }
  split; [reflexivity |]. split; [reflexivity |].
  intros H.
  destruct (H (Joi.mkViolation "questionCount" Joi.number_min))
    as (details & Hv & Hin).
  - right; left; reflexivity.
  - vm_compute in Hv. injection Hv as <-.
    destruct Hin as [Heq | []]. discriminate Heq.
Qed.

(** One step of the validation: a key at fault ends it, a key that
    passes lets it continue with the keys that follow. *)
Lemma key_step {A B} name (checked : Joi.Rule + A) (k : A -> Joi.validation B)
    (rest : list Joi.Violation) :
  (forall a, checked = inr a ->
     match rest with
     | [] => exists value, k a = Joi.Valid value
     | v :: _ => k a = Joi.Invalid [v]
     end) ->
  match Joi.key_violation name checked ++ rest with
  | [] => exists value, Joi.key name checked k = Joi.Valid value
  | v :: _ => Joi.key name checked k = Joi.Invalid [v]
  end.
Proof.
  intros Hk. destruct checked as [r | a]; simpl.
  - reflexivity.
  - apply Hk. reflexivity.
Qed.

(** The validation stops at the first key at fault. *)
Lemma validate_cases (coerce : Joi.Coercion) (body : jsval) :
  match Llm.allViolations coerce body with
  | [] => exists value, Llm.validate coerce body = Joi.Valid value
  | v :: _ => Llm.validate coerce body = Joi.Invalid [v]
  end.
Proof.
  destruct body; try reflexivity.
  unfold Llm.allViolations, Llm.validate.
  do 8 (apply key_step; intros ? _).
  destruct (Llm.unknownKeys (JObj fields)); simpl; eauto.
Qed.

(** *** The checks of the schema against the constraints *)

Lemma passes_no_violation {A} name (checked : Joi.Rule + A) :
  Joi.passes checked <-> Joi.key_violation name checked = [].
Proof.
  destruct checked as [r | a]; simpl; split.
  - intros [a Ha]. discriminate Ha.
  - discriminate.
  - reflexivity.
  - intros _. now exists a.
Qed.

Lemma fails_one_violation {A} name (checked : Joi.Rule + A) :
  ~ Joi.passes checked ->
  exists rule, Joi.key_violation name checked = [Joi.mkViolation name rule].
Proof.
  destruct checked as [r | a]; simpl; intros Hnot.
  - now exists r.
  - exfalso. apply Hnot. now exists a.
Qed.

Lemma safe_spec (n m : Z) :
  Joi.safe n = inr m
  <-> n = m /\ - Joi.MAX_SAFE_INTEGER <= n <= Joi.MAX_SAFE_INTEGER.
Proof.
  unfold Joi.safe.
  destruct (Z.ltb_spec n (- Joi.MAX_SAFE_INTEGER));
    destruct (Z.ltb_spec Joi.MAX_SAFE_INTEGER n); simpl; split;
    try discriminate; try (intros [_ ?]; lia).
  - intros [= <-]. split; [reflexivity | lia].
  - now intros [-> _].
Qed.

(** [Joi.number().integer()] reads in a value the integer it holds. *)
Lemma integer_spec (coerce : Joi.Coercion) (v : jsval) (n : Z) :
  Joi.integer coerce v = inr n <-> Spec.holds coerce v n.
Proof.
  unfold Joi.integer, Spec.holds. split.
  - destruct v as [| b | m | s | items | fields]; try discriminate.
    + intros H. apply safe_spec in H as [-> H]. split; [now left | exact H].
    + destruct (coerce s) as [r | m] eqn:Hc; [discriminate |].
      intros H. apply safe_spec in H as [-> H].
      split; [right; now exists s | exact H].
  - intros [[-> | (s & -> & Hc)] Hsafe].
    + now apply safe_spec.
    + rewrite Hc. now apply safe_spec.
Qed.

Lemma integer_between_spec (coerce : Joi.Coercion) (lo : Z) (hi : option Z)
    (v : jsval) (n : Z) :
  Joi.integer_between coerce lo hi v = inr n
  <-> Spec.holds coerce v n /\ lo <= n
      /\ match hi with Some h => n <= h | None => True end.
Proof.
  unfold Joi.integer_between.
  destruct (Joi.integer coerce v) as [r | m] eqn:Hi.
  - split; [discriminate |]. intros [Hh _].
    apply integer_spec in Hh. congruence.
  - apply integer_spec in Hi. split.
    + destruct (Z.ltb_spec m lo); [discriminate |].
      destruct hi as [h |].
      * destruct (Z.ltb_spec h m); [discriminate |].
        intros [= <-]. split; [exact Hi | split; lia].
      * intros [= <-]. split; [exact Hi | split; [lia | exact I]].
    + intros (Hh & Hlo & Hhi).
      assert (m = n) as ->.
      { apply integer_spec in Hi, Hh. congruence. }
      destruct (Z.ltb_spec n lo); [lia |].
      destruct hi as [h |]; [| reflexivity].
      destruct (Z.ltb_spec h n); [lia | reflexivity].
Qed.

Lemma default_integer_spec (coerce : Joi.Coercion) (d lo : Z)
    (hi : option Z) (field : option jsval) :
  Joi.passes (Joi.default d (Joi.integer_between coerce lo hi) field)
  <-> Spec.integerIn coerce lo hi field.
Proof.
  destruct field as [v |]; simpl.
  - split.
    + intros [n Hn]. exists n. now apply integer_between_spec.
    + intros [n Hn]. exists n. now apply integer_between_spec.
  - split; [trivial |]. intros _. now exists d.
Qed.

Lemma optional_integer_spec (coerce : Joi.Coercion) (lo : Z)
    (hi : option Z) (field : option jsval) :
  Joi.passes (Joi.optional (Joi.integer_between coerce lo hi) field)
  <-> Spec.integerIn coerce lo hi field.
Proof.
  destruct field as [v |]; simpl.
  - split.
    + intros [n Hn].
      destruct (Joi.integer_between coerce lo hi v) as [r | m] eqn:Hm;
        [discriminate |].
      exists m. now apply integer_between_spec.
    + intros [n Hn]. apply integer_between_spec in Hn. rewrite Hn.
      now exists (Some n).
  - split; [trivial |]. intros _. now exists None.
Qed.

Lemma default_valid_spec (d : string) (allowed : list string)
    (field : option jsval) :
  Joi.passes (Joi.default d (Joi.string_valid allowed) field)
  <-> Spec.oneOf allowed field.
Proof.
  destruct field as [v |]; simpl.
  - split.
    + unfold Joi.string_valid. intros [s Hs]. destruct v; try discriminate.
      destruct (existsb (String.eqb s0) allowed) eqn:He; [| discriminate].
      apply existsb_exists in He as (a & Ha & Heq).
      apply String.eqb_eq in Heq. subst a. now exists s0.
    + intros (s & -> & Hin). exists s.
      assert (He : existsb (String.eqb s) allowed = true).
      { apply existsb_exists. exists s. split; [exact Hin |].
        apply String.eqb_refl. }
      unfold Joi.string_valid. now rewrite He.
  - split; [trivial |]. intros _. now exists d.
Qed.

Lemma content_spec (body : jsval) :
  Joi.passes (Llm.check_content body)
  <-> exists s, obj_get body "content" = Some (JStr s)
        /\ 100 <= Z.of_nat (string_length s) <= 50000.
Proof.
  unfold Llm.check_content, Joi.required, Joi.string_between.
  destruct (obj_get body "content") as [v |].
  - split.
    + intros [c Hc]. destruct v; try discriminate.
      destruct (String.eqb s ""); [discriminate |].
      destruct (Z.ltb_spec (Z.of_nat (string_length s)) 100);
        [discriminate |].
      destruct (Z.ltb_spec 50000 (Z.of_nat (string_length s)));
        [discriminate |].
      exists s. split; [reflexivity | lia].
    + intros (s & [= ->] & Hlen). exists s.
      destruct (String.eqb_spec s "") as [-> | _]; [simpl in Hlen; lia |].
      destruct (Z.ltb_spec (Z.of_nat (string_length s)) 100); [lia |].
      destruct (Z.ltb_spec 50000 (Z.of_nat (string_length s)));
        [lia | reflexivity].
  - split; [intros [c Hc]; discriminate | intros (s & Hs & _); discriminate].
Qed.

Lemma userId_spec (body : jsval) :
  Joi.passes (Llm.check_userId body)
  <-> match obj_get body "userId" with
      | None => True
      | Some v => exists s, v = JStr s /\ s <> ""
      end.
Proof.
  unfold Llm.check_userId, Joi.optional, Joi.string_any.
  destruct (obj_get body "userId") as [v |].
  - split.
    + intros [u Hu]. destruct v; try discriminate.
      destruct (String.eqb_spec s ""); [discriminate |]. now exists s.
    + intros (s & -> & Hne).
      destruct (String.eqb_spec s ""); [contradiction |]. now exists (Some s).
  - split; [trivial |]. intros _. now exists None.
Qed.

(** No key of the body is outside the schema. *)
Lemma unknownKeys_spec (fields : list (string * jsval)) :
  Llm.unknownKeys (JObj fields) = []
  <-> Forall (fun k => In k Llm.schemaKeys) (map fst fields).
Proof.
  unfold Llm.unknownKeys. generalize (map fst fields). intros keys.
  induction keys as [| k keys IH].
  - split; [constructor | reflexivity].
  - rewrite filter_cons.
    destruct (existsb (String.eqb k) Llm.schemaKeys) eqn:He.
    + rewrite decide_False by (simpl; tauto).
      rewrite IH. split.
      * intros H. constructor; [| exact H].
        apply existsb_exists in He as (a & Ha & Heq).
        apply String.eqb_eq in Heq. now subst a.
      * intros H. now inversion H.
    + rewrite decide_True by (simpl; tauto).
      split; [discriminate |]. intros H. inversion H as [| ? ? Hin _]. subst.
      exfalso.
      assert (Ht : existsb (String.eqb k) Llm.schemaKeys = true).
      { apply existsb_exists. exists k. split; [exact Hin |].
        apply String.eqb_refl. }
      congruence.
Qed.

(** The violations of the declared keys, one list per key, are empty
    exactly where the constraint of the key holds. *)
Lemma violations_constraints (coerce : Joi.Coercion) (body : jsval) :
  Forall2 (fun violations constraint =>
             (exists rule,
                violations = [Joi.mkViolation (fst constraint) rule]
                /\ ~ snd constraint)
             \/ (violations = [] /\ snd constraint))
    [Joi.key_violation "content" (Llm.check_content body);
     Joi.key_violation "questionCount" (Llm.check_questionCount coerce body);
     Joi.key_violation "difficulty" (Llm.check_difficulty body);
     Joi.key_violation "language" (Llm.check_language body);
     Joi.key_violation "questionType" (Llm.check_questionType body);
     Joi.key_violation "attemptNumber" (Llm.check_attemptNumber coerce body);
     Joi.key_violation "previousScore" (Llm.check_previousScore coerce body);
     Joi.key_violation "userId" (Llm.check_userId body)]
    (Spec.constraints coerce body).
Proof.
  assert (Hstep : forall A name (checked : Joi.Rule + A) (P : Prop),
             (Joi.passes checked <-> P) ->
             (exists rule,
                Joi.key_violation name checked = [Joi.mkViolation name rule]
                /\ ~ P)
             \/ (Joi.key_violation name checked = [] /\ P)).
  { intros A name checked P HP. destruct checked as [r | a]; simpl.
    - left. exists r. split; [reflexivity |].
      intros HPr. apply HP in HPr as [a Ha]. discriminate Ha.
    - right. split; [reflexivity |]. apply HP. now exists a. }
  unfold Spec.constraints.
  repeat (constructor; [apply Hstep |]); [.. | constructor].
  - apply content_spec.
  - apply default_integer_spec.
  - apply default_valid_spec.
  - apply default_valid_spec.
  - apply default_valid_spec.
  - apply default_integer_spec.
  - apply optional_integer_spec.
  - apply userId_spec.
Qed.

(** In a row of violation lists that matches a row of constraints, the
    first violation is that of the first constraint that fails. *)
Lemma first_violation (rows : list (list Joi.Violation))
    (constraints : list (string * Prop)) (rest : list Joi.Violation) :
  Forall2 (fun violations constraint =>
             (exists rule,
                violations = [Joi.mkViolation (fst constraint) rule]
                /\ ~ snd constraint)
             \/ (violations = [] /\ snd constraint))
    rows constraints ->
  (Forall (fun c => snd c) constraints -> concat rows ++ rest = rest)
  /\ (concat rows = [] -> Forall (fun c => snd c) constraints)
  /\ forall before key constraint after,
       constraints = before ++ (key, constraint) :: after ->
       Forall (fun c => snd c) before -> ~ constraint ->
       exists rule tail,
         concat rows ++ rest = Joi.mkViolation key rule :: tail.
Proof.
  induction 1 as [| violations c rows constraints Hc _ IH].
  - split; [reflexivity |]. split; [constructor |].
    intros [| ? ?] ? ? ? Heq; discriminate Heq.
  - destruct IH as (IHall & IHnil & IHfirst). split; [| split].
    + intros Hall. inversion Hall as [| ? ? Hhead Htail]. subst.
      destruct Hc as [(rule & _ & Hnot) | [-> _]]; [contradiction |].
      simpl. now apply IHall.
    + simpl. intros Hnil. apply app_eq_nil in Hnil as [Hv Hrows].
      destruct Hc as [(rule & Hr & _) | [_ Hp]]; [congruence |].
      constructor; [exact Hp | now apply IHnil].
    + intros [| b before] key constraint after Heq Hbefore Hnot.
      * injection Heq as -> ->.
        destruct Hc as [(rule & -> & _) | [_ Hp]]; [| contradiction].
        simpl. eauto.
      * injection Heq as -> Heq.
        inversion Hbefore as [| ? ? Hb Hbefore']. subst.
        destruct Hc as [(rule & _ & Hnb) | [-> _]]; [contradiction |].
        simpl. now apply IHfirst with before constraint after.
Qed.

(** The violations of a body, key by key. *)
Lemma allViolations_rows (coerce : Joi.Coercion)
    (fields : list (string * jsval)) :
  Llm.allViolations coerce (JObj fields)
  = concat
      [Joi.key_violation "content" (Llm.check_content (JObj fields));
       Joi.key_violation "questionCount"
         (Llm.check_questionCount coerce (JObj fields));
       Joi.key_violation "difficulty" (Llm.check_difficulty (JObj fields));
       Joi.key_violation "language" (Llm.check_language (JObj fields));
       Joi.key_violation "questionType"
         (Llm.check_questionType (JObj fields));
       Joi.key_violation "attemptNumber"
         (Llm.check_attemptNumber coerce (JObj fields));
       Joi.key_violation "previousScore"
         (Llm.check_previousScore coerce (JObj fields));
       Joi.key_violation "userId" (Llm.check_userId (JObj fields))]
    ++ map (fun k => Joi.mkViolation k Joi.object_unknown)
         (Llm.unknownKeys (JObj fields)).
Proof.
  unfold Llm.allViolations. cbn [concat].
  rewrite app_nil_r. now rewrite <- !app_assoc.
Qed.

(** A request is accepted exactly when its fields meet the constraints
    and all its keys are declared. *)
Lemma validate_accepts (coerce : Joi.Coercion)
    (fields : list (string * jsval)) :
  (exists value, Llm.validate coerce (JObj fields) = Joi.Valid value)
  <-> Forall (fun c => snd c) (Spec.constraints coerce (JObj fields))
      /\ Forall (fun k => In k Llm.schemaKeys) (map fst fields).
Proof.
  pose proof (validate_cases coerce (JObj fields)) as Hcases.
  pose proof (first_violation _ _
                (map (fun k => Joi.mkViolation k Joi.object_unknown)
                   (Llm.unknownKeys (JObj fields)))
                (violations_constraints coerce (JObj fields)))
    as (Hall & Hnil & _).
  rewrite allViolations_rows in Hcases.
  split.
  - intros [value Hvalue].
    destruct (concat _ ++ _) as [| v vs] eqn:Hv; [| congruence].
    apply app_eq_nil in Hv as [Hrows Hunknown].
    split; [now apply Hnil |].
    apply unknownKeys_spec. now apply map_eq_nil in Hunknown.
  - intros [Hc Hk]. apply unknownKeys_spec in Hk.
    rewrite (Hall Hc), Hk in Hcases. exact Hcases.
Qed.

(** C5, amended.  A request is accepted exactly when every one of its
    fields meets its constraint and it has no key that the schema does
    not declare.  A request that breaks a constraint is rejected, and
    the details of the rejection hold exactly one violation: that of
    the first field, in the order of the schema, whose constraint is
    broken; when the constraints hold, that of an undeclared key.  The
    route answers a rejected request with status 400 and these
    details. *)
Theorem validate_first_violation (env : Llm.Env)
    (fields : list (string * jsval)) :
  let body := JObj fields in
  let constraints := Spec.constraints (Llm.coerce env) body in
  ((exists value, Llm.validate (Llm.coerce env) body = Joi.Valid value)
   <-> Forall (fun c => snd c) constraints
       /\ Forall (fun k => In k Llm.schemaKeys) (map fst fields))
  /\ (forall before key constraint after,
        constraints = before ++ (key, constraint) :: after ->
        Forall (fun c => snd c) before ->
        ~ constraint ->
        exists rule,
          Llm.validate (Llm.coerce env) body
          = Joi.Invalid [Joi.mkViolation key rule])
  /\ (Forall (fun c => snd c) constraints ->
      ~ Forall (fun k => In k Llm.schemaKeys) (map fst fields) ->
      exists key,
        In key (map fst fields) /\ ~ In key Llm.schemaKeys
        /\ Llm.validate (Llm.coerce env) body
           = Joi.Invalid [Joi.mkViolation key Joi.object_unknown])
  /\ (forall details,
        Llm.validate (Llm.coerce env) body = Joi.Invalid details ->
        length details = 1%nat
        /\ Llm.handler env body = Ok (Llm.validationError details)
        /\ Llm.Res.status (Llm.validationError details) = 400).
Proof.
  intros body constraints. subst body constraints.
  set (coerce := Llm.coerce env).
  pose proof (validate_cases coerce (JObj fields)) as Hcases.
  pose proof (first_violation _ _
                (map (fun k => Joi.mkViolation k Joi.object_unknown)
                   (Llm.unknownKeys (JObj fields)))
                (violations_constraints coerce (JObj fields)))
    as (Hall & Hnil & Hfirst).
  rewrite allViolations_rows in Hcases.
  split; [apply validate_accepts | split; [| split]].
  - intros before key constraint after Hsplit Hbefore Hnot.
    destruct (Hfirst before key constraint after Hsplit Hbefore Hnot)
      as (rule & tail & Hhead).
    rewrite Hhead in Hcases. now exists rule.
  - intros Hc Hkeys. rewrite (Hall Hc) in Hcases.
    destruct (Llm.unknownKeys (JObj fields)) as [| key keys] eqn:Hu.
    + exfalso. apply Hkeys. now apply unknownKeys_spec.
    + exists key. simpl in Hcases.
      assert (Hin : In key (Llm.unknownKeys (JObj fields)))
        by (rewrite Hu; now left).
      unfold Llm.unknownKeys in Hin.
      apply list_elem_of_In, list_elem_of_filter in Hin as [Hnew Hin].
      split; [now apply list_elem_of_In |]. split; [| exact Hcases].
      apply Is_true_true, negb_true_iff in Hnew. intros Hk.
      assert (Ht : existsb (String.eqb key) Llm.schemaKeys = true).
      { apply existsb_exists. exists key. split; [exact Hk |].
        apply String.eqb_refl. }
      congruence.
  - intros details Hd.
    assert (Hlen : length details = 1%nat).
    { destruct (concat _ ++ _) as [| v vs].
      - destruct Hcases as [value Hvalue]. congruence.
      - rewrite Hcases in Hd. now injection Hd as <-. }
    split; [exact Hlen |]. split; [| reflexivity].
    unfold Llm.handler. fold coerce. now rewrite Hd.
Qed.

End Validation.

(* ===================================================================== *)
(** ** The API client against the backend *)
(* ===================================================================== *)

Section Client.

Lemma assoc_get_in (fields : list (string * jsval)) (k : string) :
  assoc_get fields k <> None -> In k (map fst fields).
Proof.
  induction fields as [| [k' v] rest IH]; simpl.
  - intros H. now apply H.
  - destruct (String.eqb_spec k' k) as [-> | _]; [now left |].
    intros H. right. now apply IH.
Qed.

(** C9.  The body built by [apiService.generateQuestions] has the four
    keys [content], [difficulty], [questionCount] and [language] and no
    other: whatever the caller puts in [attemptNumber], [previousScore],
    [userId] and [tutorialTitle] is left out.  So when the backend
    accepts the body, the validated request has attempt number 0, no
    previous score and no user; the adjusted difficulty is the requested
    one and the cache key ends with attempt 0 and the [anonymous] user. *)
Theorem client_drops_retry_fields (coerce : Joi.Coercion)
    (request : Api.GenerateQuestionsRequest) :
  let body := Api.generateQuestions_body request in
  (forall k, obj_get body k <> None ->
     In k ["content"; "difficulty"; "questionCount"; "language"])
  /\ obj_get body "attemptNumber" = None
  /\ obj_get body "previousScore" = None
  /\ obj_get body "userId" = None
  /\ obj_get body "tutorialTitle" = None
  /\ forall value, Llm.validate coerce body = Joi.Valid value ->
       Llm.attemptNumber value = 0
       /\ Llm.previousScore value = None
       /\ Llm.userId value = None
       /\ Llm.adjustedDifficulty (Llm.difficulty value)
            (Llm.previousScore value) (Llm.attemptNumber value)
          = Llm.difficulty value
       /\ Llm.cacheKey (Llm.content value)
            (Llm.adjustedDifficulty (Llm.difficulty value)
               (Llm.previousScore value) (Llm.attemptNumber value))
            (Llm.questionCount value) (Llm.attemptNumber value)
            (Llm.userId value)
          = "questions:" +:+ Llm.contentHash (Api.content request)
              +:+ ":" +:+ Llm.difficulty value
              +:+ ":" +:+ pretty (Llm.questionCount value)
              +:+ ":0:anonymous".
Proof.
  intros body. subst body. unfold Api.generateQuestions_body.
  split.
  { intros k Hk. exact (assoc_get_in _ k Hk). }
  do 4 (split; [reflexivity |]).
  intros value Hvalid.
  unfold Llm.validate, Joi.key in Hvalid.
  unfold Llm.check_attemptNumber, Llm.check_previousScore, Llm.check_userId
    in Hvalid.
  simpl obj_get in Hvalid. simpl Joi.default in Hvalid.
  simpl Joi.optional in Hvalid.
  destruct (Llm.check_content _) as [? | c] eqn:Hc; [discriminate |].
  destruct (Llm.check_questionCount _) as [? | n]; [discriminate |].
  destruct (Llm.check_difficulty _) as [? | d]; [discriminate |].
  destruct (Llm.check_language _) as [? | l]; [discriminate |].
  destruct (Llm.check_questionType _) as [? | t]; [discriminate |].
  destruct (Llm.unknownKeys _); [| discriminate].
  injection Hvalid as <-. simpl.
  assert (c = Api.content request) as ->.
  { unfold Llm.check_content in Hc. simpl in Hc.
    destruct (String.eqb _ ""); [discriminate |].
    destruct (_ <? 100); [discriminate |].
    destruct (50000 <? _); [discriminate |].
    now injection Hc. }
  repeat split; reflexivity.
Qed.

Lemma client_drops_retry_fields_witness :
  exists value,
    Llm.validate Decimal.coerce
      (Api.generateQuestions_body Scenario.retryRequest) = Joi.Valid value
    /\ Llm.attemptNumber value = 0
    /\ Llm.userId value = None.
Proof.
  destruct (client_drops_retry_fields Decimal.coerce Scenario.retryRequest)
    as (_ & _ & _ & _ & _ & H).
  eexists. split; [vm_compute; reflexivity |].
  destruct (H (Llm.mkValue Scenario.tutorialHooks 3 "hard" "id" "multiple-choice" 0
                 None None)) as (Ha & _ & Hu & _).
  - vm_compute. reflexivity.
  - split; [exact Ha | exact Hu].
Defined.

End Client.

(* ===================================================================== *)
(** ** Normalisation of the generator output *)
(* ===================================================================== *)

Section Normalisation.

Import Spec.

Lemma get_prop_ok (v : jsval) (k : string) :
  v <> JNull -> get_prop v k = Ok (obj_get v k).
Proof. destruct v; [congruence | reflexivity ..]. Qed.

(** A traversal whose function succeeds on every element succeeds, and
    relates the elements position by position. *)
Lemma map_indexed_ok {A B} (f : nat -> A -> result B) (P : A -> Prop)
    (R : nat -> A -> B -> Prop) :
  (forall i x, P x -> exists y, f i x = Ok y /\ R i x y) ->
  forall l i0, Forall P l ->
    exists ys, map_indexed f i0 l = Ok ys
      /\ length ys = length l
      /\ forall j x y, l !! j = Some x -> ys !! j = Some y ->
           R (i0 + j)%nat x y.
Proof.
  intros Hf l. induction l as [| x l IH]; intros i0 Hall.
  - exists []. repeat split. intros j x y Hx. destruct j; discriminate.
  - inversion Hall as [| ? ? Hx Hl]; subst.
    destruct (Hf i0 x Hx) as (y & Hy & HR).
    destruct (IH (S i0) Hl) as (ys & Hys & Hlen & Hrel).
    exists (y :: ys). simpl. rewrite Hy, Hys. repeat split.
    + simpl. now rewrite Hlen.
    + intros [| j] x' y'; simpl.
      * intros [= <-] [= <-]. now rewrite Nat.add_0_r.
      * intros Hx' Hy'. replace (i0 + S j)%nat with (S i0 + j)%nat by lia.
        now apply Hrel.
Qed.

Lemma normalizeOption_ok (i : nat) (opt : jsval) :
  opt <> JNull ->
  exists o, Llm.normalizeOption i opt = Ok o
    /\ Llm.Opt.id o = or_else (obj_get opt "id") (JStr (fromCharCode (65 + i))).
Proof.
  intros Hnn. unfold Llm.normalizeOption.
  destruct opt; try congruence; simpl; eexists; split; reflexivity.
Qed.

Lemma slice0_4_length {A} (l : list A) : (length (slice0 4 l) <= 4)%nat.
Proof. unfold slice0. simpl. rewrite length_take. lia. Qed.

(** The loop stops with four options. *)
Lemma padOptions_length (opts : list Llm.Opt.t) :
  (length opts <= 4)%nat -> length (Llm.padOptions 4 opts) = 4%nat.
Proof.
  intros Hlen.
  destruct opts as [| a [| b [| c [| d [| e opts]]]]];
    simpl in Hlen; try lia; reflexivity.
Qed.

(** The options that are added take the letters that follow. *)
Lemma padOptions_ids (opts : list Llm.Opt.t) :
  (length opts <= 4)%nat ->
  (forall j o, opts !! j = Some o ->
     Llm.Opt.id o = JStr (fromCharCode (65 + j))) ->
  map Llm.Opt.id (Llm.padOptions 4 opts) = Spec.optionLetters.
Proof.
  intros Hlen Hid.
  destruct opts as [| a [| b [| c [| d [| e opts]]]]];
    simpl in Hlen; try lia; simpl;
    repeat match goal with
    | o : Llm.Opt.t |- _ =>
        match goal with
        | |- context [Llm.Opt.id o] => fail 1
        | _ => clear o
        end
    end.
  - reflexivity.
  - rewrite (Hid 0%nat a eq_refl). reflexivity.
  - rewrite (Hid 0%nat a eq_refl), (Hid 1%nat b eq_refl). reflexivity.
  - rewrite (Hid 0%nat a eq_refl), (Hid 1%nat b eq_refl),
      (Hid 2%nat c eq_refl). reflexivity.
  - rewrite (Hid 0%nat a eq_refl), (Hid 1%nat b eq_refl),
      (Hid 2%nat c eq_refl), (Hid 3%nat d eq_refl). reflexivity.
Qed.

Lemma normalizeQuestion_ok (index : nat) (q : jsval) :
  readable q ->
  exists nq, Llm.normalizeQuestion index q = Ok nq
    /\ Llm.Question.id nq = Z.of_nat index + 1
    /\ normalised q nq.
Proof.
  intros [Hnn Hopts]. unfold Llm.normalizeQuestion.
  rewrite !get_prop_ok by assumption. cbn [bind].
  set (raw := match obj_get q "options" with
              | Some (JArr items) => items
              | _ => []
              end).
  assert (Hraw : Forall (fun opt => opt <> JNull) (slice0 4 raw)).
  { subst raw. destruct (obj_get q "options") as [[] |] eqn:Hq;
      try (cbv [slice0]; simpl; constructor; fail). now apply Hopts. }
  destruct (map_indexed_ok Llm.normalizeOption (fun opt => opt <> JNull)
              (fun i opt o => Llm.Opt.id o
                 = or_else (obj_get opt "id") (JStr (fromCharCode (65 + i))))
              normalizeOption_ok (slice0 4 raw) 0%nat Hraw)
    as (os & -> & Hlen & Hrel).
  cbn [bind]. eexists. split; [reflexivity |]. split; [reflexivity |].
  assert (Hos : (length os <= 4)%nat).
  { rewrite Hlen. apply slice0_4_length. }
  unfold normalised. cbn [Llm.Question.options Llm.Question.correctAnswer].
  split; [now apply padOptions_length |].
  split; [reflexivity |].
  split.
  { unfold or_else, truthy_opt.
    destruct (obj_get q "correctAnswer") as [v |]; [| reflexivity].
    now intros ->. }
  intros Hno. apply padOptions_ids; [assumption |].
  intros j o Ho.
  destruct (lookup_lt_is_Some_2 (slice0 4 raw) j) as [opt Hopt].
  { rewrite <- Hlen. now apply lookup_lt_Some with o. }
  rewrite (Hrel j opt o Hopt Ho). simpl Nat.add.
  assert (Hfalsy : truthy_opt (obj_get opt "id") = false).
  { assert (Hall : Forall (fun opt => truthy_opt (obj_get opt "id") = false)
                     (slice0 4 raw)).
    { subst raw. destruct (obj_get q "options") as [[] |] eqn:Hq;
        try (cbv [slice0]; simpl; constructor; fail). now apply Hno. }
    rewrite Forall_forall in Hall. apply Hall.
    now apply list_elem_of_lookup_2 with j. }
  unfold or_else, truthy_opt in *.
  destruct (obj_get opt "id") as [v |]; [| reflexivity].
  now rewrite Hfalsy.
Qed.

End Normalisation.

Section NormalisationClaims.

Import Spec.

(** C6, as stated, fails: a raw answer outside A-D is kept as it is
    (here [E], with the four options identified A to D), and a [null]
    question makes normalisation throw. *)
Lemma normalisation_keeps_foreign_answer :
  exists nq,
    Llm.normalizeQuestions [Scenario.rawAnswerE] 3 = Ok [nq]
    /\ length (Llm.Question.options nq) = 4%nat
    /\ map Llm.Opt.id (Llm.Question.options nq) = Spec.optionLetters
    /\ Llm.Question.correctAnswer nq = JStr "E"
    /\ ~ In (Llm.Question.correctAnswer nq) Spec.optionLetters
    /\ Llm.normalizeQuestions [JNull] 3 = Throw TypeError.
Proof.
  eexists. split; [vm_compute; reflexivity |].
  repeat split. simpl. intros H.
  repeat destruct H as [H | H]; try discriminate H. exact H.
Qed.

(** C6, amended.  For every raw array whose questions, and their first
    four options, are not [null], normalisation succeeds on the
    questions that [slice] keeps; each normalised question has exactly
    four options; its answer is the raw answer when that is truthy and
    [A] otherwise; when the raw options bring no identifiers, the four
    options are identified A, B, C, D.  Questions are numbered from 1
    by position, and [parseGeminiResponse] returns their objects. *)
Theorem normalizeQuestions_shape (questions : list jsval)
    (expectedCount : Z) :
  Forall readable questions ->
  exists valid,
    Llm.normalizeQuestions questions expectedCount = Ok valid
    /\ Forall2 normalised (slice0 expectedCount questions) valid
    /\ (forall i nq, valid !! i = Some nq ->
          Llm.Question.id nq = Z.of_nat i + 1)
    /\ (forall extract text,
          extract text = Ok (JArr questions) -> questions <> [] ->
          Llm.parseGeminiResponse extract text expectedCount
          = Some (map Llm.Question.to_js valid)).
Proof.
  intros Hall.
  assert (Hkept : Forall readable (slice0 expectedCount questions)).
  { unfold slice0. destruct (expectedCount <? 0); now apply Forall_take. }
  destruct (map_indexed_ok Llm.normalizeQuestion readable
              (fun i q nq => Llm.Question.id nq = Z.of_nat i + 1
                             /\ normalised q nq)
              normalizeQuestion_ok _ 0%nat Hkept)
    as (valid & Hvalid & Hlen & Hrel).
  exists valid. split; [exact Hvalid |]. split; [| split].
  - apply Forall2_same_length_lookup. split; [now rewrite Hlen |].
    intros i q nq Hq Hnq. now apply (Hrel i q nq).
  - intros i nq Hnq.
    destruct (lookup_lt_is_Some_2 (slice0 expectedCount questions) i)
      as [q Hq].
    { rewrite <- Hlen. now apply lookup_lt_Some with nq. }
    now apply (Hrel i q nq).
  - intros extract text Hext Hne. unfold Llm.parseGeminiResponse.
    rewrite Hext. cbn [bind].
    destruct questions as [| q0 rest]; [congruence |].
    simpl Nat.eqb. cbv iota. fold (Llm.normalizeQuestions (q0 :: rest) expectedCount).
    unfold Llm.normalizeQuestions. rewrite Hvalid. reflexivity.
Qed.

Lemma normalizeQuestions_shape_witness :
  exists valid,
    Llm.normalizeQuestions
      [JObj [("options", JArr [JStr "yes"; JStr "no"])]] 3 = Ok valid
    /\ Forall (fun nq =>
         length (Llm.Question.options nq) = 4%nat
         /\ Llm.Question.correctAnswer nq = JStr "A") valid.
Proof.
  destruct (normalizeQuestions_shape
              [JObj [("options", JArr [JStr "yes"; JStr "no"])]] 3)
    as (valid & Hv & Hshape & _).
  - constructor; [| constructor].
    split; [discriminate |].
    intros items [= <-]. repeat constructor; discriminate.
  - exists valid. split; [exact Hv |].
    simpl in Hshape.
    inversion Hshape as [| q nq qs nqs (Hopts & Hans & _) Hrest]; subst.
    inversion Hrest; subst.
    constructor; [| constructor]. split; [exact Hopts | exact Hans].
Defined.

End NormalisationClaims.

(* ===================================================================== *)
(** ** The cache never throws *)
(* ===================================================================== *)

Section CacheTotal.

Lemma get_total (json : Json) (st : Cache.State) (key : string) :
  exists v, Cache.get json st key = Ok v.
Proof.
  unfold Cache.get, try_catch.
  destruct (if negb (Cache.isAvailable st) then _ else _); eauto.
Qed.

Lemma set_total (json : Json) (st : Cache.State) (key : string)
    (value : jsval) (ttl : option Z) :
  exists b, Cache.set json st key value ttl = Ok b.
Proof.
  unfold Cache.set, try_catch.
  destruct (if negb (Cache.isAvailable st) then _ else _); eauto.
Qed.

Lemma del_total (st : Cache.State) (key : string) :
  exists b, Cache.del st key = Ok b.
Proof.
  unfold Cache.del, try_catch.
  destruct (if negb (Cache.isAvailable st) then _ else _); eauto.
Qed.

Lemma get_value (json : Json) (st : Cache.State) (key : string) (v : jsval) :
  Cache.get json st key = Ok v ->
  v = JNull
  \/ exists c s, Cache.client st = Some c
       /\ Cache.redis_get c key = Ok (Some s)
       /\ parse json (JStr s) = Ok v.
Proof.
  unfold Cache.get, Cache.isAvailable, Cache.with_client, try_catch, bind.
  destruct (Cache.client st) as [c |]; simpl.
  - destruct (Cache.isConnected st); simpl.
    + destruct (Cache.redis_get c key) as [[s |] |] eqn:Hget.
      * destruct (String.eqb s ""); simpl.
        -- intros [= <-]. now left.
        -- destruct (parse json (JStr s)) eqn:Hparse.
           ++ intros [= <-]. right. now exists c, s.
           ++ intros [= <-]. now left.
      * intros [= <-]. now left.
      * intros [= <-]. now left.
    + intros [= <-]. now left.
  - intros [= <-]. now left.
Qed.

(** C10.  No operation of the cache throws.  [get] returns [null] or
    the value parsed from what Redis holds; it returns [null], and [set]
    and [del] return [false], when the client is not available and when
    the command (or the parsing, or the serialisation) throws. *)
Theorem cache_never_throws (json : Json) (st : Cache.State) (key : string)
    (value : jsval) (ttl : option Z) :
  (exists v, Cache.get json st key = Ok v
     /\ (v = JNull
         \/ exists c s, Cache.client st = Some c
              /\ Cache.redis_get c key = Ok (Some s)
              /\ parse json (JStr s) = Ok v))
  /\ (exists b, Cache.set json st key value ttl = Ok b)
  /\ (exists b, Cache.del st key = Ok b)
  /\ (Cache.isAvailable st = false ->
        Cache.get json st key = Ok JNull
        /\ Cache.set json st key value ttl = Ok false
        /\ Cache.del st key = Ok false)
  /\ (forall c e, Cache.client st = Some c ->
        Cache.redis_get c key = Throw e ->
        Cache.get json st key = Ok JNull)
  /\ (forall c s e, Cache.client st = Some c ->
        Cache.redis_get c key = Ok (Some s) ->
        parse json (JStr s) = Throw e ->
        Cache.get json st key = Ok JNull)
  /\ (forall e, stringify json value = Throw e ->
        Cache.set json st key value ttl = Ok false)
  /\ (forall c s e, Cache.client st = Some c ->
        stringify json value = Ok s ->
        Cache.redis_setEx c key (default 3600 ttl) s = Throw e ->
        Cache.set json st key value ttl = Ok false)
  /\ (forall c e, Cache.client st = Some c ->
        Cache.redis_del c key = Throw e ->
        Cache.del st key = Ok false).
Proof.
  split.
  { destruct (get_total json st key) as [v Hv].
    exists v. split; [exact Hv | now apply get_value]. }
  split; [apply set_total |]. split; [apply del_total |].
  unfold Cache.get, Cache.set, Cache.del, Cache.with_client, try_catch, bind.
  split.
  { intros ->. repeat split. }
  split.
  { intros c e Hc Hget. rewrite Hc, Hget.
    destruct (negb (Cache.isAvailable st)); reflexivity. }
  split.
  { intros c s e Hc Hget Hparse. rewrite Hc, Hget, Hparse.
    destruct (negb (Cache.isAvailable st)), (negb (String.eqb s ""));
      reflexivity. }
  split.
  { intros e Hs. rewrite Hs.
    destruct (negb (Cache.isAvailable st)); reflexivity. }
  split.
  { intros c s e Hc Hs Hset. rewrite Hc, Hs.
    destruct ttl as [t |]; simpl in Hset; rewrite Hset;
      destruct (negb (Cache.isAvailable st)); reflexivity. }
  intros c e Hc Hdel. rewrite Hc, Hdel.
  destruct (negb (Cache.isAvailable st)); reflexivity.
Qed.

Lemma cache_never_throws_witness :
  let st := Cache.mkState (Some Scenario.brokenRedis) true in
  Cache.get Scenario.someJson st "tutorial:42" = Ok JNull
  /\ Cache.del st "tutorial:42" = Ok false
  /\ Cache.set Scenario.someJson (Cache.mkState None true) "tutorial:42"
       (JStr "x") None = Ok false.
Proof.
  intros st.
  destruct (cache_never_throws Scenario.someJson st "tutorial:42" JNull None)
    as (_ & _ & _ & _ & Hget & _ & _ & _ & Hdel).
  destruct (cache_never_throws Scenario.someJson (Cache.mkState None true)
              "tutorial:42" (JStr "x") None)
    as (_ & _ & _ & Hdown & _).
  split; [| split].
  - apply (Hget Scenario.brokenRedis (mkError "Connection is closed"));
      reflexivity.
  - apply (Hdel Scenario.brokenRedis (mkError "Connection is closed"));
      reflexivity.
  - apply Hdown. reflexivity.
Defined.

End CacheTotal.

(* ===================================================================== *)
(** ** The handler: fallback on a generator failure *)
(* ===================================================================== *)

Section Fallback.

(** The handler answers every request: nothing is thrown to Express. *)
Lemma handler_total (env : Llm.Env) (body : jsval) :
  exists r, Llm.handler env body = Ok r.
Proof.
  unfold Llm.handler, try_catch.
  destruct (match Llm.validate (Llm.coerce env) body with
            | Joi.Valid value => _
            | Joi.Invalid details => _
            end); eauto.
Qed.

(** The readings of [Decimal] agree. *)
Lemma readAlike_decimal (env : Llm.Env) :
  Llm.coerce env = Decimal.coerce ->
  Llm.toInteger env = Decimal.toInteger ->
  Llm.readAlike env.
Proof.
  intros Hc Ht. unfold Llm.readAlike. rewrite Hc, Ht. split.
  - intros s n. unfold Decimal.coerce, Decimal.toInteger.
    destruct (Decimal.read s); [now intros [= ->] | discriminate].
  - intros n. discriminate.
Qed.

(** A validated question count lies between 1 and 10. *)
Lemma validated_range (coerce : Joi.Coercion) (body : jsval)
    (value : Llm.Value) :
  Llm.validate coerce body = Joi.Valid value ->
  Joi.default 3 (Joi.integer_between coerce 1 (Some 10))
    (obj_get body "questionCount") = inr (Llm.questionCount value)
  /\ 1 <= Llm.questionCount value <= 10.
Proof.
  unfold Llm.validate, Joi.key. destruct body; try discriminate.
  destruct (Llm.check_content _); [discriminate |].
  destruct (Llm.check_questionCount _ _) as [? | n] eqn:Hn; [discriminate |].
  destruct (Llm.check_difficulty _); [discriminate |].
  destruct (Llm.check_language _); [discriminate |].
  destruct (Llm.check_questionType _); [discriminate |].
  destruct (Llm.check_attemptNumber _ _); [discriminate |].
  destruct (Llm.check_previousScore _ _); [discriminate |].
  destruct (Llm.check_userId _); [discriminate |].
  destruct (Llm.unknownKeys _); [| discriminate].
  intros [= <-]. cbn [Llm.questionCount].
  unfold Llm.check_questionCount in Hn. split; [exact Hn |].
  destruct (obj_get (JObj fields) "questionCount") as [v |].
  - apply integer_between_spec in Hn. lia.
  - injection Hn as <-. lia.
Qed.

(** The count that the [catch] block hands to [slice] is the validated
    question count, whether the body holds it as a number or as a
    text. *)
Lemma validated_questionCount (env : Llm.Env) (body : jsval)
    (value : Llm.Value) :
  Llm.readAlike env ->
  Llm.validate (Llm.coerce env) body = Joi.Valid value ->
  to_integer (Llm.toInteger env)
    (or_else (obj_get body "questionCount") (JNum 3))
  = Llm.questionCount value.
Proof.
  intros [Hread Hempty] Hvalid.
  destruct (validated_range _ _ _ Hvalid) as [Hn Hrange].
  destruct (obj_get body "questionCount") as [v |].
  - apply integer_between_spec in Hn as ([[-> | (s & -> & Hs)] _] & _).
    + unfold or_else, truthy.
      destruct (Z.eqb_spec (Llm.questionCount value) 0); [lia | reflexivity].
    + unfold or_else, truthy.
      destruct (String.eqb_spec s "") as [-> | _].
      * now apply Hempty in Hs.
      * simpl. now apply Hread.
  - injection Hn as <-. reflexivity.
Qed.

Lemma getFallbackQuestions_take (read : string -> Z) (count : jsval) :
  0 <= to_integer read count ->
  Llm.getFallbackQuestions read (Some count)
  = take (Z.to_nat (to_integer read count)) Llm.fallback.
Proof.
  intros Hn. unfold Llm.getFallbackQuestions, slice0.
  destruct (Z.ltb_spec (to_integer read count) 0); [lia | reflexivity].
Qed.

(** *** Normalisation on a question that cannot be read *)

Lemma map_indexed_throws {A B} (f : nat -> A -> result B) (bad : A -> bool) :
  (forall i x, bad x = true -> exists e, f i x = Throw e) ->
  forall l i0, existsb bad l = true -> exists e, map_indexed f i0 l = Throw e.
Proof.
  intros Hf l. induction l as [| x l IH]; intros i0 Hbad; [discriminate |].
  simpl in *. destruct (bad x) eqn:Hx.
  - destruct (Hf i0 x Hx) as [e ->]. eauto.
  - destruct (f i0 x) as [y | e]; [| eauto].
    destruct (IH (S i0) Hbad) as [e ->]. eauto.
Qed.

Lemma normalizeQuestion_unreadable (index : nat) (q : jsval) :
  Spec.unreadable q = true ->
  exists e, Llm.normalizeQuestion index q = Throw e.
Proof.
  unfold Spec.unreadable.
  destruct q as [| b | n | s | items | fields]; try discriminate.
  - intros _. eexists. reflexivity.
  - cbn [Spec.isNull orb obj_get]. intros Hq.
    unfold Llm.normalizeQuestion. cbn [get_prop obj_get bind].
    destruct (assoc_get fields "options") as [[| | | | options |] |];
      try discriminate.
    destruct (map_indexed_throws Llm.normalizeOption Spec.isNull) with
      (l := slice0 4 options) (i0 := 0%nat) as [e He].
    + intros i [| | | | |]; try discriminate. intros _. eexists. reflexivity.
    + exact Hq.
    + rewrite He. eauto.
Qed.

Lemma readable_reflect (q : jsval) :
  Spec.unreadable q = false -> Spec.readable q.
Proof.
  unfold Spec.unreadable, Spec.readable. intros Hq.
  apply orb_false_iff in Hq as [Hnull Hoptions]. split.
  - intros ->. discriminate.
  - intros items Hitems. rewrite Hitems in Hoptions.
    apply Forall_forall. intros opt Hin ->.
    assert (Ht : existsb Spec.isNull (slice0 4 items) = true).
    { apply existsb_exists. exists JNull. split; [apply list_elem_of_In |];
        [assumption | reflexivity]. }
    congruence.
Qed.

(** What [parseGeminiResponse] makes of each outcome that has a text. *)
Lemma normalizeQuestions_unreadable (questions : list jsval) (n : Z) :
  existsb Spec.unreadable (slice0 n questions) = true ->
  exists e, Llm.normalizeQuestions questions n = Throw e.
Proof.
  intros Hbad. unfold Llm.normalizeQuestions.
  apply map_indexed_throws with Spec.unreadable; [| exact Hbad].
  intros i x. apply normalizeQuestion_unreadable.
Qed.

Lemma normalizeQuestions_readable (questions : list jsval) (n : Z) :
  existsb Spec.unreadable (slice0 n questions) = false ->
  exists valid,
    Llm.normalizeQuestions questions n = Ok valid
    /\ length valid = length (slice0 n questions).
Proof.
  intros Hgood. unfold Llm.normalizeQuestions.
  destruct (map_indexed_ok Llm.normalizeQuestion Spec.readable
              (fun _ _ _ => True)) with
    (l := slice0 n questions) (i0 := 0%nat) as (valid & Hv & Hlen & _).
  - intros i x Hx. destruct (normalizeQuestion_ok i x Hx) as (nq & Hnq & _).
    now exists nq.
  - apply Forall_forall. intros q Hin. apply readable_reflect.
    destruct (Spec.unreadable q) eqn:Hq; [| reflexivity].
    assert (Ht : existsb Spec.unreadable (slice0 n questions) = true).
    { apply existsb_exists. exists q. split; [apply list_elem_of_In |];
        assumption. }
    congruence.
  - now exists valid.
Qed.

(** *** The [try] block on a cache miss, outcome by outcome *)

(** What [parseGeminiResponse] makes of what [extract] reads. *)
Lemma parse_by_outcome (extract : string -> result jsval) (text : string)
    (n : Z) :
  1 <= n ->
  match extract text with
  | Throw _ => Llm.parseGeminiResponse extract text n = None
  | Ok (JArr []) => Llm.parseGeminiResponse extract text n = None
  | Ok (JArr questions) =>
      if existsb Spec.unreadable (slice0 n questions)
      then Llm.parseGeminiResponse extract text n = None
      else exists valid,
             Llm.normalizeQuestions questions n = Ok valid
             /\ valid <> []
             /\ Llm.parseGeminiResponse extract text n
                = Some (map Llm.Question.to_js valid)
  | Ok v => Llm.parseGeminiResponse extract text n = Some [v]
  end.
Proof.
  intros Hn.
  assert (Hone : forall v : jsval, slice0 n [v] = [v]).
  { intros v. unfold slice0. destruct (Z.ltb_spec n 0); [lia |].
    destruct (Z.to_nat n) eqn:Hz; [lia |]. simpl. now rewrite take_nil. }
  unfold Llm.parseGeminiResponse. cbv zeta.
  destruct (extract text) as [[| b | m | s | items | fields] | e];
    cbn [bind]; try (now rewrite Hone); try reflexivity.
  destruct items as [| q items]; [reflexivity |].
  cbn [length Nat.eqb].
  destruct (existsb Spec.unreadable (slice0 n (q :: items))) eqn:Hq.
  - destruct (normalizeQuestions_unreadable _ _ Hq) as [e ->]. reflexivity.
  - destruct (normalizeQuestions_readable _ _ Hq) as (valid & Hvalid & Hlen).
    exists valid. rewrite Hvalid. cbn [bind].
    split; [reflexivity |]. split; [| reflexivity].
    intros ->. unfold slice0 in Hlen.
    destruct (Z.ltb_spec n 0); [lia |].
    destruct (Z.to_nat n) eqn:Hz; [lia |]. discriminate Hlen.
Qed.

(** An outcome that is treated as a failure makes the [try] block
    throw. *)
Lemma miss_failure (env : Llm.Env) (value : Llm.Value) :
  1 <= Llm.questionCount value ->
  Llm.cacheMisses env value ->
  Spec.treatedAsFailure (Llm.questionCount value) (Spec.outcome env value)
  = true ->
  exists e, Llm.generateQuestions env value = Throw e.
Proof.
  intros Hn Hmiss.
  unfold Llm.generateQuestions, Llm.cacheMisses, Spec.outcome in *.
  cbv zeta in *.
  destruct (get_total (Llm.json env) (Llm.store env)
              (Llm.cacheKey (Llm.content value)
                 (Llm.adjustedDifficulty (Llm.difficulty value)
                    (Llm.previousScore value) (Llm.attemptNumber value))
                 (Llm.questionCount value) (Llm.attemptNumber value)
                 (Llm.userId value))) as [cached Hget].
  rewrite Hget. cbn [bind]. rewrite (Hmiss cached Hget).
  destruct (Llm.generate env _ _ _ _ _ _) as [text | e]; cbn [bind];
    [| eauto].
  pose proof (parse_by_outcome (Llm.extract env) text
                (Llm.questionCount value) Hn) as Hp.
  destruct (Llm.extract env text) as [[| b | m | s | items | fields] | e];
    try discriminate; [| rewrite Hp; eauto].
  destruct items as [| q items]; [rewrite Hp; eauto |].
  cbn [Spec.treatedAsFailure]. intros Hbad. rewrite Hbad in Hp.
  rewrite Hp. eauto.
Qed.

(** Every other outcome is answered as a fresh generation, provided
    [JSON.stringify] returns: a value that is not a list is sent back
    as the only question, and a list is sent back normalised. *)
Lemma miss_success (env : Llm.Env) (value : Llm.Value) :
  1 <= Llm.questionCount value ->
  Llm.cacheMisses env value ->
  Spec.treatedAsFailure (Llm.questionCount value) (Spec.outcome env value)
  = false ->
  Spec.serialises (Llm.json env) ->
  exists r questions,
    Llm.generateQuestions env value = Ok r
    /\ Llm.Res.status r = 200
    /\ Llm.Res.success r = Some true
    /\ Llm.Res.fallback r = None
    /\ Llm.Res.cached r = Some false
    /\ Llm.Res.questions r = Some (JArr questions)
    /\ questions <> []
    /\ (forall v, Spec.outcome env value = Spec.NotAnArray v ->
          questions = [v])
    /\ (forall raw, Spec.outcome env value = Spec.Questions raw ->
          exists valid,
            Llm.normalizeQuestions raw (Llm.questionCount value) = Ok valid
            /\ questions = map Llm.Question.to_js valid).
Proof.
  intros Hn Hmiss Hgood Hjson.
  assert (Hparse : exists questions,
            questions <> []
            /\ (forall text,
                  Llm.generate env (Llm.content value)
                    (Llm.questionCount value)
                    (Llm.adjustedDifficulty (Llm.difficulty value)
                       (Llm.previousScore value) (Llm.attemptNumber value))
                    (Llm.language value) (Llm.questionType value)
                    (Llm.attemptNumber value) = Ok text ->
                  Llm.parseGeminiResponse (Llm.extract env) text
                    (Llm.questionCount value) = Some questions)
            /\ (exists text,
                  Llm.generate env (Llm.content value)
                    (Llm.questionCount value)
                    (Llm.adjustedDifficulty (Llm.difficulty value)
                       (Llm.previousScore value) (Llm.attemptNumber value))
                    (Llm.language value) (Llm.questionType value)
                    (Llm.attemptNumber value) = Ok text)
            /\ (forall v, Spec.outcome env value = Spec.NotAnArray v ->
                  questions = [v])
            /\ (forall raw, Spec.outcome env value = Spec.Questions raw ->
                  exists valid,
                    Llm.normalizeQuestions raw (Llm.questionCount value)
                    = Ok valid
                    /\ questions = map Llm.Question.to_js valid)).
  { unfold Spec.outcome in *.
    destruct (Llm.generate env _ _ _ _ _ _) as [text | e]; [| discriminate].
    pose proof (parse_by_outcome (Llm.extract env) text
                  (Llm.questionCount value) Hn) as Hp.
    destruct (Llm.extract env text) as [[| b | m | s | items | fields] | e];
      try discriminate;
      try (eexists; split; [| split; [intros ? [= <-]; exact Hp |
             split; [eexists; reflexivity |
             split; [intros ? [= <-]; reflexivity |
                     intros ? Hraw; discriminate Hraw]]]];
           discriminate).
    destruct items as [| q items]; [discriminate |].
    cbn [Spec.treatedAsFailure] in Hgood. rewrite Hgood in Hp.
    destruct Hp as (valid & Hvalid & Hne & Hp).
    exists (map Llm.Question.to_js valid).
    split; [intros Hnil; apply map_eq_nil in Hnil; contradiction |].
    split; [intros ? [= <-]; exact Hp |].
    split; [eexists; reflexivity |].
    split; [intros ? Hv; discriminate Hv |].
    intros raw [= <-]. now exists valid. }
  destruct Hparse as (questions & Hne & Hp & [text Htext] & Hwrap & Hlist).
  unfold Llm.generateQuestions, Llm.cacheMisses in *. cbv zeta in *.
  destruct (get_total (Llm.json env) (Llm.store env)
              (Llm.cacheKey (Llm.content value)
                 (Llm.adjustedDifficulty (Llm.difficulty value)
                    (Llm.previousScore value) (Llm.attemptNumber value))
                 (Llm.questionCount value) (Llm.attemptNumber value)
                 (Llm.userId value))) as [cached Hget].
  rewrite Hget. cbn [bind]. rewrite (Hmiss cached Hget).
  rewrite Htext. cbn [bind]. rewrite (Hp text Htext).
  destruct questions as [| q qs]; [congruence |].
  destruct (Hjson (JArr (q :: qs))) as [serialized ->]. cbn [bind].
  destruct (set_total (Llm.json env) (Llm.store env)
              (Llm.cacheKey (Llm.content value)
                 (Llm.adjustedDifficulty (Llm.difficulty value)
                    (Llm.previousScore value) (Llm.attemptNumber value))
                 (Llm.questionCount value) (Llm.attemptNumber value)
                 (Llm.userId value))
              (JStr serialized) (Some 3600)) as [b ->].
  cbn [bind]. eexists. exists (q :: qs).
  split; [reflexivity |]. repeat split; assumption.
Qed.

(** The responses of the [try] block never carry the fallback flag. *)
Lemma generateQuestions_not_fallback (env : Llm.Env) (value : Llm.Value)
    (r : Llm.Res.t) :
  Llm.generateQuestions env value = Ok r -> Llm.Res.fallback r = None.
Proof.
  unfold Llm.generateQuestions, bind.
  destruct (Cache.get _ _ _) as [cached |]; [| discriminate].
  destruct (truthy cached).
  - destruct (parse _ cached); [| discriminate]. now intros [= <-].
  - destruct (Llm.generate env _ _ _ _ _ _); [| discriminate].
    destruct (Llm.parseGeminiResponse _ _ _) as [[| q qs] |];
      try discriminate.
    destruct (stringify _ _); [| discriminate].
    destruct (Cache.set _ _ _ _ _); [| discriminate].
    now intros [= <-].
Qed.

Lemma cacheMisses_down (env : Llm.Env) (value : Llm.Value) :
  Llm.store env = Cache.mkState None false ->
  Llm.cacheMisses env value.
Proof.
  intros Hstore cached. cbv zeta. rewrite Hstore. cbn. now intros [= <-].
Qed.

(** C1, as stated, fails twice.  In the end-to-end scenario (a valid
    request for three questions, Redis down, a generator that throws)
    the body of the response has [success] false, not true; it is sent
    with status 200 and [fallback] true.  And a malformed output is not
    always answered with the fallback: when the generator gives the
    text [7], which is JSON but no list of questions, the route sends
    the number back as the only question, with [success] true and no
    [fallback]. *)
Lemma fallback_reports_failure :
  Llm.validate Decimal.coerce Scenario.requestThree
  = Joi.Valid Scenario.valueThree
  /\ Spec.generatorFailure (Spec.outcome Scenario.outage Scenario.valueThree)
  /\ (exists r,
        Llm.handler Scenario.outage Scenario.requestThree = Ok r
        /\ Llm.Res.status r = 200
        /\ Llm.Res.fallback r = Some true
        /\ Llm.Res.success r = Some false
        /\ Llm.Res.success r <> Some true)
  /\ Spec.outcome Scenario.garbled Scenario.valueThree
     = Spec.NotAnArray (JNum 7)
  /\ Spec.generatorFailure (Spec.outcome Scenario.garbled Scenario.valueThree)
  /\ exists r,
       Llm.handler Scenario.garbled Scenario.requestThree = Ok r
       /\ Llm.Res.success r = Some true
       /\ Llm.Res.questions r = Some (JArr [JNum 7])
       /\ Llm.Res.fallback r = None
       /\ Llm.Res.fallback r <> Some true.
Proof.
  split; [vm_compute; reflexivity |].
  split; [exact I |].
  split.
  { eexists. split; [vm_compute; reflexivity |].
    repeat split. discriminate. }
  split; [reflexivity |].
  split; [exact I |].
  eexists. split; [vm_compute; reflexivity |].
  repeat split. discriminate.
Qed.

(** C1, amended.  The handler never throws.  On a valid request that
    the cache does not answer, a generator that throws (a network
    error), whose text holds no JSON, or whose JSON is the empty list
    or a list with a [null] question or option among those that are
    kept, is answered with status 200 and a body with [success] false,
    the error [Question generation failed], [fallback] true and the
    fallback questions as data.  Every other output is taken as
    questions: a JSON value that is not a list is sent back as the only
    question, a list is sent back normalised, both with [success] true,
    [cached] false and no [fallback]. *)
Theorem generator_failure_gives_fallback (env : Llm.Env) (body : jsval) :
  (exists r, Llm.handler env body = Ok r)
  /\ forall value,
       Llm.validate (Llm.coerce env) body = Joi.Valid value ->
       Llm.cacheMisses env value ->
       (Spec.treatedAsFailure (Llm.questionCount value)
          (Spec.outcome env value) = true ->
        exists r,
          Llm.handler env body = Ok r
          /\ Llm.Res.status r = 200
          /\ Llm.Res.success r = Some false
          /\ Llm.Res.error r = Some "Question generation failed"
          /\ Llm.Res.fallback r = Some true
          /\ Llm.Res.questions r
             = Some (JArr (map Llm.Question.to_js
                             (Llm.getFallbackQuestions (Llm.toInteger env)
                                (Some (or_else
                                         (obj_get body "questionCount")
                                         (JNum 3)))))))
       /\ (Spec.treatedAsFailure (Llm.questionCount value)
             (Spec.outcome env value) = false ->
           Spec.serialises (Llm.json env) ->
           exists r questions,
             Llm.handler env body = Ok r
             /\ Llm.Res.status r = 200
             /\ Llm.Res.success r = Some true
             /\ Llm.Res.fallback r = None
             /\ Llm.Res.cached r = Some false
             /\ Llm.Res.questions r = Some (JArr questions)
             /\ questions <> []
             /\ (forall v, Spec.outcome env value = Spec.NotAnArray v ->
                   questions = [v])
             /\ (forall raw, Spec.outcome env value = Spec.Questions raw ->
                   exists valid,
                     Llm.normalizeQuestions raw (Llm.questionCount value)
                     = Ok valid
                     /\ questions = map Llm.Question.to_js valid)).
Proof.
  split; [apply handler_total |].
  intros value Hvalid Hmiss. split.
  - intros Hfail.
    destruct (validated_range _ _ _ Hvalid) as [_ [Hn _]].
    destruct (miss_failure env value Hn Hmiss Hfail) as [e He].
    exists (Llm.fallbackResponse (Llm.toInteger env) body).
    unfold Llm.handler. rewrite Hvalid, He. repeat split.
  - intros Hgood Hjson.
    destruct (validated_range _ _ _ Hvalid) as [_ [Hn _]].
    destruct (miss_success env value Hn Hmiss Hgood Hjson)
      as (r & questions & Hr & H).
    exists r, questions. split; [| exact H].
    unfold Llm.handler. now rewrite Hvalid, Hr.
Qed.

Lemma generator_failure_gives_fallback_witness :
  exists r,
    Llm.handler Scenario.outage Scenario.requestThree = Ok r
    /\ Llm.Res.success r = Some false
    /\ Llm.Res.fallback r = Some true.
Proof.
  destruct (generator_failure_gives_fallback Scenario.outage
              Scenario.requestThree) as [_ H].
  destruct (H Scenario.valueThree) as [Hfail _].
  - vm_compute. reflexivity.
  - now apply cacheMisses_down.
  - destruct Hfail as (r & Hr & _ & Hs & _ & Hf & _); [reflexivity |].
    exists r. repeat split; assumption.
Defined.

(** C4, as stated, fails: a valid request for five questions whose
    generation fails is answered with three questions. *)
Lemma fallback_has_three_questions :
  Llm.validate Decimal.coerce Scenario.requestFive
  = Joi.Valid Scenario.valueFive
  /\ Spec.generatorFailure (Spec.outcome Scenario.outage Scenario.valueFive)
  /\ exists r qs,
       Llm.handler Scenario.outage Scenario.requestFive = Ok r
       /\ Llm.Res.fallback r = Some true
       /\ Llm.Res.questions r = Some (JArr qs)
       /\ length qs = 3%nat
       /\ Z.of_nat (length qs) <> Llm.questionCount Scenario.valueFive.
Proof.
  split; [vm_compute; reflexivity |].
  split; [exact I |].
  eexists. eexists. split; [vm_compute; reflexivity |].
  repeat split. cbn. discriminate.
Qed.

(** C4, amended.  A fallback response to a valid request for [n]
    questions (1 to 10, 3 when the request gives no count; a number, or
    a text that Joi reads as that number) holds the first [min n 3] of
    the three fallback questions: [n] questions up to three, three
    beyond.  The route sends it whenever the generator fails on a
    request that the cache does not answer. *)
Theorem fallback_question_count (env : Llm.Env) (body : jsval)
    (value : Llm.Value) :
  Llm.readAlike env ->
  Llm.validate (Llm.coerce env) body = Joi.Valid value ->
  (forall r,
     Llm.handler env body = Ok r ->
     Llm.Res.fallback r = Some true ->
     exists qs,
       Llm.Res.questions r = Some (JArr qs)
       /\ qs = map Llm.Question.to_js
                 (take (Z.to_nat (Llm.questionCount value)) Llm.fallback)
       /\ Z.of_nat (length qs) = Z.min (Llm.questionCount value) 3)
  /\ (Llm.cacheMisses env value ->
      Spec.treatedAsFailure (Llm.questionCount value)
        (Spec.outcome env value) = true ->
      exists r,
        Llm.handler env body = Ok r /\ Llm.Res.fallback r = Some true).
Proof.
  intros Hread Hvalid.
  pose proof (validated_questionCount env body value Hread Hvalid) as Hcount.
  destruct (validated_range _ _ _ Hvalid) as [_ Hrange].
  split.
  - intros r Hr Hflag. unfold Llm.handler in Hr. rewrite Hvalid in Hr.
    destruct (Llm.generateQuestions env value) as [r' | e] eqn:Hg;
      cbn [try_catch] in Hr; injection Hr as <-.
    + apply generateQuestions_not_fallback in Hg. congruence.
    + eexists. split; [reflexivity |].
      rewrite getFallbackQuestions_take by (rewrite Hcount; lia).
      rewrite Hcount. split; [reflexivity |].
      rewrite length_map, length_take.
      change (length Llm.fallback) with 3%nat. lia.
  - intros Hmiss Hfail.
    destruct (miss_failure env value ltac:(lia) Hmiss Hfail) as [e He].
    eexists. unfold Llm.handler. rewrite Hvalid, He. split; reflexivity.
Qed.

Lemma fallback_question_count_witness :
  exists r qs,
    Llm.handler Scenario.outage Scenario.requestTwoAsText = Ok r
    /\ Llm.Res.fallback r = Some true
    /\ Llm.Res.questions r = Some (JArr qs)
    /\ Z.of_nat (length qs) = 2.
Proof.
  destruct (fallback_question_count Scenario.outage
              Scenario.requestTwoAsText Scenario.valueTwo) as [Hcount Hsent].
  - now apply readAlike_decimal.
  - vm_compute. reflexivity.
  - destruct Hsent as (r & Hr & Hf); [now apply cacheMisses_down | reflexivity |].
    destruct (Hcount r Hr Hf) as (qs & Hq & _ & Hl).
    exists r, qs. repeat split; assumption.
Defined.

End Fallback.

(* ===================================================================== *)
(** ** The handler beyond the fallback *)
(* ===================================================================== *)

Section HandlerPaths.

(** Every response of the [try] block is sent with status 200. *)
Lemma generateQuestions_status (env : Llm.Env) (value : Llm.Value)
    (r : Llm.Res.t) :
  Llm.generateQuestions env value = Ok r -> Llm.Res.status r = 200.
Proof.
  unfold Llm.generateQuestions, bind.
  destruct (Cache.get _ _ _) as [cached |]; [| discriminate].
  destruct (truthy cached).
  - destruct (parse _ cached); [| discriminate]. now intros [= <-].
  - destruct (Llm.generate env _ _ _ _ _ _); [| discriminate].
    destruct (Llm.parseGeminiResponse _ _ _) as [[| q qs] |];
      try discriminate.
    destruct (stringify _ _); [| discriminate].
    destruct (Cache.set _ _ _ _ _); [| discriminate].
    now intros [= <-].
Qed.

(** X1.  The route never throws and answers with status 200 or 400.
    It answers 400 exactly on the requests that the validation
    rejects, with the validation error, whatever the cache and the
    generator do; for a body that is an object, these are the bodies
    with a field that breaks its constraint or with a key that the
    schema does not declare. *)
Theorem handler_status (env : Llm.Env) (body : jsval) :
  exists r,
    Llm.handler env body = Ok r
    /\ (Llm.Res.status r = 200 \/ Llm.Res.status r = 400)
    /\ (forall details,
          Llm.validate (Llm.coerce env) body = Joi.Invalid details ->
          r = Llm.validationError details /\ Llm.Res.status r = 400)
    /\ (Llm.Res.status r = 400 ->
        exists details,
          Llm.validate (Llm.coerce env) body = Joi.Invalid details)
    /\ (forall fields, body = JObj fields ->
          (Llm.Res.status r = 200
           <-> Forall (fun c => snd c)
                 (Spec.constraints (Llm.coerce env) body)
               /\ Forall (fun k => In k Llm.schemaKeys) (map fst fields))).
Proof.
  unfold Llm.handler.
  destruct (Llm.validate (Llm.coerce env) body) as [value | details] eqn:Hv.
  - assert (Hr : exists r,
              try_catch (Llm.generateQuestions env value)
                (fun _ => Ok (Llm.fallbackResponse (Llm.toInteger env) body))
              = Ok r
              /\ Llm.Res.status r = 200).
    { unfold try_catch.
      destruct (Llm.generateQuestions env value) as [r |] eqn:Hr.
      - exists r. split; [reflexivity |].
        now apply generateQuestions_status with env value.
      - eexists. split; reflexivity. }
    destruct Hr as (r & -> & Hstatus). exists r.
    split; [reflexivity |]. split; [now left |].
    split; [discriminate |]. split; [lia |].
    intros fields ->. split; [| intros _; exact Hstatus].
    intros _. apply validate_accepts. now exists value.
  - eexists. split; [reflexivity |]. split; [now right |].
    split; [intros ? [= <-]; split; reflexivity |].
    split; [intros _; now exists details |].
    intros fields ->. split; [discriminate |].
    intros Hok. apply validate_accepts in Hok as [value Hvalue]. congruence.
Qed.

(** X2.  A body with a key that the schema does not declare is rejected,
    whatever its other keys hold. *)
Theorem undeclared_key_rejected (coerce : Joi.Coercion)
    (fields : list (string * jsval)) (k : string) :
  assoc_get fields k <> None ->
  ~ In k Llm.schemaKeys ->
  exists details, Llm.validate coerce (JObj fields) = Joi.Invalid details.
Proof.
  intros Hk Hnot.
  assert (Hin : In k (Llm.unknownKeys (JObj fields))).
  { unfold Llm.unknownKeys. apply list_elem_of_In, list_elem_of_filter.
    split.
    - apply Is_true_true, negb_true_iff.
      destruct (existsb (String.eqb k) Llm.schemaKeys) eqn:He; [| reflexivity].
      apply existsb_exists in He. destruct He as (k' & Hk' & Heq).
      apply String.eqb_eq in Heq. subst k'. contradiction.
    - apply list_elem_of_In. now apply assoc_get_in. }
  pose proof (validate_cases coerce (JObj fields)) as Hv.
  destruct (Llm.allViolations coerce (JObj fields)) as [| v vs] eqn:Hall.
  - exfalso. unfold Llm.allViolations in Hall.
    repeat match type of Hall with
    | _ ++ _ = [] => apply app_eq_nil in Hall; destruct Hall as [_ Hall]
    end.
    apply map_eq_nil in Hall. rewrite Hall in Hin. contradiction.
  - eauto.
Qed.

Lemma undeclared_key_rejected_witness :
  exists details,
    Llm.validate Decimal.coerce
      (JObj [("content", JStr Scenario.content120);
             ("tutorialTitle", JStr "AI Tutorial")])
    = Joi.Invalid details.
Proof.
  apply (undeclared_key_rejected Decimal.coerce
           [("content", JStr Scenario.content120);
            ("tutorialTitle", JStr "AI Tutorial")] "tutorialTitle").
  - discriminate.
  - simpl. intros H.
    repeat destruct H as [H | H]; try discriminate H. exact H.
Defined.

Lemma map_indexed_length {A B} (f : nat -> A -> result B) (l : list A) :
  forall i ys, map_indexed f i l = Ok ys -> length ys = length l.
Proof.
  induction l as [| x l IH]; intros i ys; simpl.
  - now intros [= <-].
  - destruct (f i x); [| discriminate].
    destruct (map_indexed f (S i) l) as [zs |] eqn:Hz; [| discriminate].
    intros [= <-]. simpl. f_equal. now apply IH with (S i).
Qed.

Lemma slice0_length_bound {A} (n : Z) (l : list A) :
  1 <= n -> l <> [] ->
  (1 <= length (slice0 n l))%nat /\ Z.of_nat (length (slice0 n l)) <= n.
Proof.
  intros Hn Hl. unfold slice0.
  destruct (Z.ltb_spec n 0); [lia |].
  rewrite length_take. destruct l; [congruence |]. simpl length. lia.
Qed.

Lemma parse_bounds (extract : string -> result jsval) (text : string)
    (expectedCount : Z) (questions : list jsval) :
  1 <= expectedCount ->
  Llm.parseGeminiResponse extract text expectedCount = Some questions ->
  (1 <= length questions)%nat
  /\ Z.of_nat (length questions) <= expectedCount.
Proof.
  intros Hn. unfold Llm.parseGeminiResponse, bind.
  destruct (extract text) as [v |]; [| discriminate].
  destruct v as [| b | n | s | items | fields];
    try (intros [= <-]; apply slice0_length_bound; [assumption | discriminate]).
  destruct items as [| q0 rest]; [discriminate |].
  simpl Nat.eqb. cbv iota. unfold Llm.normalizeQuestions.
  destruct (map_indexed _ _ _) as [valid |] eqn:Hvalid; [| discriminate].
  intros [= <-]. rewrite length_map.
  rewrite (map_indexed_length _ _ _ _ Hvalid).
  apply slice0_length_bound; [assumption | discriminate].
Qed.

(** X3.  What [parseGeminiResponse] returns for a positive count is [null]
    or a list of at least one and at most [expectedCount] questions. *)
Theorem parseGeminiResponse_bounds (extract : string -> result jsval)
    (text : string) (expectedCount : Z) (questions : list jsval) :
  1 <= expectedCount ->
  Llm.parseGeminiResponse extract text expectedCount = Some questions ->
  (1 <= length questions)%nat
  /\ Z.of_nat (length questions) <= expectedCount.
Proof. apply parse_bounds. Qed.

Lemma parseGeminiResponse_bounds_witness :
  (1 <= length
          (default []
             (Llm.parseGeminiResponse
                (fun _ => Ok (JArr [Scenario.rawAnswerE; Scenario.rawAnswerE;
                                    Scenario.rawAnswerE])) "" 2)))%nat
  /\ Z.of_nat
       (length
          (default []
             (Llm.parseGeminiResponse
                (fun _ => Ok (JArr [Scenario.rawAnswerE; Scenario.rawAnswerE;
                                    Scenario.rawAnswerE])) "" 2))) <= 2.
Proof.
  apply (parseGeminiResponse_bounds
           (fun _ => Ok (JArr [Scenario.rawAnswerE; Scenario.rawAnswerE;
                               Scenario.rawAnswerE])) "" 2).
  - lia.
  - vm_compute. reflexivity.
Defined.

(** X4.  A response marked as freshly generated ([cached] false) answers a
    valid request, reports success, and carries at least one and at
    most the validated count of questions; its metadata counts them. *)
Theorem fresh_response_shape (env : Llm.Env) (body : jsval) (r : Llm.Res.t) :
  Llm.handler env body = Ok r ->
  Llm.Res.cached r = Some false ->
  exists value questions,
    Llm.validate (Llm.coerce env) body = Joi.Valid value
    /\ Llm.Res.status r = 200
    /\ Llm.Res.success r = Some true
    /\ Llm.Res.fallback r = None
    /\ Llm.Res.questions r = Some (JArr questions)
    /\ (1 <= length questions)%nat
    /\ Z.of_nat (length questions) <= Llm.questionCount value
    /\ Llm.Res.difficulty r
       = Some (Llm.adjustedDifficulty (Llm.difficulty value)
                 (Llm.previousScore value) (Llm.attemptNumber value))
    /\ exists m, Llm.Res.metadata r = Some m
         /\ Llm.Res.questionCount m = length questions.
Proof.
  unfold Llm.handler, try_catch.
  destruct (Llm.validate (Llm.coerce env) body) as [value | details]
    eqn:Hvalid.
  2:{ intros [= <-]. discriminate. }
  destruct (validated_range _ _ _ Hvalid) as [_ Hrange].
  destruct (Llm.generateQuestions env value) as [r' |] eqn:Hgen.
  2:{ intros [= <-]. discriminate. }
  intros [= ->] Hcached. exists value.
  unfold Llm.generateQuestions, bind in Hgen.
  destruct (Cache.get _ _ _) as [c |]; [| discriminate].
  destruct (truthy c).
  { destruct (parse _ c); [| discriminate].
    injection Hgen as <-. discriminate. }
  destruct (Llm.generate env _ _ _ _ _ _); [| discriminate].
  destruct (Llm.parseGeminiResponse _ _ _) as [[| q qs] |] eqn:Hparse;
    try discriminate.
  destruct (stringify _ _); [| discriminate].
  destruct (Cache.set _ _ _ _ _); [| discriminate].
  injection Hgen as <-. exists (q :: qs).
  destruct (parse_bounds _ _ _ _ (proj1 Hrange) Hparse)
    as [Hlo Hhi].
  repeat split; try assumption. eexists. split; reflexivity.
Qed.

(** X5.  A healthy generator is enough: on a valid request that the cache
    does not answer, a generated text that parses into questions is
    sent back as a fresh response, whether or not the write to Redis
    succeeds. *)
Theorem generation_survives_cache_failure (env : Llm.Env) (body : jsval)
    (value : Llm.Value) (text serialized : string) (q : jsval)
    (qs : list jsval) :
  Llm.validate (Llm.coerce env) body = Joi.Valid value ->
  Llm.cacheMisses env value ->
  Llm.generate env (Llm.content value) (Llm.questionCount value)
    (Llm.adjustedDifficulty (Llm.difficulty value) (Llm.previousScore value)
       (Llm.attemptNumber value))
    (Llm.language value) (Llm.questionType value) (Llm.attemptNumber value)
  = Ok text ->
  Llm.parseGeminiResponse (Llm.extract env) text (Llm.questionCount value)
  = Some (q :: qs) ->
  stringify (Llm.json env) (JArr (q :: qs)) = Ok serialized ->
  exists r,
    Llm.handler env body = Ok r
    /\ Llm.Res.success r = Some true
    /\ Llm.Res.cached r = Some false
    /\ Llm.Res.fallback r = None
    /\ Llm.Res.questions r = Some (JArr (q :: qs)).
Proof.
  intros Hvalid Hmiss Hgen Hparse Hs.
  unfold Llm.handler. rewrite Hvalid.
  unfold Llm.generateQuestions, Llm.cacheMisses in *. cbv zeta in *.
  destruct (get_total (Llm.json env) (Llm.store env)
              (Llm.cacheKey (Llm.content value)
                 (Llm.adjustedDifficulty (Llm.difficulty value)
                    (Llm.previousScore value) (Llm.attemptNumber value))
                 (Llm.questionCount value) (Llm.attemptNumber value)
                 (Llm.userId value))) as [cached Hget].
  rewrite Hget. cbn [bind]. rewrite (Hmiss cached Hget).
  rewrite Hgen. cbn [bind]. rewrite Hparse, Hs. cbn [bind].
  destruct (set_total (Llm.json env) (Llm.store env)
              (Llm.cacheKey (Llm.content value)
                 (Llm.adjustedDifficulty (Llm.difficulty value)
                    (Llm.previousScore value) (Llm.attemptNumber value))
                 (Llm.questionCount value) (Llm.attemptNumber value)
                 (Llm.userId value)) (JStr serialized) (Some 3600))
    as [b Hset].
  rewrite Hset. cbn. eexists. repeat split.
Qed.

End HandlerPaths.

Section HandlerPathsWitnesses.

Lemma fresh_response_shape_witness :
  exists r questions,
    Llm.handler Fixture.healthyGenerator Scenario.requestThree = Ok r
    /\ Llm.Res.questions r = Some (JArr questions)
    /\ (1 <= length questions)%nat
    /\ Z.of_nat (length questions) <= 3.
Proof.
  pose (r := match Llm.handler Fixture.healthyGenerator Scenario.requestThree
             with
             | Ok r => r
             | Throw _ => Llm.fallbackResponse Decimal.toInteger JNull
             end).
  destruct (fresh_response_shape Fixture.healthyGenerator
              Scenario.requestThree r)
    as (value & questions & Hv & _ & _ & _ & Hq & Hlo & Hhi & _).
  - vm_compute. reflexivity.
  - vm_compute. reflexivity.
  - exists r, questions. split; [vm_compute; reflexivity |].
    split; [exact Hq |]. split; [exact Hlo |].
    assert (value = Scenario.valueThree) as ->.
    { assert (Hv' : Llm.validate (Llm.coerce Fixture.healthyGenerator)
                      Scenario.requestThree
                    = Joi.Valid Scenario.valueThree)
        by (vm_compute; reflexivity).
      rewrite Hv' in Hv. now injection Hv. }
    exact Hhi.
Defined.

Lemma generation_survives_cache_failure_witness :
  exists r,
    Llm.handler Fixture.healthyGenerator Scenario.requestThree = Ok r
    /\ Llm.Res.success r = Some true
    /\ Llm.Res.cached r = Some false.
Proof.
  destruct (generation_survives_cache_failure Fixture.healthyGenerator
              Scenario.requestThree Scenario.valueThree "[{...}]" "[]"
              (Llm.Question.to_js
                 (Llm.Question.mk 1 (JStr "Which hook keeps state?")
                    [Llm.Opt.mk (JStr "A") (JStr "useState");
                     Llm.Opt.mk (JStr "B") (JStr "useEffect");
                     Llm.Opt.mk (JStr "C") (JStr "Opsi C");
                     Llm.Opt.mk (JStr "D") (JStr "Opsi D")]
                    (JStr "E") (JStr "Penjelasan belum tersedia."))) [])
    as (r & Hr & Hs & Hc & _).
  - vm_compute. reflexivity.
  - intros cached. cbn. now intros [= <-].
  - reflexivity.
  - vm_compute. reflexivity.
  - reflexivity.
  - exists r. repeat split; assumption.
Defined.

End HandlerPathsWitnesses.

(* ===================================================================== *)
(** ** The cache over a key-value store *)
(* ===================================================================== *)

Section CacheStore.

Lemma get_mem (json : Json) (m : gmap string string) (key : string) :
  Cache.get json (MemRedis.state m) key
  = match m !! key with
    | Some s =>
        if String.eqb s "" then Ok JNull
        else match parse json (JStr s) with
             | Ok v => Ok v
             | Throw _ => Ok JNull
             end
    | None => Ok JNull
    end.
Proof.
  unfold Cache.get, Cache.isAvailable, Cache.with_client, try_catch, bind.
  simpl. destruct (m !! key) as [s |]; [| reflexivity].
  destruct (String.eqb s ""); simpl; [reflexivity |].
  destruct (parse json (JStr s)); reflexivity.
Qed.

Lemma eqb_nonempty (s : string) : s <> "" -> String.eqb s "" = false.
Proof. intros H. now apply String.eqb_neq. Qed.

(** X7.  The keys of the four routes live in four disjoint families, and
    within a family different identifiers give different keys. *)
Theorem cache_key_families (tutorialId filters id : string)
    (content d : string) (n a : Z) (u : option string) :
  (MemRedis.generateTutorialCacheKey tutorialId
   = MemRedis.tutorialsCacheKey filters -> False)
  /\ (MemRedis.generateTutorialCacheKey tutorialId
      = MemRedis.userPreferencesCacheKey id -> False)
  /\ (MemRedis.generateTutorialCacheKey tutorialId
      = Llm.cacheKey content d n a u -> False)
  /\ (MemRedis.tutorialsCacheKey filters
      = MemRedis.userPreferencesCacheKey id -> False)
  /\ (MemRedis.tutorialsCacheKey filters
      = Llm.cacheKey content d n a u -> False)
  /\ (MemRedis.userPreferencesCacheKey id
      = Llm.cacheKey content d n a u -> False)
  /\ (forall other, MemRedis.generateTutorialCacheKey tutorialId
        = MemRedis.generateTutorialCacheKey other -> tutorialId = other)
  /\ (forall other, MemRedis.userPreferencesCacheKey id
        = MemRedis.userPreferencesCacheKey other -> id = other).
Proof.
  unfold MemRedis.generateTutorialCacheKey, MemRedis.tutorialsCacheKey,
    MemRedis.userPreferencesCacheKey, Llm.cacheKey.
  repeat split; try (simpl; discriminate).
  - intros other H. now apply (inj (String.app _)) in H.
  - intros other H. now apply (inj (String.app _)) in H.
Qed.

End CacheStore.

Section CachedQuestions.

(** X8.  A request whose key Redis holds is answered from the cache,
    without the generator.  The entry is read twice: [cache.get] parses
    the stored text into a string, which the route parses into the
    questions.  When the second text parses, the route answers with
    these questions, [cached] true and the adjusted difficulty, and the
    answer is the same whatever the generator would do; when it does
    not parse, the route answers with the fallback questions instead
    of generating. *)
Theorem cached_entry_served (json : Json) (m : gmap string string)
    (coerce : Joi.Coercion) (toInteger : string -> Z) (body : jsval)
    (value : Llm.Value) (outer inner : string) :
  Llm.validate coerce body = Joi.Valid value ->
  m !! MemRedis.keyOf value = Some outer ->
  outer <> "" ->
  parse json (JStr outer) = Ok (JStr inner) ->
  inner <> "" ->
  (forall questions,
     parse json (JStr inner) = Ok questions ->
     exists r,
       (forall generate extract,
          Llm.handler (MemRedis.env json m generate extract coerce toInteger)
            body = Ok r)
       /\ Llm.Res.status r = 200
       /\ Llm.Res.success r = Some true
       /\ Llm.Res.cached r = Some true
       /\ Llm.Res.fallback r = None
       /\ Llm.Res.questions r = Some questions
       /\ Llm.Res.difficulty r
          = Some (Llm.adjustedDifficulty (Llm.difficulty value)
                    (Llm.previousScore value) (Llm.attemptNumber value))
       /\ Llm.Res.attemptNumber r = Some (Llm.attemptNumber value))
  /\ (forall e generate extract,
        parse json (JStr inner) = Throw e ->
        Llm.handler (MemRedis.env json m generate extract coerce toInteger)
          body
        = Ok (Llm.fallbackResponse toInteger body)).
Proof.
  intros Hvalid Hm Houter Hp1 Hinner.
  assert (Hget : Cache.get json (MemRedis.state m) (MemRedis.keyOf value)
                 = Ok (JStr inner)).
  { now rewrite get_mem, Hm, (eqb_nonempty outer), Hp1 by assumption. }
  split.
  - intros questions Hp2. eexists. split.
    + intros generate extract. unfold Llm.handler.
      cbn [MemRedis.env Llm.coerce Llm.toInteger]. rewrite Hvalid.
      unfold Llm.generateQuestions. cbv zeta.
      cbn [MemRedis.env Llm.json Llm.store]. fold (MemRedis.keyOf value).
      rewrite Hget. cbn [bind truthy].
      rewrite (eqb_nonempty inner) by assumption. cbn [negb].
      rewrite Hp2. cbn [bind try_catch]. reflexivity.
    + repeat split.
  - intros e generate extract Hp2. unfold Llm.handler.
    cbn [MemRedis.env Llm.coerce Llm.toInteger]. rewrite Hvalid.
    unfold Llm.generateQuestions. cbv zeta.
    cbn [MemRedis.env Llm.json Llm.store]. fold (MemRedis.keyOf value).
    rewrite Hget. cbn [bind truthy].
    rewrite (eqb_nonempty inner) by assumption. cbn [negb].
    rewrite Hp2. reflexivity.
Qed.

Lemma cached_entry_served_witness :
  exists r,
    Llm.handler
      (MemRedis.env JsonFixture.tableJson
         {[MemRedis.keyOf Scenario.valueThree := "S"]}
         JsonFixture.failingGenerator JsonFixture.oneQuestionExtract
         Decimal.coerce Decimal.toInteger)
      Scenario.requestThree = Ok r
    /\ Llm.Res.cached r = Some true
    /\ Llm.Res.questions r = Some JsonFixture.oneQuestion.
Proof.
  destruct (cached_entry_served JsonFixture.tableJson
              {[MemRedis.keyOf Scenario.valueThree := "S"]}
              Decimal.coerce Decimal.toInteger Scenario.requestThree
              Scenario.valueThree "S" "Q") as [Hserved _].
  - vm_compute. reflexivity.
  - apply lookup_singleton_eq.
  - discriminate.
  - reflexivity.
  - discriminate.
  - destruct (Hserved JsonFixture.oneQuestion eq_refl)
      as (r & Hr & _ & _ & Hc & _ & Hq & _).
    exists r. split; [apply Hr |]. split; assumption.
Defined.

End CachedQuestions.

(* ===================================================================== *)
(** ** Cleaning of tutorial text *)
(* ===================================================================== *)

Section CleanText.

Example replaceTags_nested :
  Text.replaceTags " " false "<p>Hi <b>there</b></p>" = " Hi  there  ".
Proof. reflexivity. Qed.

Example replaceTags_unclosed :
  Text.replaceTags " " false "if a < b then" = "if a < b then".
Proof. reflexivity. Qed.

Example cleanContent_example :
  Prompt.cleanContent "<h1>AI</h1>
<p>Machine   learning</p>" = " AI Machine learning ".
Proof. reflexivity. Qed.

Example extractText_example :
  Dicoding.extractTextFromHTML
    (Some (JStr "<p>Tom &amp; Jerry&nbsp;&nbsp;run </p>"))
  = "Tom & Jerry run".
Proof. reflexivity. Qed.













End CleanText.

Section ExtractText.







Lemma trimStart_blank (s : string) :
  Text.blank s = true -> Text.trimStart s = "".
Proof.
  induction s as [| c s IH]; simpl; [reflexivity |].
  intros H. apply andb_true_iff in H. destruct H as [-> Hs]. now apply IH.
Qed.

Lemma hasText_not_blank (o : option jsval) :
  Dicoding.hasText o = true ->
  exists s, o = Some (JStr s) /\ Text.blank s = false.
Proof.
  destruct o as [[| | | s | |] |]; try discriminate. simpl.
  intros H. apply andb_true_iff in H. destruct H as [_ Hlen].
  exists s. split; [reflexivity |].
  destruct (Text.blank s) eqn:Hb; [| reflexivity].
  unfold Text.trim in Hlen. rewrite (trimStart_blank s Hb) in Hlen.
  discriminate.
Qed.

Lemma validated_tutorial (tutorial : option jsval) :
  Dicoding.validateTutorialContent tutorial = true ->
  exists t id title content,
    tutorial = Some t
    /\ obj_get t "id" = Some (JStr id)
    /\ obj_get t "title" = Some (JStr title)
    /\ obj_get t "content" = Some (JStr content)
    /\ Text.blank id = false
    /\ Text.blank title = false
    /\ Text.blank content = false
    /\ (100 <= string_length content)%nat
    /\ (Llm.check_content (JObj [("content", JStr content)]) = inr content
        <-> Z.of_nat (string_length content) <= 50000).
Proof.
  unfold Dicoding.validateTutorialContent.
  destruct tutorial as [t |]; [| discriminate].
  destruct (negb (truthy t) || negb (typeof_object t)); [discriminate |].
  cbv zeta. simpl forallb. intros H.
  apply andb_true_iff in H. destruct H as [Hreq Hmin].
  apply andb_true_iff in Hreq. destruct Hreq as [Hid Hreq].
  apply andb_true_iff in Hreq. destruct Hreq as [Htitle Hreq].
  apply andb_true_iff in Hreq. destruct Hreq as [Hcontent _].
  destruct (hasText_not_blank _ Hid) as (id & Eid & Bid).
  destruct (hasText_not_blank _ Htitle) as (title & Etitle & Btitle).
  destruct (hasText_not_blank _ Hcontent) as (content & Econtent & Bcontent).
  rewrite Econtent in Hmin. cbn [truthy Dicoding.lengthAtLeast100] in Hmin.
  apply andb_true_iff in Hmin. destruct Hmin as [Hne Hlen].
  apply Nat.leb_le in Hlen. apply negb_true_iff in Hne.
  exists t, id, title, content. repeat split; try assumption.
  - unfold Llm.check_content. simpl. rewrite Hne.
    destruct (Z.ltb_spec (Z.of_nat (string_length content)) 100); [lia |].
    destruct (Z.ltb_spec 50000 (Z.of_nat (string_length content)));
      [discriminate | lia].
  - intros Hmax. unfold Llm.check_content. simpl. rewrite Hne.
    destruct (Z.ltb_spec (Z.of_nat (string_length content)) 100); [lia |].
    destruct (Z.ltb_spec 50000 (Z.of_nat (string_length content)));
      [lia | reflexivity].
Qed.

(** X11.  A tutorial that [validateTutorialContent] accepts has an
    identifier, a title and a content that are strings with more than
    white space, and a content of 100 characters or more: the question
    route accepts that content unless it is longer than 50000
    characters, a bound the tutorial check does not have.  Nothing is
    accepted that is missing, [null] or not an object. *)
Theorem validateTutorialContent_sound (tutorial : option jsval) :
  Dicoding.validateTutorialContent tutorial = true ->
  exists t id title content,
    tutorial = Some t
    /\ obj_get t "id" = Some (JStr id)
    /\ obj_get t "title" = Some (JStr title)
    /\ obj_get t "content" = Some (JStr content)
    /\ Text.blank id = false
    /\ Text.blank title = false
    /\ Text.blank content = false
    /\ (100 <= string_length content)%nat
    /\ (Llm.check_content (JObj [("content", JStr content)]) = inr content
        <-> Z.of_nat (string_length content) <= 50000).
Proof. apply validated_tutorial. Qed.

End ExtractText.

(* ===================================================================== *)
(** ** Tutorials and preferences across the services *)
(* ===================================================================== *)

Section Services.

Lemma validateTutorialContent_sound_witness :
  exists content,
    obj_get RouteFixture.tutorial "content" = Some (JStr content)
    /\ (100 <= string_length content)%nat.
Proof.
  destruct (validateTutorialContent_sound (Some RouteFixture.tutorial))
    as (t & id & title & content & Ht & _ & _ & Hc & _ & _ & _ & Hlen & _).
  - vm_compute. reflexivity.
  - injection Ht as <-. exists content. split; assumption.
Defined.

Lemma prefix_refl (p : string) : String.prefix p p = true.
Proof.
  induction p as [| c p IH]; simpl; [reflexivity |].
  destruct (ascii_dec c c); [assumption | congruence].
Qed.

Lemma includes_unfold (p s : string) :
  Text.includes p s
  = String.prefix p s
    || match s with
       | EmptyString => false
       | String _ rest => Text.includes p rest
       end.
Proof. destruct s; reflexivity. Qed.

Lemma includes_self (p : string) : Text.includes p p = true.
Proof. rewrite includes_unfold. now rewrite prefix_refl. Qed.

(** A text that ends with the pattern includes it. *)
Lemma includes_suffix (p a : string) : Text.includes p (a +:+ p) = true.
Proof.
  induction a as [| c a IH].
  - apply includes_self.
  - change (String c a +:+ p) with (String c (a +:+ p)).
    rewrite includes_unfold, IH. apply orb_true_r.
Qed.

Lemma append_assoc (s t u : string) : (s +:+ t) +:+ u = s +:+ (t +:+ u).
Proof.
  induction s as [| c s IH]; [reflexivity |].
  change (String c ((s +:+ t) +:+ u) = String c (s +:+ (t +:+ u))).
  now rewrite IH.
Qed.

Lemma includes_not_found (id : string) :
  Text.includes "not found" ("Tutorial with ID " +:+ id +:+ " not found")
  = true.
Proof.
  assert (H : "Tutorial with ID " +:+ id +:+ " not found"
              = ("Tutorial with ID " +:+ id +:+ " ") +:+ "not found").
  { now rewrite !append_assoc. }
  rewrite H. apply includes_suffix.
Qed.

(** The words the service puts before the message of a failure do not
    bring the pattern. *)
Lemma includes_failed_prefix (m : string) :
  Text.includes "not found" ("Failed to fetch tutorial: " +:+ m)
  = Text.includes "not found" m.
Proof. reflexivity. Qed.

(** X12.  How the tutorial route reports a failure of the Dicoding API, on a
    request that the cache does not answer: 404 when the API answered
    404, and also when the message of any other failure contains the
    words [not found]; 500 otherwise.  The route recognises the 404 of
    the service by the text of its message. *)
Theorem tutorial_route_failure_status (env : Routes.Env) (id : string)
    (error : Dicoding.AxiosError) :
  (forall cached,
     Cache.get (Routes.json env) (Routes.store env)
       (MemRedis.generateTutorialCacheKey id) = Ok cached ->
     truthy cached = false) ->
  Routes.get env ("/api/tutorials/" +:+ id) = inl error ->
  exists r,
    Routes.getTutorial env id = Ok r
    /\ Http.status r
       = (if Dicoding.is404 error
             || Text.includes "not found" (Dicoding.ax_message error)
          then 404 else 500)
    /\ (Dicoding.is404 error = true ->
        obj_get (Http.body r) "message"
        = Some (JStr ("Tutorial with ID " +:+ id +:+ " not found"))).
Proof.
  intros Hmiss Herr. unfold Routes.getTutorial. cbv zeta.
  destruct (get_total (Routes.json env) (Routes.store env)
              (MemRedis.generateTutorialCacheKey id)) as [cached Hget].
  rewrite Hget. cbn [bind]. rewrite (Hmiss cached Hget).
  unfold Dicoding.getTutorialById. rewrite Herr.
  destruct (Dicoding.is404 error); cbn [bind try_catch message orb].
  - rewrite includes_not_found.
    eexists. split; [reflexivity |]. split; reflexivity.
  - rewrite includes_failed_prefix.
    destruct (Text.includes "not found" (Dicoding.ax_message error));
      eexists; (split; [reflexivity |]); (split; [reflexivity |]);
      discriminate.
Qed.

Lemma tutorial_route_failure_status_witness :
  exists r,
    Routes.getTutorial RouteFixture.notFound "99" = Ok r
    /\ Http.status r = 404.
Proof.
  destruct (tutorial_route_failure_status RouteFixture.notFound "99"
              (Dicoding.mkAxiosError "Request failed with status code 404"
                 (Some 404))) as (r & Hr & Hs & _).
  - intros cached. cbn. now intros [= <-].
  - reflexivity.
  - exists r. split; [exact Hr | exact Hs].
Defined.

(** X13.  A tutorial that the route serves fresh (not from the cache) went
    through [validateTutorialContent]: its data has a content of 100
    characters or more. *)
Theorem fresh_tutorial_has_content (env : Routes.Env) (id : string)
    (r : Http.Response) :
  Routes.getTutorial env id = Ok r ->
  Http.status r = 200 ->
  obj_get (Http.body r) "source" <> Some (JStr "cache") ->
  exists data content,
    obj_get (Http.body r) "data" = Some data
    /\ obj_get data "content" = Some (JStr content)
    /\ (100 <= string_length content)%nat.
Proof.
  unfold Routes.getTutorial, try_catch. cbv zeta.
  destruct (get_total (Routes.json env) (Routes.store env)
              (MemRedis.generateTutorialCacheKey id)) as [cached Hget].
  rewrite Hget. cbn [bind].
  destruct (truthy cached).
  { intros [= <-] _ Hsrc. exfalso. apply Hsrc. cbn [Http.body obj_get].
    destruct (obj_get cached "data"); reflexivity. }
  destruct (Dicoding.getTutorialById (Routes.get env) id) as [result | e];
    cbn [bind].
  2:{ destruct (Text.includes "not found" (message e));
        intros [= <-]; discriminate. }
  destruct (Dicoding.validateTutorialContent (obj_get result "data"))
    eqn:Hvalid; cbn [negb].
  2:{ intros [= <-]; discriminate. }
  destruct (validated_tutorial _ Hvalid)
    as (t & _ & _ & content & Ht & _ & _ & Hc & _ & _ & _ & Hlen & _).
  destruct (set_total (Routes.json env) (Routes.store env)
              (MemRedis.generateTutorialCacheKey id) result (Some 900))
    as [b ->]. cbn [bind].
  intros [= <-] _ _. rewrite Ht. exists t, content.
  split; [reflexivity |]. split; assumption.
Qed.

End Services.

Section Preferences.

Lemma fresh_tutorial_has_content_witness :
  exists r content,
    Routes.getTutorial RouteFixture.serving "1" = Ok r
    /\ obj_get RouteFixture.tutorial "content" = Some (JStr content)
    /\ (100 <= string_length content)%nat.
Proof.
  pose (r := match Routes.getTutorial RouteFixture.serving "1" with
             | Ok r => r
             | Throw _ => Http.mkResponse 0 JNull
             end).
  destruct (fresh_tutorial_has_content RouteFixture.serving "1" r)
    as (data & content & Hd & Hc & Hlen).
  - vm_compute. reflexivity.
  - reflexivity.
  - vm_compute. discriminate.
  - exists r, content. split; [vm_compute; reflexivity |].
    assert (data = RouteFixture.tutorial) as <-.
    { vm_compute in Hd. now injection Hd. }
    split; assumption.
Defined.

(** X14.  The preferences of a user do not reach the widget.  On a request
    that the cache does not answer, the user route passes on what the
    mock API sends, with the preferences under [data.preferences]; the
    client reads [data.preference], finds nothing and returns the empty
    object.  When the Dicoding API fails instead, the route answers 500
    and the client returns its default preferences. *)
Theorem preferences_across_services (env : Routes.Env) (id : string) :
  (forall cached,
     Cache.get (Routes.json env) (Routes.store env)
       (MemRedis.userPreferencesCacheKey id) = Ok cached ->
     truthy cached = false) ->
  (forall mock now,
     Routes.get env ("/api/users/" +:+ id +:+ "/preferences")
     = inr (MockApi.getPreferences mock id now) ->
     exists r data,
       Routes.getPreferences env id = Ok r
       /\ Http.status r = 200
       /\ obj_get (Http.body r) "data" = Some data
       /\ obj_get data "preferences" = MockApi.preferencesOf mock id
       /\ obj_get data "preference" = None
       /\ ApiClient.getUserPreferences (Ok (ApiClient.received r))
          = Ok (JObj []))
  /\ (forall error,
        Routes.get env ("/api/users/" +:+ id +:+ "/preferences")
        = inl error ->
        exists r,
          Routes.getPreferences env id = Ok r
          /\ Http.status r = 500
          /\ ApiClient.getUserPreferences (Ok (ApiClient.received r))
             = Ok ApiClient.defaultPreferences).
Proof.
  intros Hmiss.
  destruct (get_total (Routes.json env) (Routes.store env)
              (MemRedis.userPreferencesCacheKey id)) as [cached Hget].
  pose proof (Hmiss cached Hget) as Hfalsy.
  split.
  - intros mock now Hup. unfold Routes.getPreferences. cbv zeta.
    rewrite Hget. cbn [bind]. rewrite Hfalsy.
    unfold Dicoding.getUserPreferences. rewrite Hup.
    unfold MockApi.getPreferences at 1. cbn [get_prop obj_get assoc_get].
    change (String.eqb "data" "data") with true. cbv iota. cbn [bind].
    match goal with
    | |- context [Cache.set ?j ?s ?k ?v ?t] =>
        destruct (set_total j s k v t) as [b ->]
    end.
    cbn [bind try_catch]. eexists. eexists.
    split; [reflexivity |]. split; [reflexivity |].
    split; [reflexivity |].
    destruct (MockApi.preferencesOf mock id) as [p |];
      repeat split; reflexivity.
  - intros error Hup. unfold Routes.getPreferences. cbv zeta.
    rewrite Hget. cbn [bind]. rewrite Hfalsy.
    unfold Dicoding.getUserPreferences. rewrite Hup.
    cbn [bind try_catch]. eexists. repeat split.
Qed.

Lemma preferences_across_services_witness :
  exists r,
    Routes.getPreferences RouteFixture.mockBackend "student_123" = Ok r
    /\ ApiClient.getUserPreferences (Ok (ApiClient.received r))
       = Ok (JObj []).
Proof.
  destruct (preferences_across_services RouteFixture.mockBackend
              "student_123") as [H _].
  - intros cached. cbn. now intros [= <-].
  - destruct (H RouteFixture.mockTable "2025-10-12T10:00:00.000Z")
      as (r & data & Hr & _ & _ & _ & _ & Hc).
    + reflexivity.
    + exists r. split; assumption.
Defined.

Lemma assoc_get_app (a b : list (string * jsval)) (k : string) :
  assoc_get (a ++ b) k
  = match assoc_get a k with
    | Some v => Some v
    | None => assoc_get b k
    end.
Proof.
  induction a as [| [k' v] a IH]; simpl; [reflexivity |].
  destruct (String.eqb k' k); [reflexivity | exact IH].
Qed.

(** Lookup in a spread: the right operand wins. *)
Lemma assoc_get_spread (a b : list (string * jsval)) (k : string) :
  assoc_get (MockApi.spread a b) k
  = match assoc_get b k with
    | Some v => Some v
    | None => assoc_get a k
    end.
Proof.
  unfold MockApi.spread. rewrite assoc_get_app.
  assert (Hmap : assoc_get
                   (map (fun kv => (fst kv, match assoc_get b (fst kv) with
                                            | Some v => v
                                            | None => snd kv
                                            end)) a) k
                 = match assoc_get a k with
                   | Some v => Some (match assoc_get b k with
                                     | Some v' => v'
                                     | None => v
                                     end)
                   | None => None
                   end).
  { induction a as [| [k' v] a IH]; simpl; [reflexivity |].
    destruct (String.eqb_spec k' k) as [-> | _]; [reflexivity | exact IH]. }
  rewrite Hmap. destruct (assoc_get a k) as [v |] eqn:Ha.
  - destruct (assoc_get b k); reflexivity.
  - clear Hmap. induction b as [| [k' v] b IH]; simpl; [reflexivity |].
    destruct (String.eqb_spec k' k) as [-> | Hne].
    + rewrite Ha. simpl. now rewrite String.eqb_refl.
    + destruct (assoc_get a k'); simpl.
      * exact IH.
      * destruct (String.eqb_spec k' k); [congruence | exact IH].
Qed.

(** Lookup in the properties kept from the keys [keys]. *)
Lemma assoc_get_kept (f : string -> option jsval) (keys : list string)
    (k : string) :
  assoc_get (flat_map (fun key => Dicoding.prop key (f key)) keys) k
  = if existsb (String.eqb k) keys then f k else None.
Proof.
  induction keys as [| key keys IH]; simpl; [reflexivity |].
  rewrite assoc_get_app, IH.
  destruct (String.eqb_spec k key) as [-> | Hne]; simpl.
  - destruct (f key) as [v |]; simpl.
    + now rewrite String.eqb_refl.
    + destruct (existsb (String.eqb key) keys); reflexivity.
  - destruct (f key) as [v |]; simpl; [| reflexivity].
    destruct (String.eqb_spec key k); [congruence | reflexivity].
Qed.

(** X15.  The mock API after a PUT, for every user id but [__proto__].
    The table gets an entry for the user: an object in which each valid
    key that the body brings has the value of the body, and every other
    key has the value it has in what [table[userId] ||
    table.demo_user] answers.  That is the entry of the user; for a new
    user it is the entry of [demo_user]; and for a new user whose id
    names a method that the table inherits ([constructor], [toString],
    ...) it is that method, which has no property to copy, so that the
    values of [demo_user] are not taken over.  Keys outside [validKeys]
    are never stored.  What a GET returns next is the new entry, and
    the entries of the other users are as they were. *)
Theorem mock_put_then_get (mock : MockApi.Table) (userId now : string)
    (newPreferences : jsval) :
  userId <> "__proto__" ->
  exists table stored,
    MockApi.putPreferences mock userId newPreferences = Some table
    /\ table !! userId = Some stored
    /\ MockApi.getPreferences table userId now
       = JObj [("data", JObj [("userId", JStr userId);
                              ("preferences", JObj stored);
                              ("lastUpdated", JStr now)]);
               ("status", JStr "success")]
    /\ (forall k,
          assoc_get stored k
          = match (if existsb (String.eqb k) MockApi.validKeys
                   then obj_get newPreferences k else None) with
            | Some v => Some v
            | None =>
                assoc_get (MockApi.ownProperties (MockApi.selected mock userId))
                  k
            end)
    /\ (forall fields, mock !! userId = Some fields ->
          MockApi.ownProperties (MockApi.selected mock userId) = fields)
    /\ (mock !! userId = None ->
        MockApi.ownProperties (MockApi.selected mock userId)
        = if existsb (String.eqb userId) MockApi.inheritedMethods then []
          else match mock !! "demo_user" with
               | Some fields => fields
               | None => []
               end)
    /\ (forall k, In k (MockApi.updatedKeys newPreferences) ->
          In k MockApi.validKeys)
    /\ (forall other, other <> userId -> table !! other = mock !! other).
Proof.
  intros Hproto. unfold MockApi.putPreferences.
  destruct (String.eqb_spec userId "__proto__") as [-> | _]; [congruence |].
  set (stored := MockApi.spread
                   (MockApi.ownProperties (MockApi.selected mock userId))
                   (MockApi.filteredPreferences newPreferences)).
  assert (Hentry : (<[userId := stored]> mock : MockApi.Table) !! userId
                   = Some stored) by apply lookup_insert_eq.
  exists (<[userId := stored]> mock), stored. split; [reflexivity |].
  split; [exact Hentry |]. split.
  { unfold MockApi.getPreferences, MockApi.preferencesOf, MockApi.selected,
      MockApi.member.
    now rewrite Hentry. }
  split.
  { intros k. subst stored. rewrite assoc_get_spread.
    unfold MockApi.filteredPreferences. now rewrite assoc_get_kept. }
  split.
  { intros fields Hm. unfold MockApi.selected, MockApi.member.
    now rewrite Hm. }
  split.
  { intros Hm. unfold MockApi.selected, MockApi.member. rewrite Hm.
    destruct (String.eqb_spec userId "__proto__"); [congruence |].
    destruct (existsb (String.eqb userId) MockApi.inheritedMethods);
      [reflexivity |].
    destruct (mock !! "demo_user"); reflexivity. }
  split.
  { intros k Hin. unfold MockApi.updatedKeys, MockApi.filteredPreferences in Hin.
    apply in_map_iff in Hin. destruct Hin as ([k' v] & <- & Hin).
    apply in_flat_map in Hin. destruct Hin as (key & Hkey & Hin).
    unfold Dicoding.prop in Hin.
    destruct (obj_get newPreferences key); [| contradiction].
    destruct Hin as [[= <- _] | []]. exact Hkey. }
  intros other Hne. apply lookup_insert_ne. congruence.
Qed.

Lemma mock_put_then_get_witness :
  exists table stored,
    MockApi.putPreferences RouteFixture.mockTable "constructor"
      (JObj [("theme", JStr "dark"); ("role", JStr "admin")]) = Some table
    /\ table !! "constructor" = Some stored
    /\ assoc_get stored "theme" = Some (JStr "dark")
    /\ assoc_get stored "fontSize" = None
    /\ assoc_get stored "role" = None.
Proof.
  destruct (mock_put_then_get RouteFixture.mockTable "constructor"
              "2025-10-12T10:00:00.000Z"
              (JObj [("theme", JStr "dark"); ("role", JStr "admin")]))
    as (table & stored & Hput & Hentry & _ & Hkeys & _ & Hnew & _).
  - discriminate.
  - exists table, stored. split; [exact Hput |]. split; [exact Hentry |].
    rewrite !Hkeys, Hnew by reflexivity. repeat split.
Defined.

End Preferences.

(* ===================================================================== *)
(** ** The quiz page *)
(* ===================================================================== *)

Section QuizPage.

(** On questions that are objects the count succeeds, and it is at
    most the number of questions. *)
Lemma countCorrect_le (valid : list Llm.Question.t)
    (answers : gmap nat string) :
  forall index,
    exists score,
      Quiz.countCorrect index (map Llm.Question.to_js valid) answers
      = Ok score
      /\ (score <= length valid)%nat.
Proof.
  induction valid as [| q rest IH]; intros index.
  - exists 0%nat. split; [reflexivity | simpl; lia].
  - destruct (IH (S index)) as (score & Hscore & Hle).
    cbn [map Quiz.countCorrect]. unfold Llm.Question.to_js at 1.
    cbn [get_prop bind]. rewrite Hscore. cbn [bind].
    eexists. split; [reflexivity |].
    destruct (Quiz.strictEquals _ _); simpl; lia.
Qed.

Lemma or_else_truthy (o : option jsval) (d : jsval) :
  truthy d = true -> truthy (or_else o d) = true.
Proof.
  intros Hd. unfold or_else. destruct o as [v |]; [| assumption].
  destruct (truthy v) eqn:Hv; assumption.
Qed.

Lemma normalizeQuestion_answer_truthy (index : nat) (q : jsval)
    (nq : Llm.Question.t) :
  Llm.normalizeQuestion index q = Ok nq ->
  truthy (Llm.Question.correctAnswer nq) = true.
Proof.
  unfold Llm.normalizeQuestion, bind.
  destruct (get_prop q "options"); [| discriminate].
  destruct (map_indexed _ _ _); [| discriminate].
  destruct (get_prop q "question"); [| discriminate].
  destruct (get_prop q "correctAnswer"); [| discriminate].
  destruct (get_prop q "explanation"); [| discriminate].
  intros [= <-]. cbn. now apply or_else_truthy.
Qed.

Lemma map_indexed_Forall {A B} (f : nat -> A -> result B) (P : B -> Prop) :
  (forall i x y, f i x = Ok y -> P y) ->
  forall l i ys, map_indexed f i l = Ok ys -> Forall P ys.
Proof.
  intros Hf l. induction l as [| x l IH]; intros i ys; simpl.
  - intros [= <-]. constructor.
  - destruct (f i x) as [y |] eqn:Hy; [| discriminate].
    destruct (map_indexed f (S i) l) as [zs |] eqn:Hz; [| discriminate].
    intros [= <-]. constructor; [now apply Hf with i x |].
    now apply IH with (S i).
Qed.

(** No answer, or the empty answer that a reset leaves, is never equal
    to a correct answer that is truthy. *)
Lemma blank_answer_wrong (answer : option string) (q : Llm.Question.t) :
  answer = None \/ answer = Some "" ->
  truthy (Llm.Question.correctAnswer q) = true ->
  Quiz.strictEquals answer (obj_get (Llm.Question.to_js q) "correctAnswer")
  = false.
Proof.
  intros Hblank Htruthy.
  change (obj_get (Llm.Question.to_js q) "correctAnswer")
    with (Some (Llm.Question.correctAnswer q)).
  destruct Hblank as [-> | ->]; [reflexivity |].
  destruct (Llm.Question.correctAnswer q) as [| | | c | |];
    try reflexivity.
  simpl in *. destruct c; [discriminate | reflexivity].
Qed.

Lemma countCorrect_blank (valid : list Llm.Question.t)
    (answers : gmap nat string) :
  Forall (fun q => truthy (Llm.Question.correctAnswer q) = true) valid ->
  (forall i, answers !! i = None \/ answers !! i = Some "") ->
  forall index,
    Quiz.countCorrect index (map Llm.Question.to_js valid) answers
    = Ok 0%nat.
Proof.
  intros Hall Hblank. induction Hall as [| q valid Hq _ IH]; intros index.
  - reflexivity.
  - cbn [map Quiz.countCorrect].
    change (get_prop (Llm.Question.to_js q) "correctAnswer")
      with (Ok (obj_get (Llm.Question.to_js q) "correctAnswer")).
    cbn [bind]. rewrite IH. cbn [bind].
    now rewrite (blank_answer_wrong _ q (Hblank index) Hq).
Qed.

(** X16.  The score is at most the number of questions.  On the questions
    that the backend normalised, a learner who answers nothing, or who
    resets every answer, scores 0. *)
Theorem blank_attempt_scores_zero (raw : list jsval) (expectedCount : Z)
    (valid : list Llm.Question.t) (answers : gmap nat string) :
  Llm.normalizeQuestions raw expectedCount = Ok valid ->
  (exists score,
     Quiz.calculateScore (map Llm.Question.to_js valid) answers = Ok score
     /\ (score <= length valid)%nat)
  /\ ((forall i, answers !! i = None \/ answers !! i = Some "") ->
      Quiz.calculateScore (map Llm.Question.to_js valid) answers
      = Ok 0%nat).
Proof.
  intros Hvalid. split.
  { unfold Quiz.calculateScore. apply countCorrect_le. }
  intros Hblank. unfold Quiz.calculateScore.
  apply countCorrect_blank; [| assumption].
  unfold Llm.normalizeQuestions in Hvalid.
  apply (map_indexed_Forall Llm.normalizeQuestion _
           normalizeQuestion_answer_truthy _ _ _ Hvalid).
Qed.

End QuizPage.

Section QuizPageMore.

Lemma blank_attempt_scores_zero_witness :
  Quiz.calculateScore
    (map Llm.Question.to_js
       [Llm.Question.mk 1 (JStr "Which hook keeps state?")
          [Llm.Opt.mk (JStr "A") (JStr "useState");
           Llm.Opt.mk (JStr "B") (JStr "useEffect");
           Llm.Opt.mk (JStr "C") (JStr "Opsi C");
           Llm.Opt.mk (JStr "D") (JStr "Opsi D")]
          (JStr "E") (JStr "Penjelasan belum tersedia.")])
    (Quiz.handleReset ∅ 0) = Ok 0%nat.
Proof.
  destruct (blank_attempt_scores_zero [Scenario.rawAnswerE] 3
              [Llm.Question.mk 1 (JStr "Which hook keeps state?")
                 [Llm.Opt.mk (JStr "A") (JStr "useState");
                  Llm.Opt.mk (JStr "B") (JStr "useEffect");
                  Llm.Opt.mk (JStr "C") (JStr "Opsi C");
                  Llm.Opt.mk (JStr "D") (JStr "Opsi D")]
                 (JStr "E") (JStr "Penjelasan belum tersedia.")]
              (Quiz.handleReset ∅ 0)) as [_ H].
  - vm_compute. reflexivity.
  - apply H. intros i. unfold Quiz.handleReset.
    destruct (decide (i = 0%nat)) as [-> | Hne].
    + right. apply lookup_insert_eq.
    + left. rewrite lookup_insert_ne by congruence. apply lookup_empty.
Defined.

(** X17.  A generator output that is one object, not an array, is passed on
    as it is.  When it has no [correctAnswer], the learner who leaves
    the question unanswered is counted as correct: both sides of the
    comparison are [undefined]. *)
Theorem unnormalised_question_scores_blank (extract : string -> result jsval)
    (text : string) (expectedCount : Z) (fields : list (string * jsval)) :
  1 <= expectedCount ->
  extract text = Ok (JObj fields) ->
  assoc_get fields "correctAnswer" = None ->
  Llm.parseGeminiResponse extract text expectedCount = Some [JObj fields]
  /\ Quiz.calculateScore [JObj fields] ∅ = Ok 1%nat.
Proof.
  intros Hn Hext Hnone. split.
  - unfold Llm.parseGeminiResponse, bind. rewrite Hext.
    unfold slice0. destruct (Z.ltb_spec expectedCount 0); [lia |].
    destruct (Z.to_nat expectedCount) eqn:Hc; [lia |].
    simpl. now rewrite take_nil.
  - unfold Quiz.calculateScore. cbn [Quiz.countCorrect get_prop obj_get bind].
    rewrite Hnone, lookup_empty. reflexivity.
Qed.

Lemma unnormalised_question_scores_blank_witness :
  Quiz.calculateScore [JObj [("question", JStr "What is AI?")]] ∅
  = Ok 1%nat.
Proof.
  destruct (unnormalised_question_scores_blank
              (fun _ => Ok (JObj [("question", JStr "What is AI?")]))
              "{...}" 3 [("question", JStr "What is AI?")]) as [_ H].
  - lia.
  - reflexivity.
  - reflexivity.
  - exact H.
Defined.

Lemma move_in_range (total index : Z) (m : Quiz.Move) :
  0 <= index < total -> Quiz.rendered total m ->
  0 <= Quiz.move total index m < total.
Proof.
  intros Hi Hm. destruct m; simpl in *.
  - unfold Quiz.handlePrevious. destruct (Z.ltb_spec 0 index); lia.
  - unfold Quiz.handleNext. destruct (Z.ltb_spec index (total - 1)); lia.
  - exact Hm.
Qed.

(** X18.  However the learner moves between the questions (arrows and
    numbered boxes), the index of the current question stays an index
    of a question; at the first question the back arrow, and at the
    last the forward arrow, change nothing. *)
Theorem navigation_stays_in_range (total index : Z)
    (moves : list Quiz.Move) :
  0 <= index < total ->
  Forall (Quiz.rendered total) moves ->
  0 <= fold_left (Quiz.move total) moves index < total
  /\ Quiz.handlePrevious 0 = 0
  /\ Quiz.handleNext total (total - 1) = total - 1.
Proof.
  intros Hi Hall. split.
  - revert index Hi. induction Hall as [| m moves Hm _ IH]; intros index Hi.
    + exact Hi.
    + simpl. apply IH. now apply move_in_range.
  - split; [reflexivity |].
    unfold Quiz.handleNext. destruct (Z.ltb_spec (total - 1) (total - 1)); lia.
Qed.

Lemma navigation_stays_in_range_witness :
  0 <= fold_left (Quiz.move 3)
         [Quiz.Next; Quiz.Next; Quiz.Next; Quiz.Box 0; Quiz.Previous] 0 < 3.
Proof.
  apply (navigation_stays_in_range 3 0
           [Quiz.Next; Quiz.Next; Quiz.Next; Quiz.Box 0; Quiz.Previous]).
  - lia.
  - repeat constructor; simpl; lia.
Defined.

(** The two readings of the score on every quiz of at most ten
    questions, checked on each score. *)
Lemma rounding_table :
  forallb (fun t =>
    forallb (fun s =>
      Bool.eqb (Quiz.isPassed (Z.of_nat s) (Z.of_nat t))
        (Qle_bool 80 (Quiz.scorePercentage (Z.of_nat s) (Z.of_nat t))))
      (seq 0 (S t)))
    (seq 1 10) = true.
Proof. vm_compute. reflexivity. Qed.

Lemma passed_is_80 (score total : Z) :
  1 <= total <= 10 -> 0 <= score <= total ->
  Quiz.isPassed score total
  = Qle_bool 80 (Quiz.scorePercentage score total).
Proof.
  intros Ht Hs. pose proof rounding_table as H.
  rewrite forallb_forall in H.
  specialize (H (Z.to_nat total)). rewrite forallb_forall in H.
  assert (Hin : In (Z.to_nat total) (seq 1 10)) by (apply in_seq; lia).
  specialize (H Hin (Z.to_nat score)).
  assert (Hin' : In (Z.to_nat score) (seq 0 (S (Z.to_nat total))))
    by (apply in_seq; lia).
  specialize (H Hin'). rewrite !Z2Nat.id in H by lia.
  now apply Bool.eqb_prop in H.
Qed.

(** X19.  On a quiz of at most ten questions (the most the backend allows)
    the result screen and the retry agree on the threshold: the screen
    says passed, from the rounded percentage, exactly when the
    percentage that the retry computes is 80 or more, which is when the
    retry raises an [easy] or [medium] difficulty by one level. *)
Theorem passed_iff_step_up (score total : Z) (d : string) :
  1 <= total <= 10 ->
  0 <= score <= total ->
  d = "easy" \/ d = "medium" ->
  (Quiz.isPassed score total = true
   <-> Qle_bool 80 (Quiz.scorePercentage score total) = true)
  /\ (Quiz.isPassed score total = true
      <-> Spec.level
            (Timer.nextDifficulty d (Quiz.scorePercentage score total))
          = Spec.level d + 1).
Proof.
  intros Ht Hs Hd. rewrite (passed_is_80 score total Ht Hs).
  split; [reflexivity |].
  unfold Timer.nextDifficulty.
  destruct (Qle_bool 80 (Quiz.scorePercentage score total));
    destruct (Qle_bool (Quiz.scorePercentage score total) 40);
    destruct Hd as [-> | ->]; cbn; split; intros H;
    try reflexivity; try discriminate H.
Qed.

Lemma passed_iff_step_up_witness :
  Quiz.isPassed 4 5 = true
  <-> Spec.level (Timer.nextDifficulty "medium" (Quiz.scorePercentage 4 5))
      = Spec.level "medium" + 1.
Proof.
  destruct (passed_iff_step_up 4 5 "medium") as [_ H].
  - lia.
  - lia.
  - now right.
  - exact H.
Defined.

(** X20.  The learner is not blocked by a failure of the generator.  On a
    valid request that the cache does not answer and on which the
    generator fails, the client takes the fallback response (its status
    is 200) and the page accepts its questions, between one and three
    of them.  A request that the validation rejects is answered 400:
    the client throws and the page has no questions to show. *)
Theorem fallback_reaches_learner (env : Llm.Env) (body : jsval)
    (statusText : string) :
  (forall value,
     Llm.readAlike env ->
     Llm.validate (Llm.coerce env) body = Joi.Valid value ->
     Llm.cacheMisses env value ->
     Spec.treatedAsFailure (Llm.questionCount value) (Spec.outcome env value)
     = true ->
     exists r questions,
       Llm.handler env body = Ok r
       /\ Llm.Res.fallback r = Some true
       /\ Quiz.acceptedQuestions (Quiz.received statusText r)
          = Some (JArr questions)
       /\ (1 <= length questions <= 3)%nat)
  /\ (forall details,
        Llm.validate (Llm.coerce env) body = Joi.Invalid details ->
        exists r,
          Llm.handler env body = Ok r
          /\ Llm.Res.status r = 400
          /\ Quiz.acceptedQuestions (Quiz.received statusText r) = None).
Proof.
  split.
  - intros value Hread Hvalid Hmiss Hfail.
    pose proof (validated_questionCount env body value Hread Hvalid)
      as Hcount.
    destruct (validated_range _ _ _ Hvalid) as [_ Hrange].
    destruct (miss_failure env value ltac:(lia) Hmiss Hfail) as [e He].
    exists (Llm.fallbackResponse (Llm.toInteger env) body).
    exists (map Llm.Question.to_js
              (take (Z.to_nat (Llm.questionCount value)) Llm.fallback)).
    assert (Hlen : length (map Llm.Question.to_js
                             (take (Z.to_nat (Llm.questionCount value))
                                Llm.fallback))
                   = Z.to_nat (Z.min (Llm.questionCount value) 3)).
    { rewrite length_map, length_take.
      change (length Llm.fallback) with 3%nat. lia. }
    split; [unfold Llm.handler; now rewrite Hvalid, He |].
    split; [reflexivity |].
    split; [| rewrite Hlen; lia].
    unfold Quiz.received, Quiz.acceptedQuestions, Llm.fallbackResponse.
    cbn [Llm.Res.status Llm.Res.questions].
    change ((200 <=? 200) && (200 <=? 299)) with true. cbv iota.
    rewrite getFallbackQuestions_take by (rewrite Hcount; lia).
    rewrite Hcount.
    cbv beta iota delta [Llm.Res.questions Quiz.lengthOf truthy].
    rewrite Hlen. cbn [andb].
    destruct (Nat.ltb_spec 0 (Z.to_nat (Z.min (Llm.questionCount value) 3)));
      [reflexivity | lia].
  - intros details Hd. unfold Llm.handler. rewrite Hd.
    eexists. split; [reflexivity |]. split; reflexivity.
Qed.

Lemma fallback_reaches_learner_witness :
  exists r questions,
    Llm.handler Scenario.outage Scenario.requestTwoAsText = Ok r
    /\ Quiz.acceptedQuestions (Quiz.received "OK" r) = Some (JArr questions)
    /\ (1 <= length questions <= 3)%nat.
Proof.
  destruct (fallback_reaches_learner Scenario.outage
              Scenario.requestTwoAsText "OK") as [H _].
  destruct (H Scenario.valueTwo) as (r & questions & Hr & _ & Ha & Hl).
  - now apply readAlike_decimal.
  - vm_compute. reflexivity.
  - now apply cacheMisses_down.
  - reflexivity.
  - exists r, questions. repeat split; try assumption; lia.
Defined.

End QuizPageMore.


(* ===================================================================== *)
(** ** The browser storage *)
(* ===================================================================== *)

Section BrowserStorage.

Lemma prefix_append (p s : string) : String.prefix p (p +:+ s) = true.
Proof.
  induction p as [| c p IH]; [destruct s; reflexivity |].
  change (String c p +:+ s) with (String c (p +:+ s)). simpl.
  destruct (ascii_dec c c); [assumption | congruence].
Qed.

(** Two texts without underscore that are followed by an underscore
    end at the same place. *)
Lemma underscore_split (u1 u2 r1 r2 : string) :
  Storage.noUnderscore u1 = true ->
  Storage.noUnderscore u2 = true ->
  u1 +:+ "_" +:+ r1 = u2 +:+ "_" +:+ r2 -> u1 = u2 /\ r1 = r2.
Proof.
  revert u2. induction u1 as [| c u1 IH]; intros [| c2 u2] H1 H2 Heq.
  - injection Heq as Heq. change (r1 = r2) in Heq. now split.
  - exfalso. injection Heq as Hc _. rewrite <- Hc in H2. discriminate H2.
  - exfalso. injection Heq as Hc _. rewrite Hc in H1. discriminate H1.
  - change (String c (u1 +:+ "_" +:+ r1) = String c2 (u2 +:+ "_" +:+ r2))
      in Heq.
    injection Heq as -> Heq. simpl in H1, H2.
    apply andb_true_iff in H1 as [_ H1]. apply andb_true_iff in H2 as [_ H2].
    destruct (IH u2 H1 H2 Heq) as [-> ->]. split; reflexivity.
Qed.

(** X21.  As long as no user id contains an underscore, the storage
    key of the saved answers determines the user and the tutorial: two
    assessments never share their slot of [localStorage]. *)
Theorem assessment_key_injective (userId1 tutorialId1 userId2
    tutorialId2 : string) :
  Storage.noUnderscore userId1 = true ->
  Storage.noUnderscore userId2 = true ->
  Storage.getAssessmentKey userId1 tutorialId1
  = Storage.getAssessmentKey userId2 tutorialId2 ->
  userId1 = userId2 /\ tutorialId1 = tutorialId2.
Proof.
  intros H1 H2 Heq. unfold Storage.getAssessmentKey in Heq.
  apply append_inv_tail in Heq as [_ Heq]; [| reflexivity].
  apply underscore_split in Heq as [-> Heq]; [| assumption ..].
  split; [reflexivity |]. now apply append_cancel_r with "_answers".
Qed.

Lemma fold_delete_lookup (l : list string) (m : gmap string string)
    (k : string) :
  fold_left (fun m key => delete key m) l m !! k
  = if decide (k ∈ l) then None else m !! k.
Proof.
  revert m. induction l as [| a l IH]; intros m; simpl.
  - destruct (decide (k ∈ [])) as [Hin | _]; [| reflexivity].
    now apply elem_of_nil in Hin.
  - rewrite IH. destruct (decide (k ∈ l)) as [Hin | Hin].
    + destruct (decide (k ∈ a :: l)) as [_ | Hno]; [reflexivity |].
      exfalso. apply Hno. now right.
    + destruct (decide (k ∈ a :: l)) as [Hk | Hno].
      * apply elem_of_cons in Hk as [-> | Hk]; [| contradiction].
        apply lookup_delete_eq.
      * apply lookup_delete_ne. intros ->. apply Hno. now left.
Qed.

Lemma clear_lookup (st : Storage.LocalStorage) (userId key : string) :
  Storage.blocked st = false ->
  Storage.items (Storage.clearAllUserData st userId) !! key
  = if String.prefix (Storage.STORAGE_PREFIX +:+ userId +:+ "_") key
    then None else Storage.items st !! key.
Proof.
  intros Hopen. unfold Storage.clearAllUserData, Storage.allKeys, bind.
  rewrite Hopen. cbn [Storage.items]. rewrite fold_delete_lookup.
  set (prefix := Storage.STORAGE_PREFIX +:+ userId +:+ "_").
  destruct (decide (key ∈ _)) as [Hin | Hno].
  - apply list_elem_of_In, filter_In in Hin as [_ Hin].
    apply andb_true_iff in Hin as [_ ->]. reflexivity.
  - destruct (String.prefix prefix key) eqn:Hp; [| reflexivity].
    destruct (Storage.items st !! key) as [v |] eqn:Hv; [| reflexivity].
    exfalso. apply Hno. apply list_elem_of_In, filter_In. split.
    + apply list_elem_of_In, list_elem_of_fmap. exists (key, v).
      split; [reflexivity |]. now apply elem_of_map_to_list.
    + rewrite Hp. destruct key; [discriminate Hp | reflexivity].
Qed.

(** X22.  [clearAllUserData] removes exactly the items whose key starts
    with [learncheck_<userId>_]: the saved answers of the user go, the
    attempt history that the quiz page keeps under
    [attempt_history_...] stays, and the answers of every other user
    whose id extends [userId] by an underscore and more go as well. *)
Theorem clearAllUserData_scope (st : Storage.LocalStorage)
    (userId : string) :
  Storage.blocked st = false ->
  (forall key,
     Storage.items (Storage.clearAllUserData st userId) !! key
     = if String.prefix (Storage.STORAGE_PREFIX +:+ userId +:+ "_") key
       then None else Storage.items st !! key)
  /\ (forall tutorialId,
        Storage.items (Storage.clearAllUserData st userId)
          !! Storage.getAssessmentKey userId tutorialId = None
        /\ Storage.items (Storage.clearAllUserData st userId)
             !! Storage.historyKey userId tutorialId
           = Storage.items st !! Storage.historyKey userId tutorialId)
  /\ (forall more tutorialId,
        Storage.items (Storage.clearAllUserData st userId)
          !! Storage.getAssessmentKey (userId +:+ "_" +:+ more) tutorialId
        = None).
Proof.
  intros Hopen. split; [| split].
  - intros key. now apply clear_lookup.
  - intros tutorialId. split.
    + rewrite clear_lookup by assumption.
      unfold Storage.getAssessmentKey.
      rewrite <- (append_assoc userId "_"), <- (append_assoc _ (userId +:+ "_")).
      now rewrite prefix_append.
    + rewrite clear_lookup by assumption. reflexivity.
  - intros more tutorialId. rewrite clear_lookup by assumption.
    unfold Storage.getAssessmentKey.
    rewrite !append_assoc.
    rewrite <- (append_assoc userId "_"), <- (append_assoc _ (userId +:+ "_")).
    now rewrite prefix_append.
Qed.

(** X23.  What [saveAssessmentState] stores, [loadAssessmentState]
    returns: with [localStorage] accessible and JSON that reads back
    the state it wrote, the state loaded for the same user and tutorial
    is the state saved, loading leaves the storage as it is, and saving
    touches no other key. *)
Theorem assessment_state_round_trip (json : Json)
    (st : Storage.LocalStorage) (userId tutorialId : string)
    (answers : list (string * jsval)) (currentQuestionIndex : Z)
    (isSubmitted : bool) (now : string) :
  Storage.blocked st = false ->
  now <> "" ->
  MemRedis.round_trips json
    (Storage.assessmentState userId tutorialId (JObj answers)
       currentQuestionIndex isSubmitted now) ->
  Storage.loadAssessmentState json
    (Storage.saveAssessmentState json st userId tutorialId (JObj answers)
       currentQuestionIndex isSubmitted now)
    userId tutorialId
  = (Some (Storage.assessmentState userId tutorialId (JObj answers)
             currentQuestionIndex isSubmitted now),
     Storage.saveAssessmentState json st userId tutorialId (JObj answers)
       currentQuestionIndex isSubmitted now)
  /\ forall key,
       key <> Storage.getAssessmentKey userId tutorialId ->
       Storage.items
         (Storage.saveAssessmentState json st userId tutorialId
            (JObj answers) currentQuestionIndex isSubmitted now) !! key
       = Storage.items st !! key.
Proof.
  intros Hopen Hnow (text & Hs & Hne & Hp).
  unfold Storage.saveAssessmentState. cbv zeta. unfold bind.
  rewrite Hs. unfold Storage.setItem. rewrite Hopen. split.
  - unfold Storage.loadAssessmentState, Storage.getItem.
    cbn [Storage.blocked Storage.items]. rewrite lookup_insert_eq.
    apply String.eqb_neq in Hne. rewrite Hne, Hp.
    destruct now as [| c rest]; [congruence | reflexivity].
  - intros key Hkey. cbn [Storage.items]. now apply lookup_insert_ne.
Qed.

(** X24.  [loadAssessmentState] never throws and reads one slot only.
    It returns a state only when the slot holds text that parses to a
    value with truthy [answers] and [lastUpdated], and then leaves the
    storage alone; a stored value that parses but lacks one of the two
    is removed from the storage; no other key is ever touched, and a
    blocked storage gives [null]. *)
Theorem loadAssessmentState_sound (json : Json)
    (st : Storage.LocalStorage) (userId tutorialId : string) :
  (forall key,
     key <> Storage.getAssessmentKey userId tutorialId ->
     Storage.items
       (snd (Storage.loadAssessmentState json st userId tutorialId)) !! key
     = Storage.items st !! key)
  /\ (forall state,
        fst (Storage.loadAssessmentState json st userId tutorialId)
        = Some state ->
        snd (Storage.loadAssessmentState json st userId tutorialId) = st
        /\ exists stored,
             Storage.items st !! Storage.getAssessmentKey userId tutorialId
             = Some stored
             /\ parse json (JStr stored) = Ok state
             /\ truthy_opt (obj_get state "answers") = true
             /\ truthy_opt (obj_get state "lastUpdated") = true)
  /\ (forall stored state,
        Storage.blocked st = false ->
        Storage.items st !! Storage.getAssessmentKey userId tutorialId
        = Some stored ->
        stored <> "" ->
        parse json (JStr stored) = Ok state ->
        state <> JNull ->
        truthy_opt (obj_get state "answers")
        && truthy_opt (obj_get state "lastUpdated") = false ->
        Storage.loadAssessmentState json st userId tutorialId
        = (None,
           Storage.mkLocalStorage
             (delete (Storage.getAssessmentKey userId tutorialId)
                (Storage.items st)) false))
  /\ (Storage.blocked st = true ->
      Storage.loadAssessmentState json st userId tutorialId = (None, st)).
Proof.
  unfold Storage.loadAssessmentState, Storage.getItem, Storage.removeItem.
  cbv zeta. set (slot := Storage.getAssessmentKey userId tutorialId).
  destruct (Storage.blocked st) eqn:Hb.
  { repeat split; try discriminate; try reflexivity. }
  split; [| split; [| split; [| discriminate]]].
  - intros key Hkey.
    destruct (Storage.items st !! slot) as [stored |]; [| reflexivity].
    destruct (String.eqb stored ""); [reflexivity |].
    destruct (parse json (JStr stored)) as [state |]; [| reflexivity].
    destruct (get_prop state "answers") as [a |]; [| reflexivity].
    destruct (negb (truthy_opt a) || _); [| reflexivity].
    cbn [snd Storage.items]. now apply lookup_delete_ne.
  - intros state.
    destruct (Storage.items st !! slot) as [stored |] eqn:Hst;
      [| discriminate].
    destruct (String.eqb stored ""); [discriminate |].
    destruct (parse json (JStr stored)) as [parsed |] eqn:Hparsed;
      [| discriminate].
    destruct (get_prop parsed "answers") as [a |] eqn:Ha; [| discriminate].
    destruct (negb (truthy_opt a) || _) eqn:Hchk; [discriminate |].
    cbn [fst snd]. intros [= <-]. split; [reflexivity |].
    exists stored. apply orb_false_iff in Hchk as [Hc1 Hc2].
    apply negb_false_iff in Hc1, Hc2.
    assert (Hobj : a = obj_get parsed "answers").
    { destruct parsed; simpl in Ha;
        [discriminate | injection Ha as <-; reflexivity ..]. }
    subst a. repeat split; first [reflexivity | assumption].
  - intros stored state _ -> Hne Hp Hnn Hchk.
    apply String.eqb_neq in Hne. rewrite Hne, Hp.
    rewrite get_prop_ok by assumption.
    rewrite <- negb_andb, Hchk. reflexivity.
Qed.

End BrowserStorage.

Section BrowserStorageWitnesses.

Lemma assessment_key_injective_witness :
  "user-1" = "user-1" /\ "35363" = "35363".
Proof.
  apply (assessment_key_injective "user-1" "35363" "user-1" "35363");
    reflexivity.
Defined.

Lemma clearAllUserData_scope_witness :
  Storage.items
    (Storage.clearAllUserData
       (Storage.mkLocalStorage
          (<[Storage.getAssessmentKey "1" "35363" := "{}"]>
             (<[Storage.historyKey "1" "35363" := "[]"]> ∅)) false)
       "1")
    !! Storage.getAssessmentKey "1" "35363" = None.
Proof.
  pose (st := Storage.mkLocalStorage
          (<[Storage.getAssessmentKey "1" "35363" := "{}"]>
             (<[Storage.historyKey "1" "35363" := "[]"]> ∅)) false).
  exact (proj1 (proj1 (proj2 (clearAllUserData_scope st "1" eq_refl))
                  "35363")).
Defined.

End BrowserStorageWitnesses.


Section BrowserStorageRoundTrip.

Lemma assessment_state_round_trip_witness :
  fst (Storage.loadAssessmentState StorageFixture.json
         (Storage.saveAssessmentState StorageFixture.json
            StorageFixture.emptyStorage "1" "35363"
            (JObj [("1", JStr "B")]) 0 false "2025-01-01T00:00:00.000Z")
         "1" "35363")
  = Some StorageFixture.savedState.
Proof.
  assert (Hrt : MemRedis.round_trips StorageFixture.json
                  StorageFixture.savedState).
  { exists "T". repeat split. discriminate. }
  exact (f_equal fst
           (proj1 (assessment_state_round_trip StorageFixture.json
                     StorageFixture.emptyStorage "1" "35363"
                     [("1", JStr "B")] 0 false "2025-01-01T00:00:00.000Z"
                     eq_refl ltac:(discriminate) Hrt))).
Defined.

End BrowserStorageRoundTrip.

(* ===================================================================== *)
(** ** The assessment hook against the question route *)
(* ===================================================================== *)

Section AssessmentHook.

(** X25.  The request that the hook [useAssessment] builds from its
    defaults asks for the difficulty [intermediate], which the schema
    of the question route does not know: unless the options bring a
    difficulty of their own, the route answers it with status 400 and a
    validation error, whatever the cache and the generator do, and the
    API client turns that answer into a thrown error. *)
Theorem hook_default_request_rejected (env : Llm.Env)
    (tutorialContent tutorialTitle statusText : string)
    (options : Hook.Options) (request : Api.GenerateQuestionsRequest) :
  Hook.difficulty options = None ->
  Hook.request tutorialContent tutorialTitle options = Ok request ->
  exists r e,
    Llm.handler env (Api.generateQuestions_body request) = Ok r
    /\ Llm.Res.status r = 400
    /\ Llm.Res.error r = Some "Validation error"
    /\ Quiz.received statusText r = Throw e.
Proof.
  intros Hd Hreq. unfold Hook.request in Hreq.
  destruct (String.eqb tutorialContent ""); [discriminate |].
  injection Hreq as <-. rewrite Hd.
  match goal with
  | |- context [Llm.handler _ ?body] =>
      pose proof (validate_cases (Llm.coerce env) body) as Hv
  end.
  unfold Llm.handler.
  destruct (Llm.allViolations _ _) as [| v vs] eqn:Hall.
  - exfalso. unfold Llm.allViolations, Api.generateQuestions_body in Hall.
    apply app_eq_nil in Hall as [_ Hall].
    apply app_eq_nil in Hall as [_ Hall].
    apply app_eq_nil in Hall as [Hall _].
    discriminate Hall.
  - rewrite Hv. do 2 eexists. repeat split.
Qed.

Lemma hook_default_request_rejected_witness :
  exists r e,
    Llm.handler Fixture.healthyGenerator
      (Api.generateQuestions_body
         (Api.mkRequest Scenario.content120 (Some "intermediate") (Some 3)
            (Some "id") (Some "React Hooks") None None None)) = Ok r
    /\ Llm.Res.status r = 400
    /\ Llm.Res.error r = Some "Validation error"
    /\ Quiz.received "Bad Request" r = Throw e.
Proof.
  apply (hook_default_request_rejected Fixture.healthyGenerator
           Scenario.content120 "React Hooks" "Bad Request" Hook.noOptions);
    reflexivity.
Defined.

End AssessmentHook.
